(** * Fit-Hub management system: session store, route guard and dashboards

    A shallow embedding of the TypeScript sources

    - [src/contexts/AuthContext.tsx]   (session store, [fetchUserData],
      [redirectBasedOnRole]),
    - [src/components/ProtectedRoute.tsx] (the route guard),
    - [src/pages/admin/Dashboard.tsx]  (revenue and top-trainer aggregates),
    - the member dashboard (attendance check-in / check-out toggle),

    followed by the properties proved about them.

    React components are functions from their inputs (props, context, router
    location) to an element; every hook setter, [console] call, [navigate]
    call and backend request is an explicit effect on a world record that is
    threaded through a small state-and-exception monad. *)

From Stdlib Require Import String Ascii List Bool ZArith NArith Lia Permutation.
From Stdlib Require Import Floats.
Import ListNotations.
Open Scope string_scope.

Set Implicit Arguments.

(* ================================================================== *)
(** * JavaScript values and helpers *)
(* ================================================================== *)

Module Js.

(** [String.prototype.startsWith]. *)
Definition startsWith (s p : string) : bool := String.prefix p s.

(** [Array.prototype.includes] on an array of strings (SameValueZero on
    strings is string equality). *)
Definition includes (l : list string) (x : string) : bool :=
  existsb (String.eqb x) l.

(** Truthiness of a string: every string but the empty one. *)
Definition truthy_string (s : string) : bool := negb (s =? "").

(** Truthiness of a number (integers are all this development needs):
    every number but zero. *)
Definition truthy_number (n : Z) : bool := negb (n =? 0)%Z.

(** Truthiness of [T | null] where every [T] is an object. *)
Definition truthy_object {A} (o : option A) : bool :=
  match o with Some _ => true | None => false end.

(** Truthiness of [string | null]. *)
Definition truthy_opt_string (o : option string) : bool :=
  match o with Some s => truthy_string s | None => false end.

(** Truthiness of [number | null]. *)
Definition truthy_opt_number (o : option Z) : bool :=
  match o with Some n => truthy_number n | None => false end.

(** An error object: the backend's error record or a thrown exception.
    Only its message matters here. *)
Record Error := mkError { message : string }.

(** What an awaited promise does: resolve with a value or reject. *)
Inductive Awaited (A : Type) :=
| Resolved (value : A)
| Rejected (reason : Error).
Arguments Rejected {A} reason.

(** The [{ data, error }] record every backend query resolves with. *)
Record Response (A : Type) := mkResponse {
  data : option A;
  error : option Error }.

End Js.
Import Js.

(* ================================================================== *)
(** * Effects: state and exceptions *)
(* ================================================================== *)

(** How a block of statements ends: normally with a value, or with a
    thrown error. *)
Inductive Completion (A : Type) :=
| Normal (value : A)
| Throw (exn : Error).
Arguments Throw {A} exn.

(** A computation over a world [W]. *)
Definition M (W A : Type) : Type := W -> Completion A * W.

Definition ret {W A} (a : A) : M W A := fun w => (Normal a, w).

Definition bind {W A B} (m : M W A) (k : A -> M W B) : M W B :=
  fun w =>
    match m w with
    | (Normal a, w') => k a w'
    | (Throw e, w') => (Throw e, w')
    end.

Definition throw {W A} (e : Error) : M W A := fun w => (Throw e, w).

(** [try { body } catch (error) { handler error }] *)
Definition try_catch {W A} (body : M W A) (handler : Error -> M W A) : M W A :=
  fun w =>
    match body w with
    | (Normal a, w') => (Normal a, w')
    | (Throw e, w') => handler e w'
    end.

Definition gets {W A} (f : W -> A) : M W A := fun w => (Normal (f w), w).
Definition modify {W} (f : W -> W) : M W unit := fun w => (Normal tt, f w).

(** [await p]: a rejected promise throws at the [await]. *)
Definition await {W A} (p : Awaited A) : M W A :=
  match p with
  | Resolved a => ret a
  | Rejected e => throw e
  end.

Declare Scope js_scope.
Delimit Scope js_scope with js.
Notation "x <- m ;; k" := (bind m (fun x => k))
  (at level 61, m at next level, right associativity) : js_scope.
Notation "m ;; k" := (bind m (fun _ => k))
  (at level 61, right associativity) : js_scope.
Open Scope js_scope.

(** The world reached and the completion produced. *)
Definition exec {W A} (m : M W A) (w : W) : W := snd (m w).
Definition eval {W A} (m : M W A) (w : W) : Completion A := fst (m w).

(* ================================================================== *)
(** * The console *)
(* ================================================================== *)

Inductive Level := LogLevel | ErrorLevel.

(** The values the sources hand to [console.log] / [console.error]. *)
Inductive Logged :=
| LUndefined
| LNull
| LBool (b : bool)
| LStr (s : string)
| LStrs (l : list string)
| LRecord (fields : list (string * string))
| LError (e : Error).

Record LogEntry := mkLog {
  level : Level;
  label : string;
  args : list Logged }.

(* ================================================================== *)
(** * Session store: [src/contexts/AuthContext.tsx] *)
(* ================================================================== *)

Module AuthContext.

(** [User] of the auth provider: an opaque external id and an email. *)
Record User := mkUser {
  user_id : string;
  user_email : option string }.

(** [Session] of the auth provider. *)
Record Session := mkSession {
  access_token : string;
  session_user : User }.

(** [interface UserData]: the profile row of the [users] table.  The
    declared type of [role] is the union of three literals, but the value
    is a row cast with [data as UserData]; at run time it is any string. *)
Record UserData := mkUserData {
  id : string;
  email : string;
  name : string;
  role : string }.

(** The four [useState] cells of [AuthProvider], which are also the data
    part of the context value handed out by [useAuth]. *)
Record AuthState := mkAuthState {
  session : option Session;
  user : option User;
  userData : option UserData;
  isLoading : bool }.

(** [useLocation()]: the router's current location.  Under [BrowserRouter]
    its [pathname] is [window.location.pathname]. *)
Record Location := mkLocation {
  pathname : string;
  search : string;
  hash : string }.

(** A request sent to the backend. *)
Inductive Request :=
| SelectUserById (userId : string).

(** Everything the session store and the guard can read or affect. *)
Record World := mkWorld {
  auth : AuthState;
  location : Location;
  navigations : list string;
  console : list LogEntry;
  requests : list Request }.

Definition set_auth (f : AuthState -> AuthState) (w : World) : World :=
  mkWorld (f (auth w)) (location w) (navigations w) (console w) (requests w).

(** [setUserData(v)] *)
Definition setUserData (v : option UserData) : M World unit :=
  modify (set_auth (fun a =>
    mkAuthState (session a) (user a) v (isLoading a))).

(** [console.log(label, args...)] and [console.error(label, args...)] *)
Definition console_log (l : string) (a : list Logged) : M World unit :=
  modify (fun w => mkWorld (auth w) (location w) (navigations w)
                           (console w ++ [mkLog LogLevel l a]) (requests w)).

Definition console_error (l : string) (a : list Logged) : M World unit :=
  modify (fun w => mkWorld (auth w) (location w) (navigations w)
                           (console w ++ [mkLog ErrorLevel l a]) (requests w)).

(** [navigate(to)] of [useNavigate()], for an absolute path without query
    or fragment: the router moves to that path, and the call is recorded. *)
Definition navigate (to : string) : M World unit :=
  modify (fun w => mkWorld (auth w) (mkLocation to "" "")
                           (navigations w ++ [to]) (console w) (requests w)).

(** Sending a request to the backend. *)
Definition send (r : Request) : M World unit :=
  modify (fun w => mkWorld (auth w) (location w) (navigations w)
                           (console w) (requests w ++ [r])).

(** [redirectBasedOnRole], AuthContext.tsx lines 95-117. *)
Definition redirectBasedOnRole (role : string) : M World unit :=
  currentPath <- gets (fun w => pathname (location w)) ;;   (* window.location.pathname *)
  (* Don't redirect if already on the correct dashboard *)
  if ((role =? "admin") && startsWith currentPath "/admin")
     || ((role =? "trainer") && startsWith currentPath "/trainer")
     || ((role =? "member") && startsWith currentPath "/member")
  then ret tt
  else
    (* Don't redirect if on auth page and just logged in *)
    if currentPath =? "/auth" then
      if role =? "admin" then navigate "/admin"
      else if role =? "trainer" then navigate "/trainer"
      else if role =? "member" then navigate "/member"
      else ret tt
    else ret tt.

Definition logged_userData (d : UserData) : Logged :=
  LRecord [("id", id d); ("name", name d); ("email", email d); ("role", role d)].

(** [fetchUserData], AuthContext.tsx lines 73-93.  [users_single userId] is
    what the backend does with the query
    [from("users").select("id, name, email, role").eq("id", userId).single()]. *)
Definition fetchUserData
    (users_single : string -> Awaited (Response UserData))
    (userId : string) : M World unit :=
  try_catch
    (send (SelectUserById userId) ;;
     r <- await (users_single userId) ;;
     match error r with
     | Some e => throw e
     | None => ret tt
     end ;;
     match data r with
     | Some d =>
         setUserData (Some d) ;;
         redirectBasedOnRole (role d)
     | None => ret tt
     end)
    (fun e =>
       console_error "Error fetching user data:" [LError e] ;;
       setUserData None).

End AuthContext.

(* ================================================================== *)
(** * Route guard: [src/components/ProtectedRoute.tsx] *)
(* ================================================================== *)

Module Guard.
Import AuthContext.

(** The [state] prop of [<Navigate>]: [{ from: location }]. *)
Record NavState := mkNavState { from : Location }.

(** What the guard renders.  [ReactNode] is the type of [children]. *)
Inductive Element (ReactNode : Type) :=
| LoadingIndicator
| Navigate (to : string) (state : option NavState) (replace : bool)
| Fragment (children : ReactNode).
Arguments LoadingIndicator {ReactNode}.
Arguments Navigate {ReactNode} to state replace.

(** [interface ProtectedRouteProps]; a missing [allowedRoles] is the empty
    array by the default in the parameter list. *)
Record ProtectedRouteProps (ReactNode : Type) := mkProps {
  children : ReactNode;
  allowedRoles : list string }.

Definition logged_user_email (u : option User) : Logged :=
  match u with
  | Some u' => match user_email u' with Some e => LStr e | None => LUndefined end
  | None => LUndefined
  end.

Definition logged_profile (d : option UserData) : Logged :=
  match d with
  | Some d' => logged_userData d'
  | None => LNull
  end.

(** [ProtectedRoute], ProtectedRoute.tsx lines 11-57. *)
Definition ProtectedRoute {ReactNode} (props : ProtectedRouteProps ReactNode)
  : M World (Element ReactNode) :=
  ctx <- gets auth ;;                           (* useAuth() *)
  loc <- gets location ;;                       (* useLocation() *)
  console_log "Protected Route - User:" [logged_user_email (user ctx)] ;;
  console_log "Protected Route - User Data:" [logged_profile (userData ctx)] ;;
  console_log "Protected Route - Is Loading:" [LBool (isLoading ctx)] ;;
  console_log "Protected Route - Allowed Roles:" [LStrs (allowedRoles props)] ;;
  let granted :=
    console_log "Protected Route - Access granted" [] ;;
    ret (Fragment (children props)) in
  if isLoading ctx then ret LoadingIndicator
  else if negb (truthy_object (user ctx)) then
    console_log "Protected Route - No user, redirecting to /auth" [] ;;
    ret (Navigate "/auth" (Some (mkNavState loc)) true)
  else
    (* allowedRoles.length > 0 && userData && !allowedRoles.includes(userData.role):
       the third conjunct reads [userData.role], so the test is split on
       [userData] first; a null [userData] makes the conjunction falsy. *)
    match userData ctx with
    | Some ud =>
        if (0 <? length (allowedRoles props))%nat
           && negb (includes (allowedRoles props) (role ud))
        then
          console_log
            "Protected Route - User has incorrect role, redirecting to proper dashboard" [] ;;
          if role ud =? "admin" then ret (Navigate "/admin" None true)
          else if role ud =? "trainer" then ret (Navigate "/trainer" None true)
          else if role ud =? "member" then ret (Navigate "/member" None true)
          else
            (* Fallback - should not reach here if roles are properly set *)
            ret (Navigate "/auth" None true)
        else granted
    | None => granted
    end.

(** ** Vocabulary for the guard's properties *)

(** The world after a render that only wrote [lines] to the console. *)
Definition logged_more (w : World) (lines : list LogEntry) : World :=
  mkWorld (auth w) (location w) (navigations w) (console w ++ lines) (requests w).

(** The four lines every render starts with (lines 19-22). *)
Definition render_prologue {ReactNode} (props : ProtectedRouteProps ReactNode)
    (w : World) : list LogEntry :=
  [ mkLog LogLevel "Protected Route - User:" [logged_user_email (user (auth w))];
    mkLog LogLevel "Protected Route - User Data:" [logged_profile (userData (auth w))];
    mkLog LogLevel "Protected Route - Is Loading:" [LBool (isLoading (auth w))];
    mkLog LogLevel "Protected Route - Allowed Roles:" [LStrs (allowedRoles props)] ].

(** The last line a render writes on each of its paths. *)
Definition line_no_user : LogEntry :=
  mkLog LogLevel "Protected Route - No user, redirecting to /auth" [].
Definition line_wrong_role : LogEntry :=
  mkLog LogLevel
    "Protected Route - User has incorrect role, redirecting to proper dashboard" [].
Definition line_granted : LogEntry :=
  mkLog LogLevel "Protected Route - Access granted" [].

End Guard.

(* ================================================================== *)
(** * Admin dashboard: [src/pages/admin/Dashboard.tsx] *)
(* ================================================================== *)

Module AdminDashboard.

(** ** JavaScript numbers and [parseFloat]

    A JavaScript number is an IEEE 754 binary64 value, which is what
    [PrimFloat.float] is. *)
Definition number := float.

(** [parseFloat(x)] for a number [x] is [parseFloat(String(x))].  The
    shortest-round-trip text of a finite number parses back to it, and so do
    ["NaN"], ["Infinity"] and ["-Infinity"]; the one value that changes is
    negative zero, whose text is ["0"]. *)
Definition parseFloat_number (x : number) : number :=
  match classify x with
  | NZero => zero
  | _ => x
  end.

(** [parseFloat] on [number | null]: the text of [null] is ["null"], which
    is not a numeral. *)
Definition parseFloat (a : option number) : number :=
  match a with
  | Some x => parseFloat_number x
  | None => nan
  end.

(** [Array.prototype.reduce(f, init)]. *)
Definition reduce {A B} (f : B -> A -> B) (init : B) (l : list A) : B :=
  fold_left f l init.

(** ** Rows and requests *)

(** A row of [from("payments").select("amount")]. *)
Record PaymentRow := mkPayment { amount : option number }.

(** A row of [from("members").select("trainer_id, trainers(user_id)")]. *)
Record MemberRow := mkMember {
  trainer_id : option string;
  trainers_user_id : option string }.

(** A row of [from("trainers").select("*, users(name)")]. *)
Record TrainerRow := mkTrainer {
  trainer_row_id : string;
  users_name : option string }.

Inductive Request :=
| SelectPaymentAmounts
| SelectAssignedMembers
| SelectTrainerById (trainerId : string).

(** The backend, as this page sees it: what each query resolves with. *)
Record Backend := mkBackend {
  payments_amounts : Awaited (Response (list PaymentRow));
  members_with_trainer : Awaited (Response (list MemberRow));
  trainer_by_id : string -> Awaited (Response TrainerRow) }.

(** [topTrainer] state: [{ name, memberCount }]. *)
Record TopTrainer := mkTop {
  top_name : string;
  memberCount : Z }.

Record World := mkWorld {
  topTrainer : option TopTrainer;
  console : list LogEntry;
  requests : list Request }.

Definition console_error (l : string) (a : list Logged) : M World unit :=
  modify (fun w => mkWorld (topTrainer w)
                           (console w ++ [mkLog ErrorLevel l a]) (requests w)).

Definition send (r : Request) : M World unit :=
  modify (fun w => mkWorld (topTrainer w) (console w) (requests w ++ [r])).

Definition setTopTrainer (t : option TopTrainer) : M World unit :=
  modify (fun w => mkWorld t (console w) (requests w)).

(** A [TypeError]: reading a property of [null]. *)
Definition TypeError (what : string) : Error := mkError what.

(** ** Total revenue *)

(** The [queryFn] of the [totalRevenue] query, Dashboard.tsx lines 85-96. *)
Definition totalRevenue_queryFn (be : Backend) : M World number :=
  send SelectPaymentAmounts ;;
  r <- await (payments_amounts be) ;;
  match error r with
  | Some e =>
      console_error "Error fetching payments:" [LError e] ;;
      ret zero
  | None =>
      match data r with
      | Some rows =>
          ret (reduce (fun total payment =>
                         (total + parseFloat (amount payment))%float) zero rows)
      | None => throw (TypeError "Cannot read properties of null (reading 'reduce')")
      end
  end.

(** [const { data: totalRevenue = 0 } = useQuery(...)]: the query's [data]
    is the value [queryFn] returned, or [undefined] while nothing was
    returned; the destructuring default replaces [undefined] by [0]. *)
Definition useQuery_data {A} (c : Completion A) : option A :=
  match c with
  | Normal v => Some v
  | Throw _ => None
  end.

Definition totalRevenue (queryData : option number) : number :=
  match queryData with
  | Some v => v
  | None => zero
  end.

(** ** Top trainer *)

(** [trainerCounts] starts as the literal [{}], an ordinary object whose
    prototype is [Object.prototype].  These are the names of the properties
    it inherits: eleven functions, and the accessor [__proto__]. *)
Definition Object_prototype_names : list string :=
  [ "constructor"; "hasOwnProperty"; "isPrototypeOf"; "propertyIsEnumerable";
    "toLocaleString"; "toString"; "valueOf";
    "__defineGetter__"; "__defineSetter__"; "__lookupGetter__";
    "__lookupSetter__"; "__proto__" ].

Definition inherited (k : string) : bool :=
  existsb (String.eqb k) Object_prototype_names.

(** What the first loop stores in [trainerCounts]: a number, or the text
    that [+ 1] makes of what an inherited property gives.  [VText k ones]
    is the text of the value that reading the inherited property [k] gives
    (for a function its source text, such as
    "function toString() { [native code] }") followed by [ones] characters
    "1".  Such a text is not empty and is not a numeral. *)
Inductive Val :=
| VNum (n : Z)
| VText (k : string) (ones : nat).

(** The own properties of [trainerCounts], in creation order.  Keys are
    unique. *)
Definition Obj := list (string * Val).

(** What reading [o[k]] gives: [undefined], the value of an own property,
    or what the inherited property [k] gives: one of the functions of
    [Object.prototype], or, for the accessor [__proto__], the prototype
    object itself. *)
Inductive Got :=
| Undefined
| Own (v : Val)
| Inherited (k : string).

Fixpoint own_get (k : string) (o : Obj) : option Val :=
  match o with
  | [] => None
  | (k', v) :: o' => if k' =? k then Some v else own_get k o'
  end.

(** Writing an own property: an existing one keeps its place, a new one is
    created last. *)
Fixpoint own_set (k : string) (v : Val) (o : Obj) : Obj :=
  match o with
  | [] => [(k, v)]
  | (k', v') :: o' =>
      if k' =? k then (k', v) :: o' else (k', v') :: own_set k v o'
  end.

(** [o[k]]: the own property when there is one, else what the prototype
    has. *)
Definition obj_get (k : string) (o : Obj) : Got :=
  match own_get k o with
  | Some v => Own v
  | None => if inherited k then Inherited k else Undefined
  end.

(** [o[k] = v] for a number or string [v].  An own property is updated.
    Otherwise the prototype is consulted: [__proto__] is an accessor whose
    setter ignores a value that is neither an object nor [null], so nothing
    is stored; the inherited functions are writable data properties, and
    for them, as for a name the prototype does not have, an own property is
    created. *)
Definition obj_set (k : string) (v : Val) (o : Obj) : Obj :=
  match own_get k o with
  | Some _ => own_set k v o
  | None => if k =? "__proto__" then o else own_set k v o
  end.

(** The value of a decimal digit. *)
Definition digit_of (c : ascii) : option N :=
  let n := N_of_ascii c in
  if ((48 <=? n) && (n <=? 57))%N then Some (n - 48)%N else None.

Fixpoint parse_digits (s : string) (acc : N) : option N :=
  match s with
  | EmptyString => Some acc
  | String c s' =>
      match digit_of c with
      | Some d => parse_digits s' (10 * acc + d)%N
      | None => None
      end
  end.

(** A property key is an array index when it is the canonical decimal text
    of an integer between 0 and 2^32 - 2. *)
Definition array_index (s : string) : option N :=
  match s with
  | EmptyString => None
  | String c s' =>
      if (c =? "0")%char && negb (s' =? "") then None
      else
        match parse_digits s 0 with
        | Some n => if (n <=? 4294967294)%N then Some n else None
        | None => None
        end
  end.

Definition is_array_index (s : string) : bool :=
  match array_index s with Some _ => true | None => false end.

Definition index_of (s : string) : N :=
  match array_index s with Some n => n | None => 0%N end.

(** Insertion of a property among index properties sorted by index. *)
Fixpoint insert_by_index (p : string * Val) (l : list (string * Val))
  : list (string * Val) :=
  match l with
  | [] => [p]
  | q :: l' =>
      if (index_of (fst p) <=? index_of (fst q))%N then p :: q :: l'
      else q :: insert_by_index p l'
  end.

Definition sort_by_index (l : list (string * Val)) : list (string * Val) :=
  fold_right insert_by_index [] l.

(** [Object.entries(o)]: the own properties, array-index keys first, in
    ascending numeric order, then the other string keys in creation
    order. *)
Definition Object_entries (o : Obj) : list (string * Val) :=
  sort_by_index (filter (fun p => is_array_index (fst p)) o)
  ++ filter (fun p => negb (is_array_index (fst p))) o.

(** [(x || 0) + 1] for what [trainerCounts[id]] gives.  [undefined] and [0]
    are falsy, so [0 + 1] is computed; a non-zero number is incremented; a
    function, an object and a non-empty text are truthy, and [+] turns a
    function or object into its text and appends "1". *)
Definition or_zero_plus_one (x : Got) : Val :=
  match x with
  | Undefined => VNum (0 + 1)
  | Own (VNum n) => VNum ((if truthy_number n then n else 0) + 1)
  | Own (VText k ones) => VText k (S ones)
  | Inherited k => VText k 1
  end.

(** The callback of the first [forEach], lines 114-118. *)
Definition count_step (trainerCounts : Obj) (member : MemberRow) : Obj :=
  if truthy_opt_string (trainer_id member) then
    match trainer_id member with
    | Some t => obj_set t (or_zero_plus_one (obj_get t trainerCounts)) trainerCounts
    | None => trainerCounts
    end
  else trainerCounts.

(** Count members per trainer: [trainerCounts] after the first [forEach]. *)
Definition countMembers (rows : list MemberRow) : Obj :=
  fold_left count_step rows [].

(** The callback of the second [forEach], lines 123-128, on the pair
    [(topTrainerId, maxCount)].  [count > maxCount] with a text for [count]
    compares [NaN] with [maxCount], which is false. *)
Definition top_step (acc : option string * Z) (e : string * Val) : option string * Z :=
  let (trainerId, count) := e in
  match count with
  | VNum c => if (snd acc <? c)%Z then (Some trainerId, c) else acc
  | VText _ _ => acc
  end.

(** Find the trainer with most members: [(topTrainerId, maxCount)] after
    the second [forEach]. *)
Definition findTop (entries : list (string * Val)) : option string * Z :=
  fold_left top_step entries (None, 0%Z).

(** [fetchTopTrainer], Dashboard.tsx lines 101-148. *)
Definition fetchTopTrainer (be : Backend) : M World unit :=
  send SelectAssignedMembers ;;
  r <- await (members_with_trainer be) ;;
  match error r with
  | Some e => console_error "Error fetching trainer data:" [LError e]
  | None =>
      match data r with
      | None => throw (TypeError "Cannot read properties of null (reading 'forEach')")
      | Some rows =>
          let trainerCounts := countMembers rows in
          let (topTrainerId, maxCount) := findTop (Object_entries trainerCounts) in
          (* If we have a top trainer, get their details *)
          if truthy_opt_string topTrainerId then
            match topTrainerId with
            | None => ret tt
            | Some tid =>
                send (SelectTrainerById tid) ;;
                tr <- await (trainer_by_id be tid) ;;
                match error tr with
                | Some e => console_error "Error fetching top trainer:" [LError e]
                | None =>
                    match data tr with
                    | Some trainerData =>
                        match users_name trainerData with
                        | Some nm => setTopTrainer (Some (mkTop nm maxCount))
                        | None =>
                            throw (TypeError "Cannot read properties of null (reading 'name')")
                        end
                    | None =>
                        throw (TypeError "Cannot read properties of null (reading 'users')")
                    end
                end
            end
          else ret tt
      end
  end.


(** ** Vocabulary for the aggregates' properties *)

(** The numeric column: [amount] of each row, [NaN] standing for [null]
    (which is what [parseFloat(null)] is). *)
Definition amount_value (p : PaymentRow) : number :=
  match amount p with Some x => x | None => nan end.

(** The sum of the first [k] of the given numbers, in binary64 arithmetic
    and in the order of the list: [S 0 = 0], [S (k+1) = S k + a_k]. *)
Fixpoint partial_sum (amounts : list number) (k : nat) : number :=
  match k with
  | O => zero
  | S k' => (partial_sum amounts k' + nth k' amounts zero)%float
  end.

(** The sum of the [amount] field over every row. *)
Definition sum_amounts (rows : list PaymentRow) : number :=
  partial_sum (map amount_value rows) (length rows).

(** The number of member rows whose [trainer_id] is [t]. *)
Definition assigned_members (t : string) (rows : list MemberRow) : Z :=
  Z.of_nat (length (filter (fun m => match trainer_id m with
                                     | Some t' => t' =? t
                                     | None => false
                                     end) rows)).

(** The names of the own properties of [o], in creation order. *)
Definition keys (o : Obj) : list string := map fst o.

(** The trainer ids that the first loop counts with numbers: the ones that
    are not empty and are not the name of a property of
    [Object.prototype]. *)
Definition regular (t : string) : bool :=
  truthy_string t && negb (inherited t).

(** A member row whose trainer id is regular. *)
Definition has_regular_trainer (m : MemberRow) : bool :=
  match trainer_id m with Some t => regular t | None => false end.

(** The trainer ids for which the first loop stores anything. *)
Definition storable (t : string) : bool :=
  truthy_string t && negb (t =? "__proto__").

(** How many rows a stored value stands for: the number itself, or the
    number of "1" appended to the text. *)
Definition weight (v : Val) : Z :=
  match v with
  | VNum n => n
  | VText _ ones => Z.of_nat ones
  end.

Definition weight_at (t : string) (o : Obj) : Z :=
  match own_get t o with Some v => weight v | None => 0%Z end.

(** What the first loop maintains for each property: a number is positive
    and stored under a regular id; a text is the text of the inherited
    property of the same name, which is not [__proto__], with at least one
    "1". *)
Definition entry_ok (e : string * Val) : Prop :=
  match snd e with
  | VNum n => regular (fst e) = true /\ (0 < n)%Z
  | VText k ones =>
      k = fst e /\ inherited k = true /\ k <> "__proto__" /\ (0 < ones)%nat
  end.

Definition well_counted (o : Obj) : Prop :=
  NoDup (keys o) /\ Forall entry_ok o.

(** An entry that the second loop, holding the count [n], passes over
    ([no_more_than]), and one that it would pass over even if it held less
    than [n] ([fewer_than]).  A text is not a count: it is passed over
    always. *)
Definition fewer_than (n : Z) (e : string * Val) : Prop :=
  match snd e with VNum c => (c < n)%Z | VText _ _ => True end.

Definition no_more_than (n : Z) (e : string * Val) : Prop :=
  match snd e with VNum c => (c <= n)%Z | VText _ _ => True end.

(** The world after a run that only sent the requests [rs]. *)
Definition sent (w : World) (rs : list Request) : World :=
  mkWorld (topTrainer w) (console w) (requests w ++ rs).

End AdminDashboard.

(* ================================================================== *)
(** * Member dashboard: attendance check-in / check-out *)
(* ================================================================== *)

Module MemberDashboard.

(** [interface Attendance]. *)
Record Attendance := mkAttendance {
  id : Z;
  member_id : string;
  check_in_time : string;
  check_out_time : option string }.

(** The object handed to [insert]: it has no [check_out_time] field. *)
Record InsertPayload := mkInsert {
  ins_member_id : string;
  ins_check_in_time : string }.

(** The object handed to [update]. *)
Record UpdatePayload := mkUpdate { upd_check_out_time : string }.

Inductive Request :=
| SelectAttendance (memberId : string)          (* newest first, limit 10 *)
| InsertAttendance (rows : list InsertPayload)
| UpdateAttendance (payload : UpdatePayload) (eq_id : Z).

(** The backend, as this page sees it: what each query resolves with. *)
Record Backend := mkBackend {
  select_attendance : string -> Awaited (Response (list Attendance));
  insert_attendance : list InsertPayload -> Awaited (Response (list Attendance));
  update_attendance : UpdatePayload -> Z -> Awaited (Response unit) }.

(** The component's state cells that the toggle reads or writes, the
    profile it gets from [useAuth], the console and the requests sent. *)
Record World := mkWorld {
  userData : option AuthContext.UserData;
  attendanceHistory : list Attendance;
  isCheckedIn : bool;
  currentAttendanceId : option Z;
  console : list LogEntry;
  requests : list Request }.

Definition setAttendanceHistory (h : list Attendance) : M World unit :=
  modify (fun w => mkWorld (userData w) h (isCheckedIn w)
                           (currentAttendanceId w) (console w) (requests w)).

Definition setIsCheckedIn (b : bool) : M World unit :=
  modify (fun w => mkWorld (userData w) (attendanceHistory w) b
                           (currentAttendanceId w) (console w) (requests w)).

Definition setCurrentAttendanceId (i : option Z) : M World unit :=
  modify (fun w => mkWorld (userData w) (attendanceHistory w) (isCheckedIn w)
                           i (console w) (requests w)).

Definition console_error (l : string) (a : list Logged) : M World unit :=
  modify (fun w => mkWorld (userData w) (attendanceHistory w) (isCheckedIn w)
                           (currentAttendanceId w)
                           (console w ++ [mkLog ErrorLevel l a]) (requests w)).

Definition send (r : Request) : M World unit :=
  modify (fun w => mkWorld (userData w) (attendanceHistory w) (isCheckedIn w)
                           (currentAttendanceId w) (console w) (requests w ++ [r])).

(** [data || []] *)
Definition or_empty {A} (d : option (list A)) : list A :=
  match d with Some l => l | None => [] end.

(** [data?.find(record => !record.check_out_time)] *)
Definition find_open (d : option (list Attendance)) : option Attendance :=
  match d with
  | Some l => find (fun record => negb (truthy_opt_string (check_out_time record))) l
  | None => None
  end.

(** [fetchAttendanceHistory], lines 539-565. *)
Definition fetchAttendanceHistory (be : Backend) : M World unit :=
  ud <- gets userData ;;
  match ud with
  | None => ret tt
  | Some u =>
      send (SelectAttendance (AuthContext.id u)) ;;
      r <- await (select_attendance be (AuthContext.id u)) ;;
      match error r with
      | Some e => console_error "Error fetching attendance history:" [LError e]
      | None =>
          setAttendanceHistory (or_empty (data r)) ;;
          (* Check if user is currently checked in *)
          match find_open (data r) with
          | Some currentAttendance =>
              setIsCheckedIn true ;;
              setCurrentAttendanceId (Some (id currentAttendance))
          | None =>
              setIsCheckedIn false ;;
              setCurrentAttendanceId None
          end
      end
  end.

(** [handleCheckIn], lines 567-590.  [now] is [new Date().toISOString()]. *)
Definition handleCheckIn (be : Backend) (now : string) : M World unit :=
  ud <- gets userData ;;
  match ud with
  | None => ret tt
  | Some u =>
      let payload := [mkInsert (AuthContext.id u) now] in
      send (InsertAttendance payload) ;;
      r <- await (insert_attendance be payload) ;;
      match error r with
      | Some e => console_error "Error checking in:" [LError e]
      | None =>
          match data r with
          | Some (first :: _) =>
              setIsCheckedIn true ;;
              setCurrentAttendanceId (Some (id first)) ;;
              fetchAttendanceHistory be
          | _ => ret tt
          end
      end
  end.

(** [handleCheckOut], lines 592-610. *)
Definition handleCheckOut (be : Backend) (now : string) : M World unit :=
  cur <- gets currentAttendanceId ;;
  if negb (truthy_opt_number cur) then ret tt
  else
    match cur with
    | None => ret tt
    | Some i =>
        send (UpdateAttendance (mkUpdate now) i) ;;
        r <- await (update_attendance be (mkUpdate now) i) ;;
        match error r with
        | Some e => console_error "Error checking out:" [LError e]
        | None =>
            setIsCheckedIn false ;;
            setCurrentAttendanceId None ;;
            fetchAttendanceHistory be
        end
    end.

(** ** Vocabulary for the toggle's properties *)

(** The world in which the pair [(isCheckedIn, currentAttendanceId)] was
    set to [(b, i)] and the request [r] was sent. *)
Definition toggled (w : World) (b : bool) (i : option Z) (r : Request) : World :=
  mkWorld (userData w) (attendanceHistory w) b i (console w) (requests w ++ [r]).

(** A record that is still open: it has no check-out time. *)
Definition open_record (r : Attendance) : Prop := check_out_time r = None.

(** Timestamps that come from the backend are never the empty string. *)
Definition timestamps_ok (l : list Attendance) : Prop :=
  Forall (fun r => check_out_time r <> Some "") l.

End MemberDashboard.

(* ================================================================== *)
(** * Sample sessions and pages *)
(* ================================================================== *)

Module Samples.
Import AuthContext Guard.

Definition alice : User := mkUser "u-1" (Some "alice@fithub.test").
Definition alice_session : Session := mkSession "token" alice.

Definition profile (r : string) : UserData :=
  mkUserData "u-1" "alice@fithub.test" "Alice" r.

Definition at_path (p : string) (a : AuthState) : World :=
  mkWorld a (mkLocation p "" "") [] [] [].

(** Nobody is signed in. *)
Definition anonymous : AuthState := mkAuthState None None None false.

(** Signed in, the profile has not arrived (or its fetch failed). *)
Definition pending : AuthState :=
  mkAuthState (Some alice_session) (Some alice) None false.

(** Signed in with a fetched profile of role [r]. *)
Definition ready (r : string) : AuthState :=
  mkAuthState (Some alice_session) (Some alice) (Some (profile r)) false.

(** The routes of [App.tsx]; the page is named by a string. *)
Definition admin_page : ProtectedRouteProps string := mkProps "AdminUsers" ["admin"].
Definition trainer_page : ProtectedRouteProps string := mkProps "TrainerDashboard" ["trainer"].
Definition member_page : ProtectedRouteProps string := mkProps "MemberDashboard" ["member"].

(** Payments of 49.50, 120 and 30.25. *)
Definition payments : list AdminDashboard.PaymentRow :=
  [ AdminDashboard.mkPayment (Some 49.5%float);
    AdminDashboard.mkPayment (Some 120%float);
    AdminDashboard.mkPayment (Some 30.25%float) ].

(** Six members: two with trainer t-a, two with t-b, one with t-c, one
    without a trainer. *)
Definition members : list AdminDashboard.MemberRow :=
  [ AdminDashboard.mkMember (Some "t-a") (Some "u-7");
    AdminDashboard.mkMember (Some "t-b") (Some "u-8");
    AdminDashboard.mkMember None None;
    AdminDashboard.mkMember (Some "t-b") (Some "u-8");
    AdminDashboard.mkMember (Some "t-c") (Some "u-9");
    AdminDashboard.mkMember (Some "t-a") (Some "u-7") ].

(** The same, with numeric trainer ids: "10" is met first, then "9". *)
Definition numbered_members : list AdminDashboard.MemberRow :=
  [ AdminDashboard.mkMember (Some "10") None;
    AdminDashboard.mkMember (Some "9") None;
    AdminDashboard.mkMember (Some "9") None;
    AdminDashboard.mkMember (Some "10") None ].

Definition trainer_names (tid : string) : string :=
  if tid =? "t-a" then "Ana" else if tid =? "t-b" then "Ben" else "Cy".

Definition admin_backend : AdminDashboard.Backend :=
  AdminDashboard.mkBackend
    (Resolved (mkResponse (Some payments) None))
    (Resolved (mkResponse (Some members) None))
    (fun tid => Resolved (mkResponse
       (Some (AdminDashboard.mkTrainer tid (Some (trainer_names tid)))) None)).

(** A backend whose payments query fails. *)
Definition admin_backend_down : AdminDashboard.Backend :=
  AdminDashboard.mkBackend
    (Resolved (mkResponse None (Some (mkError "permission denied"))))
    (Resolved (mkResponse (Some []) None))
    (fun tid => Resolved (mkResponse None (Some (mkError "permission denied")))).



Definition fresh_admin_page : AdminDashboard.World :=
  AdminDashboard.mkWorld None [] [].

(** Attendance of member u-1: one open visit (id 12), one closed (id 11). *)
Definition visits : list MemberDashboard.Attendance :=
  [ MemberDashboard.mkAttendance 12 "u-1" "2024-05-02T08:00:00.000Z" None;
    MemberDashboard.mkAttendance 11 "u-1" "2024-05-01T08:00:00.000Z"
      (Some "2024-05-01T09:30:00.000Z") ].

Definition member_backend : MemberDashboard.Backend :=
  MemberDashboard.mkBackend
    (fun _ => Resolved (mkResponse (Some visits) None))
    (fun rows => Resolved (mkResponse
       (Some (map (fun p => MemberDashboard.mkAttendance 12
                              (MemberDashboard.ins_member_id p)
                              (MemberDashboard.ins_check_in_time p) None) rows))
       None))
    (fun _ _ => Resolved (mkResponse None None)).

Definition fresh_member_page : MemberDashboard.World :=
  MemberDashboard.mkWorld (Some (profile "member")) [] false None [] [].

End Samples.

(* ================================================================== *)
(** * Session store, continued: sign-in, sign-up, sign-out and start-up *)
(* ================================================================== *)

Module AuthProvider.
Import AuthContext.

(** [toast({ title, description, variant })]; [destructive] is
    [variant: "destructive"]. *)
Record Toast := mkToast {
  title : string;
  description : string;
  destructive : bool }.

(** Calls to the auth API and writes to the tables. *)
Inductive Call :=
| SignInWithPassword (email password : string)
| AuthSignUp (email password : string)
| AuthSignOut
| GetSession
| OnAuthStateChange
| InsertUser (user_id email name role : string)
| InsertMember (user_id join_date : string)
| InsertTrainer (user_id : string).

(** [{ data: authData, error: authError }] of [supabase.auth.signUp]. *)
Record SignUpResult := mkSignUpResult {
  signup_user : option User;
  signup_error : option Error }.

(** The backend, as the provider sees it: what each call resolves with.
    Calls whose result is only inspected for [error] resolve with that. *)
Record Api := mkApi {
  signInWithPassword : string -> string -> Awaited (option Error);
  auth_signUp : string -> string -> Awaited SignUpResult;
  auth_signOut : Awaited (option Error);
  getSession : Awaited (option Session);
  insert_user : string -> string -> string -> string -> Awaited (option Error);
  insert_member : string -> string -> Awaited (option Error);
  insert_trainer : string -> Awaited (option Error);
  users_single : string -> Awaited (Response UserData) }.

(** The provider's surroundings: the world of the session store, the
    toasts shown, the calls made, and the callbacks handed to
    [setTimeout(..., 0)] that have not run yet (each is a
    [fetchUserData(userId)], kept as its [userId]). *)
Record Shell := mkShell {
  world : World;
  toasts : list Toast;
  calls : list Call;
  timers : list string }.

(** A computation on the session store's world, run in the shell. *)
Definition lift {A} (m : M World A) : M Shell A :=
  fun s =>
    let (c, w') := m (world s) in
    (c, mkShell w' (toasts s) (calls s) (timers s)).

Definition toast (t : Toast) : M Shell unit :=
  modify (fun s => mkShell (world s) (toasts s ++ [t]) (calls s) (timers s)).

Definition call (c : Call) : M Shell unit :=
  modify (fun s => mkShell (world s) (toasts s) (calls s ++ [c]) (timers s)).

(** [setTimeout(async () => { await fetchUserData(userId) }, 0)] *)
Definition setTimeout_fetchUserData (userId : string) : M Shell unit :=
  modify (fun s => mkShell (world s) (toasts s) (calls s) (timers s ++ [userId])).

Definition setSession (v : option Session) : M World unit :=
  modify (set_auth (fun a => mkAuthState v (user a) (userData a) (isLoading a))).

Definition setUser (v : option User) : M World unit :=
  modify (set_auth (fun a => mkAuthState (session a) v (userData a) (isLoading a))).

Definition setIsLoading (v : bool) : M World unit :=
  modify (set_auth (fun a => mkAuthState (session a) (user a) (userData a) v)).

(** [if (error) throw error;] *)
Definition throw_if {W} (error : option Error) : M W unit :=
  match error with
  | Some e => throw e
  | None => ret tt
  end.

(** [s.split(c)[0]]: the text before the first [c], all of [s] when it has
    none. *)
Fixpoint split_first (c : ascii) (s : string) : string :=
  match s with
  | EmptyString => EmptyString
  | String a s' => if (a =? c)%char then EmptyString else String a (split_first c s')
  end.

(** [signIn], AuthContext.tsx lines 119-142. *)
Definition signIn (api : Api) (email password : string) : M Shell unit :=
  try_catch
    (call (SignInWithPassword email password) ;;
     error <- await (signInWithPassword api email password) ;;
     throw_if error ;;
     toast (mkToast "Success" "Successfully signed in" false))
    (fun error =>
       toast (mkToast "Error signing in" (message error) true) ;;
       throw error).

(** [signUp], AuthContext.tsx lines 144-203.  [now] is
    [new Date().toISOString()]. *)
Definition signUp (api : Api) (now : string)
    (email password name role : string) : M Shell unit :=
  try_catch
    ((* Create the auth user *)
     call (AuthSignUp email password) ;;
     r <- await (auth_signUp api email password) ;;
     throw_if (signup_error r) ;;
     match signup_user r with
     | None => throw (mkError "Failed to create user")
     | Some u =>
         (* Insert into users table *)
         call (InsertUser (user_id u) email name role) ;;
         userError <- await (insert_user api (user_id u) email name role) ;;
         throw_if userError ;;
         toast (mkToast "Account created" "You've successfully signed up" false) ;;
         (* If user is a member or trainer, create appropriate record *)
         if role =? "member" then
           let join_date := split_first "T" now in
           call (InsertMember (user_id u) join_date) ;;
           memberError <- await (insert_member api (user_id u) join_date) ;;
           throw_if memberError
         else if role =? "trainer" then
           call (InsertTrainer (user_id u)) ;;
           trainerError <- await (insert_trainer api (user_id u)) ;;
           throw_if trainerError
         else ret tt
     end)
    (fun error =>
       toast (mkToast "Error signing up" (message error) true) ;;
       throw error).

(** [signOut], AuthContext.tsx lines 205-223. *)
Definition signOut (api : Api) : M Shell unit :=
  try_catch
    (call AuthSignOut ;;
     error <- await (auth_signOut api) ;;
     throw_if error ;;
     lift (navigate "/auth") ;;
     toast (mkToast "Signed out" "You've been signed out successfully" false))
    (fun error =>
       toast (mkToast "Error signing out" (message error) true)).

(** The callback given to [onAuthStateChange], lines 40-51; the event name
    is not used. *)
Definition onAuthStateChange_callback (currentSession : option Session)
  : M Shell unit :=
  lift (setSession currentSession) ;;
  lift (setUser (option_map session_user currentSession)) ;;
  match currentSession with
  | Some s => setTimeout_fetchUserData (user_id (session_user s))
  | None => lift (setUserData None)
  end.

(** The event loop running the pending [setTimeout] callbacks, oldest
    first.  A callback awaits [fetchUserData], which catches what it
    throws and schedules nothing. *)
Definition run_timers (api : Api) : M Shell unit :=
  fun s =>
    fold_left
      (fun (acc : Completion unit * Shell) userId =>
         lift (fetchUserData (users_single api) userId) (snd acc))
      (timers s)
      (Normal tt, mkShell (world s) (toasts s) (calls s) []).

(** [setupAuth], lines 35-68, run from the mount effect; the steps of the
    function in order, with no auth event arriving in between. *)
Definition setupAuth (api : Api) : M Shell unit :=
  lift (setIsLoading true) ;;
  (* Set up auth state listener *)
  call OnAuthStateChange ;;
  (* Check for existing session *)
  call GetSession ;;
  currentSession <- await (getSession api) ;;
  lift (setSession currentSession) ;;
  lift (setUser (option_map session_user currentSession)) ;;
  match currentSession with
  | Some s => lift (fetchUserData (users_single api) (user_id (session_user s)))
  | None => ret tt
  end ;;
  lift (setIsLoading false).

(** The shell after the calls [cs] were made and the toasts [ts] shown. *)
Definition told (s : Shell) (cs : list Call) (ts : list Toast) : Shell :=
  mkShell (world s) (toasts s ++ ts) (calls s ++ cs) (timers s).

(** What can happen after start-up, one thing at a time: an auth event
    reaches the listener, the pending timers run, or the user signs in,
    signs up or signs out. *)
Inductive Step :=
| AuthEvent (currentSession : option Session)
| Timers
| DoSignIn (email password : string)
| DoSignUp (now email password name role : string)
| DoSignOut.

Definition run_step (api : Api) (st : Step) : M Shell unit :=
  match st with
  | AuthEvent cs => onAuthStateChange_callback cs
  | Timers => run_timers api
  | DoSignIn e p => signIn api e p
  | DoSignUp now e p n r => signUp api now e p n r
  | DoSignOut => signOut api
  end.

(** The shell after a sequence of steps; a step that throws is an
    unhandled rejection and does not stop the next one. *)
Definition after_steps (api : Api) (steps : list Step) (s : Shell) : Shell :=
  fold_left (fun s st => exec (run_step api st) s) steps s.

End AuthProvider.

(* ================================================================== *)
(** * The landing page, the layout and the route table *)
(* ================================================================== *)

Module App.
Import AuthContext Guard.

(** The effect of [Index], the landing page at [/]: redirect based on
    user role. *)
Definition Index_effect : M World unit :=
  ctx <- gets auth ;;
  if negb (isLoading ctx) then
    match userData ctx with
    | Some ud =>
        if role ud =? "admin" then navigate "/admin"
        else if role ud =? "trainer" then navigate "/trainer"
        else if role ud =? "member" then navigate "/member"
        else ret tt
    | None => ret tt
    end
  else ret tt.

(** [onSignOut] of [DashboardLayout]: [await signOut(); navigate("/auth")]. *)
Definition onSignOut (api : AuthProvider.Api) : M AuthProvider.Shell unit :=
  AuthProvider.signOut api ;;
  AuthProvider.lift (navigate "/auth").

(** A sidebar entry of [DashboardLayout]. *)
Record SidebarRoute := mkSidebar {
  sidebar_label : string;
  href : string }.

(** [routes] of [DashboardLayout], by the role of the profile. *)
Definition sidebar (ud : option UserData) : list SidebarRoute :=
  match ud with
  | None => []
  | Some d =>
      if role d =? "admin" then
        [ mkSidebar "Dashboard" "/admin";
          mkSidebar "Users" "/admin/users";
          mkSidebar "Memberships" "/admin/memberships";
          mkSidebar "Attendance" "/admin/attendance";
          mkSidebar "Payments" "/admin/payments";
          mkSidebar "Feedback" "/admin/feedback" ]
      else if role d =? "trainer" then
        [ mkSidebar "Dashboard" "/trainer";
          mkSidebar "Members" "/trainer/members";
          mkSidebar "Workout Plans" "/trainer/workout-plans";
          mkSidebar "Attendance" "/trainer/attendance" ]
      else if role d =? "member" then
        [ mkSidebar "Dashboard" "/member";
          mkSidebar "Workout Plan" "/member/workout-plan";
          mkSidebar "Attendance" "/member/attendance";
          mkSidebar "Payments" "/member/payments";
          mkSidebar "Feedback" "/member/feedback" ]
      else []
  end.

(** [isActive={location.pathname === route.href}] *)
Definition isActive (loc : Location) (r : SidebarRoute) : bool :=
  pathname loc =? href r.

(** The pages of [App.tsx]. *)
Inductive Page :=
| Index | Auth | NotFound
| AdminDashboard | AdminUsers | AdminMemberships
| TrainerDashboard | MemberDashboard | MemberFeedback.

(** A [<Route path element>] of [App.tsx]: the page, and the
    [allowedRoles] of the [ProtectedRoute] around it when there is one. *)
Record RouteDef := mkRoute {
  path : string;
  guarded_for : option (list string);
  page : Page }.

(** The route table of [App.tsx], lines 35-93, without the catch-all. *)
Definition routes : list RouteDef :=
  [ mkRoute "/" None Index;
    mkRoute "/auth" None Auth;
    mkRoute "/admin" (Some ["admin"]) AdminDashboard;
    mkRoute "/admin/users" (Some ["admin"]) AdminUsers;
    mkRoute "/admin/memberships" (Some ["admin"]) AdminMemberships;
    mkRoute "/trainer" (Some ["trainer"]) TrainerDashboard;
    mkRoute "/member" (Some ["member"]) MemberDashboard;
    mkRoute "/member/feedback" (Some ["member"]) MemberFeedback ].

(** The route registered under exactly the path [p]. *)
Definition route_at (p : string) : option RouteDef :=
  find (fun r => path r =? p) routes.

(** The element of a route: the page, inside the guard when the route has
    one. *)
Definition route_element (r : RouteDef) : M World (Element Page) :=
  match guarded_for r with
  | Some roles => ProtectedRoute (mkProps (page r) roles)
  | None => ret (Fragment (page r))
  end.

(** The router following a [<Navigate to>]: the location becomes [to]. *)
Definition follow (to : string) (w : World) : World :=
  mkWorld (auth w) (mkLocation to "" "") (navigations w) (console w) (requests w).

End App.

(* ================================================================== *)
(** * Vocabulary for further properties of the admin aggregates *)
(* ================================================================== *)

Module AdminAggregates.
Import AdminDashboard.

(** The count an entry holds, as the second loop reads it; a text is no
    count. *)
Definition count_of (v : Val) : Z :=
  match v with VNum n => n | VText _ _ => 0%Z end.

(** The sum of the counts stored in [trainerCounts]. *)
Definition total_count (o : Obj) : Z :=
  fold_right (fun e acc => (count_of (snd e) + acc)%Z) 0%Z o.

(** The number of member rows that have a trainer with a regular id. *)
Definition assigned_rows (rows : list MemberRow) : Z :=
  Z.of_nat (length (filter has_regular_trainer rows)).

(** The largest of the given counts and [0]. *)
Definition max_count (entries : list (string * Val)) : Z :=
  fold_right (fun e acc => Z.max (count_of (snd e)) acc) 0%Z entries.

End AdminAggregates.

(* ================================================================== *)
(** * Member dashboard: the workout plan *)
(* ================================================================== *)

Module MemberPlan.

(** [interface WorkoutPlan]. *)
Record WorkoutPlan := mkPlan {
  id : Z;
  member_id : string;
  trainer_id : string;
  created_at : string;
  plan_details : string;
  trainer_name : option string }.

(** The backend's error object, with its [code]. *)
Record PostgrestError := mkPgError {
  code : string;
  pg_message : string }.

(** [{ data, error }] of a [.single()] query. *)
Record Single (A : Type) := mkSingle {
  single_data : option A;
  single_error : option PostgrestError }.

Inductive Request :=
| SelectWorkoutPlan (memberId : string)
| SelectUserName (userId : string).

Record Backend := mkBackend {
  workout_plan_of : string -> Awaited (Single WorkoutPlan);
  user_name_of : string -> Awaited (Single string) }.

Record World := mkWorld {
  userData : option AuthContext.UserData;
  workoutPlan : option WorkoutPlan;
  console : list LogEntry;
  requests : list Request }.

Definition setWorkoutPlan (f : option WorkoutPlan -> option WorkoutPlan)
  : M World unit :=
  modify (fun w => mkWorld (userData w) (f (workoutPlan w)) (console w) (requests w)).

Definition console_error (l : string) (e : PostgrestError) : M World unit :=
  modify (fun w => mkWorld (userData w) (workoutPlan w)
                           (console w ++ [mkLog ErrorLevel l
                                            [LRecord [("code", code e);
                                                      ("message", pg_message e)]]])
                           (requests w)).

Definition send (r : Request) : M World unit :=
  modify (fun w => mkWorld (userData w) (workoutPlan w) (console w)
                           (requests w ++ [r])).

(** [fetchWorkoutPlan], lines 503-520 of the member dashboard. *)
Definition fetchWorkoutPlan (be : Backend) : M World unit :=
  ud <- gets userData ;;
  match ud with
  | None => ret tt
  | Some u =>
      send (SelectWorkoutPlan (AuthContext.id u)) ;;
      r <- await (workout_plan_of be (AuthContext.id u)) ;;
      match single_error r with
      | Some e =>
          if negb (code e =? "PGRST116")        (* No rows returned *)
          then console_error "Error fetching workout plan:" e
          else ret tt
      | None => setWorkoutPlan (fun _ => single_data r)
      end
  end.

(** [{ ...prev, trainer_name: n }] *)
Definition with_trainer_name (n : string) (p : WorkoutPlan) : WorkoutPlan :=
  mkPlan (id p) (member_id p) (trainer_id p) (created_at p) (plan_details p) (Some n).

(** [fetchTrainerName], lines 522-537. *)
Definition fetchTrainerName (be : Backend) : M World unit :=
  wp <- gets workoutPlan ;;
  match wp with
  | None => ret tt
  | Some p =>
      if negb (truthy_string (trainer_id p)) then ret tt
      else
        send (SelectUserName (trainer_id p)) ;;
        r <- await (user_name_of be (trainer_id p)) ;;
        match single_error r with
        | Some e => console_error "Error fetching trainer name:" e
        | None =>
            match single_data r with
            | Some n => setWorkoutPlan (option_map (with_trainer_name n))
            | None =>
                throw (mkError "Cannot read properties of null (reading 'name')")
            end
        end
  end.

(** The card's description, line 673:
    [workoutPlan ? `Assigned by ${workoutPlan.trainer_name || 'your trainer'}`
                 : 'No workout plan assigned yet']. *)
Definition plan_description (wp : option WorkoutPlan) : string :=
  match wp with
  | Some p =>
      "Assigned by " ++
      (if truthy_opt_string (trainer_name p)
       then match trainer_name p with Some n => n | None => "" end
       else "your trainer")
  | None => "No workout plan assigned yet"
  end.

End MemberPlan.

(* ================================================================== *)
(** * Trainer dashboard: today's attendance of the trainer's members *)
(* ================================================================== *)

Module TrainerDashboard.

(** A row of [from("members").select("id, users:user_id (id, name)")]. *)
Record MemberRow := mkMember {
  id : string;
  users_name : option string }.      (* [member.users?.name] *)

(** A row of [from("attendance").select("*")]. *)
Record AttendanceRow := mkAttendance {
  att_id : string;
  member_id : option string;
  status : option string }.

(** An entry of the list the query returns. *)
Record Marked := mkMarked {
  marked_id : string;
  marked_name : string;
  marked_status : string }.

Inductive Request :=
| SelectMembersOf (trainerId : string)
| SelectAttendanceOn (today : string) (memberIds : list string).

Record Backend := mkBackend {
  members_of : string -> Awaited (Response (list MemberRow));
  attendance_on : string -> list string -> Awaited (Response (list AttendanceRow)) }.

Record World := mkWorld {
  console : list LogEntry;
  requests : list Request }.

Definition console_error (l : string) (e : Error) : M World unit :=
  modify (fun w => mkWorld (console w ++ [mkLog ErrorLevel l [LError e]]) (requests w)).

Definition send (r : Request) : M World unit :=
  modify (fun w => mkWorld (console w) (requests w ++ [r])).

(** [x || fallback] for [x : string | null | undefined]. *)
Definition or_else (x : option string) (fallback : string) : string :=
  if truthy_opt_string x then match x with Some s => s | None => fallback end
  else fallback.

(** [a.member_id === member.id] *)
Definition same_member (member : MemberRow) (a : AttendanceRow) : bool :=
  match member_id a with
  | Some m => m =? id member
  | None => false
  end.

(** The callback of [members.map], lines 233-240: combine member info
    with attendance status.  [attendance] is [null] as [None]. *)
Definition combine (attendance : option (list AttendanceRow)) (member : MemberRow)
  : Marked :=
  let attendanceRecord :=
    match attendance with
    | Some l => find (same_member member) l
    | None => None
    end in
  mkMarked (id member)
           (or_else (users_name member) "Unknown")
           (or_else (match attendanceRecord with
                     | Some a => status a
                     | None => None
                     end) "not_marked").

(** The [queryFn] of [todaysAttendance], lines 196-243.  [now] is
    [new Date().toISOString()]. *)
Definition todaysAttendance_queryFn (be : Backend) (now : string)
    (trainerId : option string) : M World (list Marked) :=
  if negb (truthy_opt_string trainerId) then ret []
  else
    match trainerId with
    | None => ret []
    | Some tid =>
        let today := AuthProvider.split_first "T" now in
        (* Get members assigned to this trainer *)
        send (SelectMembersOf tid) ;;
        mr <- await (members_of be tid) ;;
        match error mr with
        | Some e => console_error "Error fetching members:" e ;; ret []
        | None =>
            match data mr with
            | None => ret []
            | Some [] => ret []
            | Some members =>
                (* Get attendance records for today for these members *)
                let memberIds := map id members in
                send (SelectAttendanceOn today memberIds) ;;
                ar <- await (attendance_on be today memberIds) ;;
                match error ar with
                | Some e => console_error "Error fetching attendance:" e ;; ret []
                | None => ret (map (combine (data ar)) members)
                end
            end
        end
    end.

End TrainerDashboard.

(* ================================================================== *)
(** * Further sample data *)
(* ================================================================== *)

Module MoreSamples.
Import AuthContext Samples.

(** A backend on which every call of the provider succeeds; the profile of
    every user is Alice's, with role member. *)
Definition api_ok : AuthProvider.Api :=
  AuthProvider.mkApi
    (fun _ _ => Resolved None)
    (fun _ _ => Resolved (AuthProvider.mkSignUpResult (Some alice) None))
    (Resolved None)
    (Resolved (Some alice_session))
    (fun _ _ _ _ => Resolved None)
    (fun _ _ => Resolved None)
    (fun _ => Resolved None)
    (fun _ => Resolved (mkResponse (Some (profile "member")) None)).

(** A backend that is down: every call rejects. *)
Definition api_down : AuthProvider.Api :=
  let e := mkError "Failed to fetch" in
  AuthProvider.mkApi
    (fun _ _ => Rejected e) (fun _ _ => Rejected e) (Rejected e) (Rejected e)
    (fun _ _ _ _ => Rejected e) (fun _ _ => Rejected e) (fun _ => Rejected e)
    (fun _ => Rejected e).

(** A backend that creates accounts and [users] rows but refuses rows in
    [members]. *)
Definition api_no_members : AuthProvider.Api :=
  AuthProvider.mkApi
    (fun _ _ => Resolved None)
    (fun _ _ => Resolved (AuthProvider.mkSignUpResult (Some alice) None))
    (Resolved None)
    (Resolved None)
    (fun _ _ _ _ => Resolved None)
    (fun _ _ => Resolved (Some (mkError "row-level security")))
    (fun _ => Resolved None)
    (fun _ => Resolved (mkResponse None None)).

(** A backend with a session for Alice whose profile query fails. *)
Definition api_no_profile : AuthProvider.Api :=
  AuthProvider.mkApi
    (fun _ _ => Resolved None)
    (fun _ _ => Resolved (AuthProvider.mkSignUpResult (Some alice) None))
    (Resolved None)
    (Resolved (Some alice_session))
    (fun _ _ _ _ => Resolved None)
    (fun _ _ => Resolved None)
    (fun _ => Resolved None)
    (fun _ => Resolved (mkResponse None (Some (mkError "JWT expired")))).

Definition shell_at (p : string) (a : AuthState) : AuthProvider.Shell :=
  AuthProvider.mkShell (at_path p a) [] [] [].

Definition noon : string := "2024-05-02T12:00:00.000Z".

(** Payments of which one has no amount. *)
Definition payments_with_null : list AdminDashboard.PaymentRow :=
  [ AdminDashboard.mkPayment (Some 49.5%float);
    AdminDashboard.mkPayment None;
    AdminDashboard.mkPayment (Some 30.25%float) ].

Definition admin_backend_null : AdminDashboard.Backend :=
  AdminDashboard.mkBackend
    (Resolved (mkResponse (Some payments_with_null) None))
    (Resolved (mkResponse (Some []) None))
    (fun tid => Resolved (mkResponse None (Some (mkError "not found")))).

(** Visit 12 of member u-1, open and then closed; an older visit 9 that
    was never closed. *)
Definition visit12_open : MemberDashboard.Attendance :=
  MemberDashboard.mkAttendance 12 "u-1" noon None.
Definition visit12_closed : MemberDashboard.Attendance :=
  MemberDashboard.mkAttendance 12 "u-1" noon (Some "2024-05-02T13:00:00.000Z").
Definition visit9_open : MemberDashboard.Attendance :=
  MemberDashboard.mkAttendance 9 "u-1" "2024-04-30T08:00:00.000Z" None.

(** The backend while visit 12 is open, once it is closed, and once it is
    closed with visit 9 still open. *)
Definition backend_during : MemberDashboard.Backend :=
  MemberDashboard.mkBackend
    (fun _ => Resolved (mkResponse (Some [visit12_open]) None))
    (fun _ => Resolved (mkResponse (Some [visit12_open]) None))
    (fun _ _ => Resolved (mkResponse None None)).
Definition backend_after : MemberDashboard.Backend :=
  MemberDashboard.mkBackend
    (fun _ => Resolved (mkResponse (Some [visit12_closed]) None))
    (fun _ => Resolved (mkResponse (Some []) None))
    (fun _ _ => Resolved (mkResponse None None)).
Definition backend_after_two : MemberDashboard.Backend :=
  MemberDashboard.mkBackend
    (fun _ => Resolved (mkResponse (Some [visit12_closed; visit9_open]) None))
    (fun _ => Resolved (mkResponse (Some []) None))
    (fun _ _ => Resolved (mkResponse None None)).

Definition checked_in_page : MemberDashboard.World :=
  MemberDashboard.mkWorld (Some (profile "member")) [visit12_open; visit9_open]
    true (Some 12%Z) [] [].

(** A plan backend on which the member has no plan, and one that is
    down. *)
Definition plan_backend (code : string) : MemberPlan.Backend :=
  MemberPlan.mkBackend
    (fun _ => Resolved (MemberPlan.mkSingle None
                          (Some (MemberPlan.mkPgError code "query failed"))))
    (fun _ => Resolved (MemberPlan.mkSingle None
                          (Some (MemberPlan.mkPgError code "query failed")))).

Definition fresh_plan_page : MemberPlan.World :=
  MemberPlan.mkWorld (Some (profile "member")) None [] [].

(** A trainer with two members, of whom only the first has a record
    today. *)
Definition trainees : list TrainerDashboard.MemberRow :=
  [ TrainerDashboard.mkMember "m-1" (Some "Bo");
    TrainerDashboard.mkMember "m-2" None ].

Definition trainer_backend : TrainerDashboard.Backend :=
  TrainerDashboard.mkBackend
    (fun _ => Resolved (mkResponse (Some trainees) None))
    (fun _ _ => Resolved (mkResponse
       (Some [TrainerDashboard.mkAttendance "a-1" (Some "m-1") (Some "present")])
       None)).

Definition fresh_trainer_page : TrainerDashboard.World :=
  TrainerDashboard.mkWorld [] [].

End MoreSamples.

(* ================================================================== *)
(** * Properties of the route guard *)
(* ================================================================== *)

Section GuardFacts.
Import AuthContext Guard.

Variable ReactNode : Type.
Implicit Types (props : ProtectedRouteProps ReactNode) (w : World).

Ltac guard_run :=
  unfold ProtectedRoute, logged_more, render_prologue,
    line_no_user, line_wrong_role, line_granted,
    bind, gets, console_log, modify, ret;
  simpl.

Ltac guard_done := simpl; rewrite <- ?app_assoc; simpl; reflexivity.

(** One equation per path through the guard, in the order of the source. *)
Lemma ProtectedRoute_loading props w :
  isLoading (auth w) = true ->
  ProtectedRoute props w
  = (Normal LoadingIndicator, logged_more w (render_prologue props w)).
Proof. intros H. guard_run. rewrite !H. guard_done. Qed.

Lemma ProtectedRoute_no_user props w :
  isLoading (auth w) = false ->
  user (auth w) = None ->
  ProtectedRoute props w
  = (Normal (Navigate "/auth" (Some (mkNavState (location w))) true),
     logged_more w (render_prologue props w ++ [line_no_user])).
Proof. intros H1 H2. guard_run. rewrite !H1, !H2. guard_done. Qed.

Lemma ProtectedRoute_granted_no_profile props w u :
  isLoading (auth w) = false ->
  user (auth w) = Some u ->
  userData (auth w) = None ->
  ProtectedRoute props w
  = (Normal (Fragment (children props)),
     logged_more w (render_prologue props w ++ [line_granted])).
Proof. intros H1 H2 H3. guard_run. rewrite !H1, !H2, !H3. guard_done. Qed.

Lemma ProtectedRoute_granted props w u ud :
  isLoading (auth w) = false ->
  user (auth w) = Some u ->
  userData (auth w) = Some ud ->
  (0 <? length (allowedRoles props))%nat
    && negb (includes (allowedRoles props) (role ud)) = false ->
  ProtectedRoute props w
  = (Normal (Fragment (children props)),
     logged_more w (render_prologue props w ++ [line_granted])).
Proof.
  intros H1 H2 H3 H4. guard_run. rewrite !H1, !H2, !H3, H4. guard_done.
Qed.

Lemma ProtectedRoute_wrong_role props w u ud :
  isLoading (auth w) = false ->
  user (auth w) = Some u ->
  userData (auth w) = Some ud ->
  (0 <? length (allowedRoles props))%nat
    && negb (includes (allowedRoles props) (role ud)) = true ->
  ProtectedRoute props w
  = (Normal (Navigate
               (if role ud =? "admin" then "/admin"
                else if role ud =? "trainer" then "/trainer"
                else if role ud =? "member" then "/member"
                else "/auth") None true),
     logged_more w (render_prologue props w ++ [line_wrong_role])).
Proof.
  intros H1 H2 H3 H4. guard_run. rewrite !H1, !H2, !H3, H4.
  destruct (role ud =? "admin"); [guard_done|].
  destruct (role ud =? "trainer"); [guard_done|].
  destruct (role ud =? "member"); guard_done.
Qed.

Lemma nonempty_length (l : list string) : l <> [] -> (0 <? length l)%nat = true.
Proof. destruct l; [congruence | reflexivity]. Qed.

(** C1, in the form that holds.  When loading is over, an identity is present and no
    profile is stored (the fetch is pending or has failed), the guard skips
    the role check and renders the guarded content: it shows neither the
    loading indicator nor a redirect, whatever [allowedRoles] is. *)
Theorem guard_pending_profile_renders_content props w :
  isLoading (auth w) = false ->
  user (auth w) <> None ->
  userData (auth w) = None ->
  eval (ProtectedRoute props) w = Normal (Fragment (children props)).
Proof.
  intros H1 H2 H3. destruct (user (auth w)) as [u|] eqn:Hu; [|congruence].
  unfold eval. now erewrite ProtectedRoute_granted_no_profile by eassumption.
Qed.

(** C2.  When loading is over and no identity is present, the guard
    redirects to [/auth] and hands the current location, hence the
    requested path, over in the navigation state; this holds for every
    location, every [allowedRoles] and every stored profile. *)
Theorem guard_anonymous_redirects_to_auth props w :
  isLoading (auth w) = false ->
  user (auth w) = None ->
  exists st,
    eval (ProtectedRoute props) w = Normal (Navigate "/auth" (Some st) true)
    /\ from st = location w
    /\ pathname (from st) = pathname (location w).
Proof.
  intros H1 H2. exists (mkNavState (location w)). unfold eval.
  erewrite ProtectedRoute_no_user by eassumption. auto.
Qed.

(** C3.  A fetched role among admin, trainer and member that is missing
    from a non-empty [allowedRoles] is redirected to its own home route
    ["/" ++ role], and the guarded content is not rendered; in particular
    an admin on a page that allows only trainers is sent to [/admin]. *)
Theorem guard_wrong_role_redirects_home props w ud :
  isLoading (auth w) = false ->
  user (auth w) <> None ->
  userData (auth w) = Some ud ->
  (allowedRoles props <> [] ->
   includes (allowedRoles props) (role ud) = false ->
   role ud = "admin" \/ role ud = "trainer" \/ role ud = "member" ->
   eval (ProtectedRoute props) w = Normal (Navigate ("/" ++ role ud) None true)
   /\ eval (ProtectedRoute props) w <> Normal (Fragment (children props)))
  /\ (allowedRoles props = ["trainer"] ->
      role ud = "admin" ->
      eval (ProtectedRoute props) w = Normal (Navigate "/admin" None true)).
Proof.
  intros H1 H2 H3. destruct (user (auth w)) as [u|] eqn:Hu; [|congruence].
  split.
  - intros Hne Hin Hrole.
    assert (Hc : (0 <? length (allowedRoles props))%nat
                 && negb (includes (allowedRoles props) (role ud)) = true)
      by (rewrite (nonempty_length Hne), Hin; reflexivity).
    unfold eval. erewrite ProtectedRoute_wrong_role by eassumption. simpl.
    destruct Hrole as [-> | [-> | ->]]; simpl; split; congruence.
  - intros Hal Hrole.
    assert (Hc : (0 <? length (allowedRoles props))%nat
                 && negb (includes (allowedRoles props) (role ud)) = true)
      by (rewrite Hal, Hrole; reflexivity).
    unfold eval. erewrite ProtectedRoute_wrong_role by eassumption.
    now rewrite Hrole.
Qed.

(** C4.  A fetched role that is none of admin, trainer and member and is
    missing from a non-empty [allowedRoles] falls through to the fallback:
    the guard redirects to [/auth], not to a dashboard and not to the
    guarded content. *)
Theorem guard_unknown_role_redirects_to_auth props w ud :
  isLoading (auth w) = false ->
  user (auth w) <> None ->
  userData (auth w) = Some ud ->
  role ud <> "admin" -> role ud <> "trainer" -> role ud <> "member" ->
  allowedRoles props <> [] ->
  includes (allowedRoles props) (role ud) = false ->
  eval (ProtectedRoute props) w = Normal (Navigate "/auth" None true).
Proof.
  intros H1 H2 H3 Ha Ht Hm Hne Hin.
  destruct (user (auth w)) as [u|] eqn:Hu; [|congruence].
  assert (Hc : (0 <? length (allowedRoles props))%nat
               && negb (includes (allowedRoles props) (role ud)) = true)
    by (rewrite (nonempty_length Hne), Hin; reflexivity).
  unfold eval. erewrite ProtectedRoute_wrong_role by eassumption. simpl.
  apply String.eqb_neq in Ha, Ht, Hm. now rewrite Ha, Ht, Hm.
Qed.

(** C6.  A render of the guard completes normally with an element (the
    loading indicator, a [Navigate] or the children) and leaves the session
    store as it was: [session], [user], [userData] and [isLoading] are
    untouched, and so are the router location, the navigation history and
    the requests sent; the only thing added to the world is diagnostic
    lines on the console. *)
Theorem guard_leaves_session_unchanged props w :
  auth (exec (ProtectedRoute props) w) = auth w
  /\ exists el lines,
       ProtectedRoute props w = (Normal el, logged_more w lines)
       /\ Forall (fun l => level l = LogLevel) lines.
Proof.
  assert (E : exists el lines,
             ProtectedRoute props w = (Normal el, logged_more w lines)
             /\ Forall (fun l => level l = LogLevel) lines).
  { destruct (isLoading (auth w)) eqn:H1.
    { eexists _, _. split; [eapply ProtectedRoute_loading; eassumption|].
      repeat constructor. }
    destruct (user (auth w)) as [u|] eqn:H2.
    2:{ eexists _, _. split; [eapply ProtectedRoute_no_user; eassumption|].
        repeat constructor. }
    destruct (userData (auth w)) as [ud|] eqn:H3.
    2:{ eexists _, _.
        split; [eapply ProtectedRoute_granted_no_profile; eassumption|].
        repeat constructor. }
    destruct ((0 <? length (allowedRoles props))%nat
              && negb (includes (allowedRoles props) (role ud))) eqn:H4.
    - eexists _, _.
      split; [eapply ProtectedRoute_wrong_role; eassumption|].
      repeat constructor.
    - eexists _, _.
      split; [eapply ProtectedRoute_granted; eassumption|].
      repeat constructor. }
  split; [|exact E].
  destruct E as (el & lines & E & _). unfold exec. now rewrite E.
Qed.

End GuardFacts.

Section GuardWitnesses.
Import AuthContext Guard Samples.

(** C1, counterexample to "no profile yet means the loading state": signed
    in without a profile, on a page for admins only, the guard renders the
    page. *)
Lemma guard_pending_profile_counterexample :
  let w := at_path "/admin/users" pending in
  isLoading (auth w) = false
  /\ user (auth w) = Some alice
  /\ userData (auth w) = None
  /\ eval (ProtectedRoute admin_page) w = Normal (Fragment "AdminUsers")
  /\ eval (ProtectedRoute admin_page) w <> Normal LoadingIndicator.
Proof. cbv zeta. repeat split; try reflexivity. discriminate. Qed.

Lemma guard_pending_profile_renders_content_witness :
  eval (ProtectedRoute admin_page) (at_path "/admin/users" pending)
  = Normal (Fragment "AdminUsers").
Proof.
  apply (guard_pending_profile_renders_content admin_page
           (at_path "/admin/users" pending)).
  - reflexivity.
  - discriminate.
  - reflexivity.
Defined.

Lemma guard_anonymous_redirects_to_auth_witness :
  exists st,
    eval (ProtectedRoute admin_page) (at_path "/admin/users" anonymous)
    = Normal (Navigate "/auth" (Some st) true)
    /\ from st = mkLocation "/admin/users" "" ""
    /\ pathname (from st) = "/admin/users".
Proof.
  apply (guard_anonymous_redirects_to_auth admin_page
           (at_path "/admin/users" anonymous)); reflexivity.
Defined.

Lemma guard_wrong_role_redirects_home_witness :
  eval (ProtectedRoute trainer_page) (at_path "/trainer" (ready "admin"))
  = Normal (Navigate "/admin" None true)
  /\ eval (ProtectedRoute admin_page) (at_path "/admin" (ready "member"))
    = Normal (Navigate "/member" None true).
Proof.
  split.
  - apply (guard_wrong_role_redirects_home trainer_page
             (at_path "/trainer" (ready "admin")) (ud := profile "admin"));
      try reflexivity; discriminate.
  - apply (guard_wrong_role_redirects_home admin_page
             (at_path "/admin" (ready "member")) (ud := profile "member"));
      try reflexivity; try discriminate.
    right; right; reflexivity.
Defined.

Lemma guard_unknown_role_redirects_to_auth_witness :
  eval (ProtectedRoute admin_page) (at_path "/admin" (ready "guest"))
  = Normal (Navigate "/auth" None true).
Proof.
  apply (guard_unknown_role_redirects_to_auth admin_page
           (at_path "/admin" (ready "guest")) (ud := profile "guest"));
    try reflexivity; discriminate.
Defined.

End GuardWitnesses.

(* ================================================================== *)
(** * Properties of the session store *)
(* ================================================================== *)

Section AuthFacts.
Import AuthContext.

Implicit Types (w : World) (role : string).

Ltac auth_run :=
  unfold fetchUserData, redirectBasedOnRole, try_catch, bind, gets, await,
    throw, send, setUserData, console_error, navigate, set_auth, modify, ret;
  simpl.

(** Off the sign-in page, [redirectBasedOnRole] does nothing. *)
Lemma redirect_off_auth role w :
  pathname (location w) <> "/auth" ->
  redirectBasedOnRole role w = (Normal tt, w).
Proof.
  intros H. apply String.eqb_neq in H. auth_run. rewrite H.
  now destruct (_ || _).
Qed.

(** On a path under the role's own home, it does nothing either. *)
Lemma redirect_at_home role w :
  role = "admin" \/ role = "trainer" \/ role = "member" ->
  startsWith (pathname (location w)) ("/" ++ role) = true ->
  redirectBasedOnRole role w = (Normal tt, w).
Proof.
  intros [-> | [-> | ->]] H; auth_run; simpl in H; rewrite H; reflexivity.
Qed.

(** On the sign-in page, each of the three roles is sent home. *)
Lemma redirect_from_auth role w :
  role = "admin" \/ role = "trainer" \/ role = "member" ->
  pathname (location w) = "/auth" ->
  redirectBasedOnRole role w = navigate ("/" ++ role) w.
Proof.
  intros [-> | [-> | ->]] H; auth_run; rewrite H; reflexivity.
Qed.

(** A run of [redirectBasedOnRole] never throws, and navigates at most
    once. *)
Lemma redirect_cases role w :
  redirectBasedOnRole role w = (Normal tt, w)
  \/ (pathname (location w) = "/auth"
      /\ (role = "admin" \/ role = "trainer" \/ role = "member")
      /\ redirectBasedOnRole role w = navigate ("/" ++ role) w).
Proof.
  destruct (String.eqb_spec (pathname (location w)) "/auth") as [Hp | Hp].
  2:{ left. now apply redirect_off_auth. }
  destruct (String.eqb_spec role "admin") as [-> | Ha].
  { right. repeat split; auto. apply redirect_from_auth; auto. }
  destruct (String.eqb_spec role "trainer") as [-> | Ht].
  { right. repeat split; auto. apply redirect_from_auth; auto. }
  destruct (String.eqb_spec role "member") as [-> | Hm].
  { right. repeat split; auto. apply redirect_from_auth; auto. }
  left. apply String.eqb_neq in Ha, Ht, Hm. auth_run.
  rewrite Ha, Ht, Hm. simpl. now rewrite Hp.
Qed.

(** C5.  [redirectBasedOnRole] navigates only when the current path is
    exactly [/auth], and then at most once.  A member on [/auth] is sent to
    [/member] by exactly one navigation, after which a further evaluation
    navigates nowhere; and for each of the three roles, a current path
    that starts with the role's home route means no navigation at all. *)
Theorem redirect_only_from_sign_in role w :
  (pathname (location w) <> "/auth" ->
   redirectBasedOnRole role w = (Normal tt, w))
  /\ (exists navs,
        navigations (exec (redirectBasedOnRole role) w) = (navigations w ++ navs)%list
        /\ (length navs <= 1)%nat
        /\ (navs <> [] -> pathname (location w) = "/auth"))
  /\ (role = "member" -> pathname (location w) = "/auth" ->
      let w1 := exec (redirectBasedOnRole role) w in
      navigations w1 = (navigations w ++ ["/member"])%list
      /\ pathname (location w1) = "/member"
      /\ redirectBasedOnRole role w1 = (Normal tt, w1))
  /\ (role = "admin" \/ role = "trainer" \/ role = "member" ->
      startsWith (pathname (location w)) ("/" ++ role) = true ->
      redirectBasedOnRole role w = (Normal tt, w)).
Proof.
  split; [apply redirect_off_auth|].
  split.
  { destruct (redirect_cases role w) as [E | (Hp & Hr & E)]; unfold exec; rewrite E.
    - exists []. simpl. rewrite app_nil_r. repeat split; auto. congruence.
    - exists ["/" ++ role]. simpl. repeat split; auto. }
  split; [|apply redirect_at_home].
  intros -> Hp. cbv zeta. unfold exec.
  rewrite (redirect_from_auth (role := "member") w) by auto.
  simpl. split; [reflexivity|]. split; [reflexivity|].
  apply redirect_at_home; auto.
Qed.

(** What a failed profile fetch leaves behind. *)
Lemma fetchUserData_rejected users_single userId w e :
  users_single userId = Rejected e ->
  fetchUserData users_single userId w
  = (Normal tt,
     mkWorld (mkAuthState (session (auth w)) (user (auth w)) None
                          (isLoading (auth w)))
             (location w) (navigations w)
             (console w ++ [mkLog ErrorLevel "Error fetching user data:" [LError e]])
             (requests w ++ [SelectUserById userId])).
Proof. intros H. auth_run. rewrite H. reflexivity. Qed.

Lemma fetchUserData_error users_single userId w d e :
  users_single userId = Resolved (mkResponse d (Some e)) ->
  fetchUserData users_single userId w
  = (Normal tt,
     mkWorld (mkAuthState (session (auth w)) (user (auth w)) None
                          (isLoading (auth w)))
             (location w) (navigations w)
             (console w ++ [mkLog ErrorLevel "Error fetching user data:" [LError e]])
             (requests w ++ [SelectUserById userId])).
Proof. intros H. auth_run. rewrite H. reflexivity. Qed.

(** C7.  When the profile query rejects, or resolves with an error, a run
    of [fetchUserData] completes normally having sent that one query and
    no other, stored [null] as the profile and written one error line to
    the console; [session], [user] and [isLoading] keep their values, the
    location is unchanged and no navigation was made. *)
Theorem fetchUserData_failure_leaves_profile_null users_single userId w e :
  (users_single userId = Rejected e
   \/ exists d, users_single userId = Resolved (mkResponse d (Some e))) ->
  let w' := exec (fetchUserData users_single userId) w in
  eval (fetchUserData users_single userId) w = Normal tt
  /\ userData (auth w') = None
  /\ console w'
     = (console w ++ [mkLog ErrorLevel "Error fetching user data:" [LError e]])%list
  /\ requests w' = (requests w ++ [SelectUserById userId])%list
  /\ navigations w' = navigations w
  /\ location w' = location w
  /\ session (auth w') = session (auth w)
  /\ user (auth w') = user (auth w)
  /\ isLoading (auth w') = isLoading (auth w).
Proof.
  intros H. cbv zeta. unfold exec, eval.
  destruct H as [H | [d H]];
    [rewrite (fetchUserData_rejected _ _ w H)
    | rewrite (fetchUserData_error _ _ w H)];
    simpl; repeat split; reflexivity.
Qed.

End AuthFacts.

Section AuthWitnesses.
Import AuthContext Samples.

Lemma redirect_only_from_sign_in_witness :
  let w := at_path "/auth" (ready "member") in
  let w1 := exec (redirectBasedOnRole "member") w in
  navigations w1 = ["/member"]
  /\ pathname (location w1) = "/member"
  /\ redirectBasedOnRole "member" w1 = (Normal tt, w1).
Proof.
  apply (redirect_only_from_sign_in "member" (at_path "/auth" (ready "member")));
    reflexivity.
Defined.

(** A backend whose [users] query fails with the given message. *)
Lemma fetchUserData_failure_leaves_profile_null_witness :
  let failing := fun _ : string =>
    Resolved (mkResponse (@None UserData) (Some (mkError "JWT expired"))) in
  let w := at_path "/admin" (ready "admin") in
  let w' := exec (fetchUserData failing "u-1") w in
  eval (fetchUserData failing "u-1") w = Normal tt
  /\ userData (auth w') = None
  /\ console w' = [mkLog ErrorLevel "Error fetching user data:"
                     [LError (mkError "JWT expired")]]
  /\ requests w' = [SelectUserById "u-1"]
  /\ navigations w' = []
  /\ location w' = mkLocation "/admin" "" ""
  /\ session (auth w') = Some alice_session
  /\ user (auth w') = Some alice
  /\ isLoading (auth w') = false.
Proof.
  apply (@fetchUserData_failure_leaves_profile_null
           (fun _ : string =>
              Resolved (mkResponse (@None UserData) (Some (mkError "JWT expired"))))
           "u-1" (at_path "/admin" (ready "admin")) (mkError "JWT expired")).
  right. exists None. reflexivity.
Defined.

End AuthWitnesses.

(* ================================================================== *)
(** * Properties of the admin dashboard's aggregates *)
(* ================================================================== *)

Section BinarySums.

Local Open Scope Z_scope.

(** *** Binary64 addition never rounds to zero *)

Lemma digits2_pos_lower p : 2 ^ (Zpos (digits2_pos p) - 1) <= Zpos p.
Proof.
  induction p as [p IH | p IH |]; simpl digits2_pos; [| |simpl; lia];
    rewrite Pos2Z.inj_succ;
    replace (Z.succ (Zpos (digits2_pos p)) - 1)
      with (Z.succ (Zpos (digits2_pos p) - 1)) by lia;
    rewrite Z.pow_succ_r by lia; lia.
Qed.

Lemma shr_1_lower mrs k :
  1 <= k -> 2 ^ k <= shr_m mrs -> 2 ^ (k - 1) <= shr_m (shr_1 mrs).
Proof.
  intros Hk H. destruct mrs as [m r s]. simpl in H.
  replace k with (Z.succ (k - 1)) in H by lia.
  rewrite Z.pow_succ_r in H by lia.
  assert (0 < 2 ^ (k - 1)) by (apply Z.pow_pos_nonneg; lia).
  destruct m as [|[p|p|]|p]; simpl; lia.
Qed.

Lemma iter_shr_1_lower p : forall mrs k,
  Zpos p <= k -> 2 ^ k <= shr_m mrs ->
  2 ^ (k - Zpos p) <= shr_m (iter_pos shr_1 p mrs).
Proof.
  induction p as [p IH | p IH |]; intros mrs k Hk H; simpl iter_pos.
  - replace (k - Zpos p~1) with (k - 1 - Zpos p - Zpos p) by lia.
    apply IH; [lia|]. apply IH; [lia|]. apply shr_1_lower; [lia | assumption].
  - replace (k - Zpos p~0) with (k - Zpos p - Zpos p) by lia.
    apply IH; [lia|]. apply IH; [lia | assumption].
  - apply shr_1_lower; [lia | assumption].
Qed.

(** Shifting a mantissa to its canonical exponent leaves it positive. *)
Lemma shr_fexp_pos m e l :
  emin <= e ->
  0 < shr_m (fst (shr_fexp prec emax (Zpos m) e l))
  /\ emin <= snd (shr_fexp prec emax (Zpos m) e l).
Proof.
  intros He. unfold shr_fexp, shr, fexp. simpl Zdigits2.
  pose proof (digits2_pos_lower m) as Hm.
  assert (Hs : shr_m (shr_record_of_loc (Zpos m) l) = Zpos m)
    by (destruct l as [|[]]; reflexivity).
  destruct (Z.max (Zpos (digits2_pos m) + e - prec) emin - e)
    as [|p|p] eqn:Hn; simpl fst; simpl snd; rewrite ?Hs; try (split; lia).
  assert (Hp : Zpos p = Zpos (digits2_pos m) - prec) by lia.
  split; [|lia].
  assert (H : 2 ^ (Zpos (digits2_pos m) - 1 - Zpos p)
              <= shr_m (iter_pos shr_1 p (shr_record_of_loc (Zpos m) l))).
  { apply iter_shr_1_lower; [unfold prec in Hp; lia | now rewrite Hs]. }
  assert (0 < 2 ^ (Zpos (digits2_pos m) - 1 - Zpos p))
    by (apply Z.pow_pos_nonneg; unfold prec in Hp; lia).
  lia.
Qed.

Lemma binary_round_aux_not_zero sx m e l s :
  emin <= e ->
  binary_round_aux prec emax sx (Zpos m) e l <> S754_zero s.
Proof.
  intros He. unfold binary_round_aux.
  destruct (@shr_fexp_pos m e l He) as [H1 H1'].
  destruct (shr_fexp prec emax (Zpos m) e l) as [mrs' e']. simpl in H1, H1'.
  assert (Hr : 0 < round_nearest_even (shr_m mrs') (loc_of_shr_record mrs')).
  { unfold round_nearest_even.
    destruct (loc_of_shr_record mrs') as [|[]]; try lia.
    destruct (Z.even (shr_m mrs')); lia. }
  destruct (round_nearest_even (shr_m mrs') (loc_of_shr_record mrs')) as [|q|q];
    try lia.
  destruct (@shr_fexp_pos q e' loc_Exact H1') as [H2 _].
  destruct (shr_fexp prec emax (Zpos q) e' loc_Exact) as [mrs'' e'']. simpl in H2.
  destruct (shr_m mrs''); try lia.
  destruct (_ <=? _); discriminate.
Qed.

Lemma binary_round_not_zero sx m e s :
  emin <= e -> binary_round prec emax sx m e <> S754_zero s.
Proof.
  intros He. unfold binary_round, shl_align.
  destruct (fexp prec emax (Zpos (digits2_pos m) + e) - e) eqn:Hd;
    apply binary_round_aux_not_zero; try assumption.
  unfold fexp. lia.
Qed.

Lemma valid_binary_emin s m e :
  valid_binary (S754_finite s m e) = true -> emin <= e.
Proof.
  unfold SpecFloat.valid_binary, bounded, canonical_mantissa, fexp.
  intros H. apply andb_prop in H. destruct H as [H _].
  apply Z.eqb_eq in H. lia.
Qed.

(** A binary64 sum is negative zero only when both terms are. *)
Lemma SF64add_neg_zero x y :
  valid_binary x = true -> valid_binary y = true ->
  SF64add x y = S754_zero true -> x = S754_zero true /\ y = S754_zero true.
Proof.
  intros Hx Hy. unfold SF64add, SFadd.
  destruct x as [sx|sx| |sx mx ex], y as [sy|sy| |sy my ey];
    try discriminate; try (destruct sx, sy; discriminate);
    try (destruct sx; discriminate).
  - destruct sx, sy; intros [=]; auto.
  - apply valid_binary_emin in Hx, Hy. unfold binary_normalize.
    destruct (_ + _) as [|p|p]; [discriminate| |];
      intros H; exfalso; revert H; apply binary_round_not_zero; lia.
Qed.

Lemma add_neg_zero (x y : float) :
  Prim2SF (x + y) = S754_zero true ->
  Prim2SF x = S754_zero true /\ Prim2SF y = S754_zero true.
Proof.
  rewrite add_spec. apply SF64add_neg_zero; apply Prim2SF_valid.
Qed.

(** Adding to [NaN], or adding [NaN], gives [NaN]. *)
Lemma add_nan_r (x : float) : (x + nan)%float = nan.
Proof.
  apply Prim2SF_inj. rewrite add_spec.
  change (Prim2SF nan) with S754_nan.
  unfold SF64add, SFadd. now destruct (Prim2SF x).
Qed.

Lemma add_nan_l (x : float) : (nan + x)%float = nan.
Proof.
  apply Prim2SF_inj. rewrite add_spec.
  change (Prim2SF nan) with S754_nan. reflexivity.
Qed.

End BinarySums.

Section RevenueFacts.
Import AdminDashboard.

Implicit Types (rows : list PaymentRow) (w : World).

(** [parseFloat] of a number changes negative zero only, and a total that
    is not negative zero does not tell the two zeros apart. *)
Lemma parseFloat_number_add (t x : number) :
  Prim2SF t <> S754_zero true ->
  (t + parseFloat_number x)%float = (t + x)%float.
Proof.
  intros Ht. unfold parseFloat_number. rewrite classify_spec.
  unfold SF64classify, SFclassify.
  destruct (Prim2SF x) as [[|]|[|]| |[|] m e] eqn:Hx; try reflexivity;
    try (destruct (_ =? _)%Z; reflexivity).
  apply Prim2SF_inj. rewrite !add_spec, Hx.
  change (Prim2SF zero) with (S754_zero false).
  unfold SF64add, SFadd.
  destruct (Prim2SF t) as [[|]| | |]; try reflexivity. congruence.
Qed.

Lemma add_keeps_not_neg_zero (t x : number) :
  Prim2SF t <> S754_zero true -> Prim2SF (t + x) <> S754_zero true.
Proof. intros Ht H. apply add_neg_zero in H. now destruct H. Qed.

(** The partial sums of a list do not depend on what follows. *)
Lemma partial_sum_app (l l' : list number) k :
  (k <= length l)%nat -> partial_sum (l ++ l') k = partial_sum l k.
Proof.
  induction k as [|k IH]; intros Hk; simpl; [reflexivity|].
  rewrite IH by lia. now rewrite app_nth1 by lia.
Qed.

Lemma partial_sum_snoc (l : list number) x :
  partial_sum (l ++ [x]) (S (length l))
  = (partial_sum l (length l) + x)%float.
Proof.
  simpl. rewrite partial_sum_app by lia.
  now rewrite app_nth2, Nat.sub_diag by lia.
Qed.

(** [reduce] with [+] from [0] computes the sum in list order. *)
Lemma reduce_add_partial_sum (l : list number) :
  reduce (fun total x => (total + x)%float) zero l = partial_sum l (length l).
Proof.
  unfold reduce. induction l as [|x l IH] using rev_ind; [reflexivity|].
  rewrite fold_left_app, length_app, Nat.add_comm.
  cbn [fold_left length Nat.add].
  rewrite partial_sum_snoc. f_equal. exact IH.
Qed.

Lemma reduce_from_nan (rows : list PaymentRow) :
  reduce (fun total payment => (total + parseFloat (amount payment))%float) nan rows
  = nan.
Proof.
  unfold reduce. induction rows as [|p rows IH]; simpl; [reflexivity|].
  now rewrite add_nan_l.
Qed.

(** From a total that is not negative zero, the code's loop adds up the
    amount column. *)
Lemma revenue_fold_sum rows : forall acc : number,
  Prim2SF acc <> S754_zero true ->
  fold_left (fun total payment => (total + parseFloat (amount payment))%float) rows acc
  = fold_left (fun total x => (total + x)%float) (map amount_value rows) acc.
Proof.
  induction rows as [|p rows IH]; intros acc Hacc; simpl; [reflexivity|].
  assert (E : (acc + parseFloat (amount p))%float = (acc + amount_value p)%float).
  { unfold amount_value. destruct (amount p) as [x|]; simpl; [|reflexivity].
    now apply parseFloat_number_add. }
  rewrite E. apply IH. now apply add_keeps_not_neg_zero.
Qed.

Lemma revenue_reduce_sum rows :
  reduce (fun total payment => (total + parseFloat (amount payment))%float) zero rows
  = sum_amounts rows.
Proof.
  unfold sum_amounts.
  rewrite <- (length_map amount_value), <- reduce_add_partial_sum.
  unfold reduce. apply revenue_fold_sum.
  change (Prim2SF zero) with (S754_zero false). discriminate.
Qed.

(** When every amount is a number, the column is those numbers. *)
Lemma sum_amounts_numbers rows (xs : list number) :
  Forall2 (fun p x => amount p = Some x) rows xs ->
  sum_amounts rows = partial_sum xs (length xs).
Proof.
  intros H. unfold sum_amounts.
  assert (E : map amount_value rows = xs).
  { induction H as [|p x rows xs Hp _ IH]; simpl; [reflexivity|].
    unfold amount_value at 1. rewrite Hp. now f_equal. }
  now rewrite <- (length_map amount_value), E.
Qed.

(** One null amount makes the sum [NaN]. *)
Lemma sum_amounts_null rows :
  Exists (fun p => amount p = None) rows -> sum_amounts rows = nan.
Proof.
  intros H. rewrite <- revenue_reduce_sum.
  apply Exists_exists in H. destruct H as (p & Hin & Hp).
  apply in_split in Hin. destruct Hin as (l1 & l2 & ->).
  unfold reduce. rewrite fold_left_app. simpl. rewrite Hp. simpl.
  rewrite add_nan_r. apply reduce_from_nan.
Qed.

(** C8 (amended).  When the payments query resolves with rows, the value of
    the total-revenue query is the sum of the [amount] column taken in row
    order in binary64 arithmetic, a null amount counting as [NaN]; nothing
    is logged.  So when every amount is a number the total is the sum of
    these numbers, when some amount is null the total is [NaN], and for no
    rows it is [0].  When the query resolves with an error, the error is
    logged once and the value is [0]; the run does not throw, so the figure
    shown is the zero default. *)
Theorem totalRevenue_is_sum_of_amounts be w :
  (forall rows,
     payments_amounts be = Resolved (mkResponse (Some rows) None) ->
     totalRevenue_queryFn be w
     = (Normal (sum_amounts rows), sent w [SelectPaymentAmounts])
     /\ totalRevenue (useQuery_data (eval (totalRevenue_queryFn be) w))
        = sum_amounts rows)
  /\ (forall rows (xs : list number),
        Forall2 (fun p x => amount p = Some x) rows xs ->
        sum_amounts rows = partial_sum xs (length xs))
  /\ (forall rows,
        Exists (fun p => amount p = None) rows -> sum_amounts rows = nan)
  /\ sum_amounts [] = zero
  /\ (forall d e,
        payments_amounts be = Resolved (mkResponse d (Some e)) ->
        totalRevenue_queryFn be w
        = (Normal zero,
           mkWorld (topTrainer w)
                   (console w ++ [mkLog ErrorLevel "Error fetching payments:" [LError e]])
                   (requests w ++ [SelectPaymentAmounts]))
        /\ totalRevenue (useQuery_data (eval (totalRevenue_queryFn be) w)) = zero).
Proof.
  split; [|split; [|split; [|split; [reflexivity|]]]].
  - intros rows Hr.
    assert (E : totalRevenue_queryFn be w
                = (Normal (sum_amounts rows), sent w [SelectPaymentAmounts])).
    { unfold totalRevenue_queryFn, bind, send, modify, await, ret. simpl.
      rewrite Hr. simpl. now rewrite revenue_reduce_sum. }
    split; [exact E|]. unfold eval. now rewrite E.
  - intros rows xs. apply sum_amounts_numbers.
  - intros rows. apply sum_amounts_null.
  - intros d e Hr.
    assert (E : totalRevenue_queryFn be w
                = (Normal zero,
                   mkWorld (topTrainer w)
                     (console w ++ [mkLog ErrorLevel "Error fetching payments:" [LError e]])
                     (requests w ++ [SelectPaymentAmounts]))).
    { unfold totalRevenue_queryFn, bind, send, console_error, modify, await, ret.
      simpl. rewrite Hr. reflexivity. }
    split; [exact E|]. unfold eval. now rewrite E.
Qed.

End RevenueFacts.

Section TopTrainerFacts.
Import AdminDashboard.

Implicit Types (o : Obj) (rows : list MemberRow) (k t : string) (w : World) (v : Val).

Local Open Scope Z_scope.

(** *** Objects as ordered key-value lists *)

Lemma own_get_set_same k v o : own_get k (own_set k v o) = Some v.
Proof.
  induction o as [|[k' v'] o IH]; simpl.
  - now rewrite String.eqb_refl.
  - destruct (String.eqb_spec k' k) as [->|Hk]; simpl.
    + now rewrite String.eqb_refl.
    + apply String.eqb_neq in Hk. now rewrite Hk.
Qed.

Lemma own_get_set_other k k' v o :
  k <> k' -> own_get k' (own_set k v o) = own_get k' o.
Proof.
  intros Hk. induction o as [|[k0 v0] o IH]; simpl.
  - apply String.eqb_neq in Hk. now rewrite Hk.
  - destruct (String.eqb_spec k0 k) as [->|Hk0]; simpl.
    + apply String.eqb_neq in Hk. now rewrite Hk.
    + now rewrite IH.
Qed.

Lemma keys_own_set k v o :
  keys (own_set k v o) = if in_dec string_dec k (keys o) then keys o
                         else (keys o ++ [k])%list.
Proof.
  unfold keys. induction o as [|[k' v'] o IH]; simpl; [reflexivity|].
  destruct (String.eqb_spec k' k) as [->|Hk]; simpl.
  - destruct (string_dec k k); [reflexivity | congruence].
  - destruct (string_dec k' k); [congruence|].
    rewrite IH. now destruct (in_dec string_dec k (map fst o)).
Qed.

Lemma NoDup_keys_own_set k v o : NoDup (keys o) -> NoDup (keys (own_set k v o)).
Proof.
  intros H. rewrite keys_own_set. destruct (in_dec string_dec k (keys o)); [assumption|].
  apply NoDup_app; [assumption | repeat constructor; intros [] | ].
  intros x Hx [<- | []]. contradiction.
Qed.

Lemma own_get_In k v o : NoDup (keys o) -> In (k, v) o -> own_get k o = Some v.
Proof.
  induction o as [|[k' v'] o IH]; simpl; [intros _ []|].
  intros Hnd [E | Hin].
  - inversion E; subst. now rewrite String.eqb_refl.
  - inversion Hnd as [|? ? Hni Hnd']; subst.
    destruct (String.eqb_spec k' k) as [->|Hk]; [|auto].
    exfalso. apply Hni. change (In (fst (k, v)) (map fst o)). now apply in_map.
Qed.

Lemma In_own_get k v o : own_get k o = Some v -> In (k, v) o.
Proof.
  induction o as [|[k' v'] o IH]; simpl; [discriminate|].
  destruct (String.eqb_spec k' k) as [->|Hk]; [intros [= ->]; now left | auto].
Qed.

Lemma Forall_own_set (P : string * Val -> Prop) k v o :
  Forall P o -> P (k, v) -> Forall P (own_set k v o).
Proof.
  intros H Hkv. induction o as [|[k' v'] o IH]; simpl.
  - now repeat constructor.
  - inversion H; subst. destruct (String.eqb_spec k' k) as [->|].
    + now constructor.
    + constructor; auto.
Qed.

(** *** The names [Object.prototype] has *)

Lemma inherited_truthy t : inherited t = true -> truthy_string t = true.
Proof. destruct t; [discriminate | reflexivity]. Qed.


Lemma regular_not_inherited t : regular t = true -> inherited t = false.
Proof.
  unfold regular. intros H. apply andb_prop in H. destruct H as [_ H].
  now apply negb_true_iff in H.
Qed.

Lemma regular_not_proto t : regular t = true -> t <> "__proto__"%string.
Proof. intros H ->. discriminate H. Qed.

Lemma storable_spec t :
  storable t = true <-> t <> ""%string /\ t <> "__proto__"%string.
Proof.
  unfold storable, truthy_string. rewrite andb_true_iff, !negb_true_iff.
  now rewrite !String.eqb_neq.
Qed.

Lemma obj_set_storable t v o : t <> "__proto__"%string -> obj_set t v o = own_set t v o.
Proof.
  intros Ht. unfold obj_set. destruct (own_get t o); [reflexivity|].
  apply String.eqb_neq in Ht. now rewrite Ht.
Qed.

Lemma obj_set_proto v o :
  own_get "__proto__" o = None -> obj_set "__proto__" v o = o.
Proof. intros H. unfold obj_set. now rewrite H. Qed.

(** *** Counting *)

Lemma count_step_idle o m :
  truthy_opt_string (trainer_id m) = false -> count_step o m = o.
Proof. unfold count_step. now intros ->. Qed.

Lemma count_step_bump o m t :
  trainer_id m = Some t -> truthy_string t = true ->
  count_step o m = obj_set t (or_zero_plus_one (obj_get t o)) o.
Proof. unfold count_step. intros -> H. simpl. now rewrite H. Qed.

Lemma count_step_cases o m :
  (truthy_opt_string (trainer_id m) = false /\ count_step o m = o)
  \/ exists t, trainer_id m = Some t /\ truthy_string t = true
               /\ count_step o m = obj_set t (or_zero_plus_one (obj_get t o)) o.
Proof.
  destruct (truthy_opt_string (trainer_id m)) eqn:H.
  - right. destruct (trainer_id m) as [t|] eqn:Ht; [|discriminate].
    exists t. repeat split; auto. now apply count_step_bump.
  - left. split; auto. now apply count_step_idle.
Qed.

Lemma assigned_members_cons t m rows :
  assigned_members t (m :: rows)
  = (match trainer_id m with
     | Some t' => if (t' =? t)%string then 1 else 0
     | None => 0
     end) + assigned_members t rows.
Proof.
  unfold assigned_members. simpl.
  destruct (trainer_id m) as [t'|]; [destruct (t' =? t)%string|]; simpl length; lia.
Qed.


Lemma assigned_members_pos rows m t :
  In m rows -> trainer_id m = Some t -> 0 < assigned_members t rows.
Proof.
  intros Hin Ht. unfold assigned_members.
  assert (Hf : In m (filter (fun m => match trainer_id m with
                                      | Some t' => (t' =? t)%string
                                      | None => false
                                      end) rows)).
  { apply filter_In. split; [assumption|]. rewrite Ht. apply String.eqb_refl. }
  destruct (filter _ rows); [destruct Hf | simpl; lia].
Qed.

Lemma assigned_members_named t rows :
  0 < assigned_members t rows -> exists m, In m rows /\ trainer_id m = Some t.
Proof.
  unfold assigned_members. intros H.
  destruct (filter _ rows) as [|m l] eqn:E; [simpl in H; lia|].
  assert (Hm : In m (m :: l)) by now left.
  rewrite <- E in Hm. apply filter_In in Hm. destruct Hm as [Hin Hm].
  exists m. split; [assumption|].
  destruct (trainer_id m) as [t'|]; [|discriminate].
  apply String.eqb_eq in Hm. now subst.
Qed.

(** Whatever [trainerCounts[t]] gives, [(... || 0) + 1] stands for one row
    more. *)
Lemma weight_or_zero_plus_one t o :
  weight (or_zero_plus_one (obj_get t o)) = weight_at t o + 1.
Proof.
  unfold obj_get, weight_at. destruct (own_get t o) as [[n|k c]|]; simpl.
  - unfold truthy_number. destruct (Z.eqb_spec n 0); subst; simpl; lia.
  - lia.
  - destruct (inherited t); simpl; lia.
Qed.

(** [__proto__] never becomes an own property. *)
Lemma well_counted_no_proto o : well_counted o -> own_get "__proto__" o = None.
Proof.
  intros [_ Hall]. destruct (own_get "__proto__" o) as [v|] eqn:E; [|reflexivity].
  apply In_own_get in E. rewrite Forall_forall in Hall. apply Hall in E.
  unfold entry_ok in E. simpl in E. destruct v as [n|k c].
  - destruct E as [E _]. discriminate E.
  - destruct E as (-> & _ & E & _). now elim E.
Qed.

Lemma entry_ok_or_zero_plus_one t o :
  well_counted o -> truthy_string t = true -> t <> "__proto__"%string ->
  entry_ok (t, or_zero_plus_one (obj_get t o)).
Proof.
  intros [_ Hall] Ht Hp. rewrite Forall_forall in Hall.
  unfold obj_get. destruct (own_get t o) as [v|] eqn:E.
  - apply In_own_get in E. apply Hall in E. unfold entry_ok in *. simpl in *.
    destruct v as [n|k c]; simpl.
    + destruct E as [Hr Hn]. split; [assumption|].
      unfold truthy_number. destruct (Z.eqb_spec n 0); simpl; lia.
    + destruct E as (-> & Hi & Hk & _). repeat split; auto. lia.
  - unfold entry_ok. destruct (inherited t) eqn:Hi; simpl.
    + repeat split; auto.
    + split; [|lia]. unfold regular. now rewrite Ht, Hi.
Qed.

Lemma well_counted_step o m : well_counted o -> well_counted (count_step o m).
Proof.
  intros Hw.
  destruct (count_step_cases o m) as [[_ ->] | (t & _ & Ht & ->)]; [assumption|].
  destruct (string_dec t "__proto__") as [-> | Hp].
  - now rewrite obj_set_proto by now apply well_counted_no_proto.
  - rewrite obj_set_storable by assumption.
    pose proof (@entry_ok_or_zero_plus_one t o Hw Ht Hp) as Hok.
    destruct Hw as [Hnd Hall].
    split; [now apply NoDup_keys_own_set | now apply Forall_own_set].
Qed.

Lemma well_counted_fold rows o :
  well_counted o -> well_counted (fold_left count_step rows o).
Proof.
  revert o. induction rows as [|m rows IH]; intros o H; simpl; [assumption|].
  apply IH. now apply well_counted_step.
Qed.

Lemma well_counted_countMembers rows : well_counted (countMembers rows).
Proof. apply well_counted_fold. split; constructor. Qed.

(** Each row that names a trainer for whom something is stored adds one to
    what is stored. *)
Lemma weight_step t o m :
  well_counted o ->
  weight_at t (count_step o m)
  = weight_at t o
    + (if storable t
       then match trainer_id m with
            | Some t' => if (t' =? t)%string then 1 else 0
            | None => 0
            end
       else 0).
Proof.
  intros Hw.
  destruct (count_step_cases o m) as [[Hm ->] | (t' & Hm & Ht' & ->)].
  - destruct (storable t) eqn:Hs; [|lia].
    destruct (trainer_id m) as [t'|]; [|lia].
    destruct (String.eqb_spec t' t) as [->|]; [|lia].
    apply storable_spec in Hs. simpl in Hm. unfold truthy_string in Hm.
    apply negb_false_iff, String.eqb_eq in Hm. now destruct Hs.
  - rewrite Hm. destruct (string_dec t' "__proto__") as [-> | Hp].
    + rewrite obj_set_proto by now apply well_counted_no_proto.
      destruct (storable t) eqn:Hs; [|lia].
      destruct (String.eqb_spec "__proto__" t) as [<-|]; [|lia].
      discriminate Hs.
    + rewrite obj_set_storable by assumption.
      destruct (String.eqb_spec t' t) as [->|Hne].
      * unfold weight_at at 1. rewrite own_get_set_same.
        rewrite weight_or_zero_plus_one.
        assert (Hs : storable t = true).
        { apply storable_spec. split; [|assumption].
          intros ->. discriminate Ht'. }
        now rewrite Hs.
      * unfold weight_at. rewrite own_get_set_other by assumption.
        destruct (storable t); lia.
Qed.

(** After the first loop, what is stored for a trainer stands for what was
    stored before plus the rows that name the trainer. *)
Lemma weight_fold t rows : forall o,
  well_counted o ->
  weight_at t (fold_left count_step rows o)
  = weight_at t o + (if storable t then assigned_members t rows else 0).
Proof.
  induction rows as [|m rows IH]; intros o Hw.
  - simpl. unfold assigned_members. simpl. destruct (storable t); lia.
  - simpl fold_left. rewrite IH by now apply well_counted_step.
    rewrite weight_step by assumption. rewrite assigned_members_cons.
    destruct (storable t); lia.
Qed.

Lemma entry_ok_storable t v : entry_ok (t, v) -> storable t = true.
Proof.
  unfold entry_ok. simpl. destruct v as [n|k c].
  - intros [Hr _]. apply storable_spec. split.
    + intros ->. discriminate Hr.
    + now apply regular_not_proto.
  - intros (-> & Hi & Hp & _). apply storable_spec. split; [|assumption].
    intros ->. discriminate Hi.
Qed.

(** Every entry of [trainerCounts] stands for the rows that name its key. *)
Lemma countMembers_entry t v rows :
  In (t, v) (countMembers rows) ->
  entry_ok (t, v) /\ weight v = assigned_members t rows.
Proof.
  intros Hin. pose proof (well_counted_countMembers rows) as Hw.
  assert (Hok : entry_ok (t, v)).
  { destruct Hw as [_ Hall]. rewrite Forall_forall in Hall. now apply Hall. }
  split; [assumption|].
  assert (W0 : well_counted []) by (split; constructor).
  pose proof (@weight_fold t rows [] W0) as E. fold (countMembers rows) in E.
  rewrite (@entry_ok_storable t v Hok) in E. unfold weight_at in E.
  destruct Hw as [Hnd _]. rewrite (@own_get_In t v _ Hnd Hin) in E.
  simpl in E. lia.
Qed.




(** *** The enumeration order of [Object.entries] *)





(** *** Selecting the maximum *)

(** The second loop from any starting pair: the final count is an upper
    bound, and either nothing beat the start, or the winner is the first
    entry that carries the final count. *)
Lemma top_fold_spec (entries : list (string * Val)) (acc : option string * Z) :
  let r := fold_left top_step entries acc in
  snd acc <= snd r
  /\ Forall (no_more_than (snd r)) entries
  /\ (r = acc
      \/ exists before tid after,
           entries = (before ++ (tid, VNum (snd r)) :: after)%list
           /\ fst r = Some tid
           /\ snd acc < snd r
           /\ Forall (fewer_than (snd r)) before
           /\ Forall (no_more_than (snd r)) after).
Proof.
  revert acc. induction entries as [|[tid [c|k ones]] es IH]; intros acc; cbv zeta.
  - simpl. repeat split; [lia | constructor | now left].
  - simpl fold_left.
    change (top_step acc (tid, VNum c))
      with (if snd acc <? c then (Some tid, c) else acc).
    destruct (Z.ltb_spec (snd acc) c) as [Hlt | Hge].
    + specialize (IH (Some tid, c)). cbv zeta in IH. simpl snd in IH.
      destruct IH as (Hle & Hall & Hcase).
      split; [lia|].
      split; [constructor; [unfold no_more_than; simpl; lia | assumption]|].
      right. destruct Hcase as [E | (before & t & after & Hes & Hf & Hs & Hb & Ha)].
      * exists [], tid, es. rewrite E in *. simpl. repeat split; auto.
      * exists ((tid, VNum c) :: before), t, after. simpl.
        split; [now f_equal|].
        split; [assumption|]. split; [lia|]. split; [|assumption].
        constructor; [unfold fewer_than; simpl; lia | assumption].
    + specialize (IH acc). cbv zeta in IH.
      destruct IH as (Hle & Hall & Hcase).
      split; [lia|].
      split; [constructor; [unfold no_more_than; simpl; lia | assumption]|].
      destruct Hcase as [E | (before & t & after & Hes & Hf & Hs & Hb & Ha)].
      * now left.
      * right. exists ((tid, VNum c) :: before), t, after. simpl.
        split; [now f_equal|].
        split; [assumption|]. split; [lia|]. split; [|assumption].
        constructor; [unfold fewer_than; simpl; lia | assumption].
  - simpl fold_left.
    change (top_step acc (tid, VText k ones)) with acc.
    specialize (IH acc). cbv zeta in IH.
    destruct IH as (Hle & Hall & Hcase).
    split; [lia|].
    split; [constructor; [exact I | assumption]|].
    destruct Hcase as [E | (before & t & after & Hes & Hf & Hs & Hb & Ha)].
    + now left.
    + right. exists ((tid, VText k ones) :: before), t, after. simpl.
      split; [now f_equal|].
      split; [assumption|]. split; [assumption|]. split; [|assumption].
      constructor; [exact I | assumption].
Qed.






End TopTrainerFacts.

Section DashboardWitnesses.
Import AdminDashboard Samples MoreSamples.

Local Open Scope Z_scope.

(** C8, counterexample to "the total is the sum of the amount field over
    every fetched row": of three fetched rows the second has no amount;
    the total is [NaN], not 79.75. *)
Lemma totalRevenue_null_amount_counterexample :
  payments_amounts admin_backend_null
  = Resolved (mkResponse (Some payments_with_null) None)
  /\ map amount payments_with_null = [Some 49.5%float; None; Some 30.25%float]
  /\ (49.5 + 30.25)%float = 79.75%float
  /\ eval (totalRevenue_queryFn admin_backend_null) fresh_admin_page = Normal nan
  /\ totalRevenue
       (useQuery_data (eval (totalRevenue_queryFn admin_backend_null) fresh_admin_page))
     = nan
  /\ totalRevenue
       (useQuery_data (eval (totalRevenue_queryFn admin_backend_null) fresh_admin_page))
     <> 79.75%float.
Proof.
  repeat split; try reflexivity.
  intros H. apply (f_equal is_nan) in H. vm_compute in H. discriminate H.
Qed.

Lemma totalRevenue_is_sum_of_amounts_witness :
  totalRevenue_queryFn admin_backend fresh_admin_page
  = (Normal 199.75%float, sent fresh_admin_page [SelectPaymentAmounts])
  /\ totalRevenue
       (useQuery_data (eval (totalRevenue_queryFn admin_backend) fresh_admin_page))
     = 199.75%float.
Proof.
  exact (proj1 (totalRevenue_is_sum_of_amounts admin_backend fresh_admin_page)
           payments eq_refl).
Defined.

(** A failing payments query shows the zero default. *)
Example totalRevenue_backend_down :
  totalRevenue
    (useQuery_data (eval (totalRevenue_queryFn admin_backend_down) fresh_admin_page))
  = zero
  /\ console (exec (totalRevenue_queryFn admin_backend_down) fresh_admin_page)
     = [mkLog ErrorLevel "Error fetching payments:" [LError (mkError "permission denied")]].
Proof. split; reflexivity. Qed.

(** Binary64 sums depend on the order of the rows: the total is the sum in
    row order. *)
Example sum_amounts_row_order :
  sum_amounts [mkPayment (Some 9007199254740992%float);
               mkPayment (Some 1%float); mkPayment (Some 1%float)]
  = 9007199254740992%float
  /\ sum_amounts [mkPayment (Some 1%float); mkPayment (Some 1%float);
                  mkPayment (Some 9007199254740992%float)]
     = 9007199254740994%float.
Proof. split; reflexivity. Qed.

(** An amount of negative zero is read as zero, which the total cannot
    tell. *)
Example totalRevenue_negative_zero :
  eval (totalRevenue_queryFn
          (mkBackend (Resolved (mkResponse (Some [mkPayment (Some neg_zero)]) None))
                     (Resolved (mkResponse (Some []) None))
                     (fun _ => Rejected (mkError "unused"))))
       fresh_admin_page
  = Normal zero
  /\ sum_amounts [mkPayment (Some neg_zero)] = zero.
Proof. split; reflexivity. Qed.



(** t-a and t-b tie with two members each; t-a is enumerated first. *)
Example top_trainer_tie :
  Object_entries (countMembers members)
  = [("t-a", VNum 2); ("t-b", VNum 2); ("t-c", VNum 1)]
  /\ findTop (Object_entries (countMembers members)) = (Some "t-a", 2).
Proof. split; reflexivity. Qed.

(** Keys that are array indices are enumerated in numeric order, whatever
    the order of creation. *)
Example top_trainer_numeric_ids :
  countMembers numbered_members = [("10", VNum 2); ("9", VNum 2)]
  /\ Object_entries (countMembers numbered_members) = [("9", VNum 2); ("10", VNum 2)]
  /\ findTop (Object_entries (countMembers numbered_members)) = (Some "9", 2).
Proof. repeat split; reflexivity. Qed.

(** Members whose trainer ids are all names of [Object.prototype]: a text
    is stored for "constructor" and "toString", nothing for "__proto__",
    nobody is selected and no second query is sent. *)
Example top_trainer_prototype_names :
  let rows := [mkMember (Some "toString") None; mkMember (Some "__proto__") None;
               mkMember (Some "constructor") None; mkMember (Some "toString") None] in
  countMembers rows = [("toString", VText "toString" 2);
                       ("constructor", VText "constructor" 1)]
  /\ findTop (Object_entries (countMembers rows)) = (None, 0)
  /\ fetchTopTrainer
       (mkBackend (Resolved (mkResponse (Some []) None))
                  (Resolved (mkResponse (Some rows) None))
                  (fun _ => Rejected (mkError "unused")))
       fresh_admin_page
     = (Normal tt, sent fresh_admin_page [SelectAssignedMembers]).
Proof. repeat split; reflexivity. Qed.

End DashboardWitnesses.

(* ================================================================== *)
(** * Properties of the attendance toggle *)
(* ================================================================== *)

Section AttendanceFacts.
Import MemberDashboard.

Implicit Types (w : World) (be : Backend) (now : string).

Ltac member_run :=
  unfold fetchAttendanceHistory, handleCheckIn, handleCheckOut, toggled,
    bind, gets, await, send, setAttendanceHistory, setIsCheckedIn,
    setCurrentAttendanceId, console_error, modify, ret;
  simpl.

(** With well-formed timestamps, the records [find] looks for are the
    open ones. *)
Lemma falsy_time_open r :
  check_out_time r <> Some ""%string ->
  (negb (truthy_opt_string (check_out_time r)) = true <-> open_record r).
Proof.
  unfold open_record, truthy_opt_string, truthy_string. intros H.
  destruct (check_out_time r) as [s|]; [|now split].
  destruct (String.eqb_spec s ""%string) as [->|]; [congruence | now split].
Qed.

Lemma find_open_some d r :
  timestamps_ok (or_empty d) ->
  find_open d = Some r -> In r (or_empty d) /\ open_record r.
Proof.
  intros Hok H. destruct d as [l|]; [|discriminate]. simpl in *.
  apply find_some in H. destruct H as [Hin Hf]. split; [assumption|].
  unfold timestamps_ok in Hok. rewrite Forall_forall in Hok.
  now apply falsy_time_open; auto.
Qed.

Lemma find_open_none d r :
  timestamps_ok (or_empty d) ->
  find_open d = None -> In r (or_empty d) -> ~ open_record r.
Proof.
  intros Hok H Hin Hopen. destruct d as [l|]; [|destruct Hin]. simpl in *.
  pose proof (find_none _ _ H _ Hin) as Hf. simpl in Hf.
  unfold timestamps_ok in Hok. rewrite Forall_forall in Hok.
  apply (@falsy_time_open r (Hok _ Hin)) in Hopen. congruence.
Qed.

(** A refresh that succeeds, as one equation. *)
Lemma fetchAttendanceHistory_ok be w u d :
  userData w = Some u ->
  select_attendance be (AuthContext.id u) = Resolved (mkResponse d None) ->
  fetchAttendanceHistory be w
  = (Normal tt,
     mkWorld (userData w) (or_empty d)
             (match find_open d with Some _ => true | None => false end)
             (match find_open d with Some r => Some (id r) | None => None end)
             (console w)
             (requests w ++ [SelectAttendance (AuthContext.id u)])).
Proof.
  intros Hu Hsel. member_run. rewrite Hu. simpl. rewrite Hsel. simpl.
  destruct (find_open d); simpl; now rewrite ?Hu.
Qed.

Lemma handleCheckIn_ok be now w u first rest :
  userData w = Some u ->
  insert_attendance be [mkInsert (AuthContext.id u) now]
  = Resolved (mkResponse (Some (first :: rest)) None) ->
  handleCheckIn be now w
  = fetchAttendanceHistory be
      (toggled w true (Some (id first))
               (InsertAttendance [mkInsert (AuthContext.id u) now])).
Proof.
  intros Hu Hins. member_run. rewrite Hu. simpl. rewrite Hins. simpl.
  now rewrite Hu.
Qed.

Lemma handleCheckOut_ok be now w i d :
  currentAttendanceId w = Some i -> i <> 0%Z ->
  update_attendance be (mkUpdate now) i = Resolved (mkResponse d None) ->
  handleCheckOut be now w
  = fetchAttendanceHistory be
      (toggled w false None (UpdateAttendance (mkUpdate now) i)).
Proof.
  intros Hc Hi Hupd. member_run. rewrite Hc. simpl.
  unfold truthy_number. apply Z.eqb_neq in Hi. rewrite Hi. simpl.
  now rewrite Hupd.
Qed.

Lemma handleCheckOut_idle be now w :
  currentAttendanceId w = None -> handleCheckOut be now w = (Normal tt, w).
Proof. intros Hc. member_run. now rewrite Hc. Qed.

(** C10.  For a signed-in member and timestamps as the backend stores
    them (never the empty string):
    - a refresh that succeeds completes normally, stores the fetched
      records, and leaves [isCheckedIn] true exactly when some fetched
      record is open (its [check_out_time] is null), in which case
      [currentAttendanceId] is the id of such a record, and null otherwise;
    - a check-in that succeeds sends one insert of [{member_id,
      check_in_time}] (the payload has no check-out time), sets the pair to
      [(true, id of the inserted record)] and then refreshes;
    - a check-out with a current id (a database key, hence not 0) sends an
      update of that record's [check_out_time], resets the pair to
      [(false, null)] and then refreshes;
    - a check-out without a current id does nothing. *)
Theorem attendance_toggle_invariant be now w :
  (forall u d,
     userData w = Some u ->
     select_attendance be (AuthContext.id u) = Resolved (mkResponse d None) ->
     timestamps_ok (or_empty d) ->
     let w' := exec (fetchAttendanceHistory be) w in
     eval (fetchAttendanceHistory be) w = Normal tt
     /\ attendanceHistory w' = or_empty d
     /\ (isCheckedIn w' = true <-> exists r, In r (or_empty d) /\ open_record r)
     /\ (isCheckedIn w' = true ->
         exists r, In r (or_empty d) /\ open_record r
                   /\ currentAttendanceId w' = Some (id r))
     /\ (isCheckedIn w' = false -> currentAttendanceId w' = None))
  /\ (forall u first rest,
        userData w = Some u ->
        insert_attendance be [mkInsert (AuthContext.id u) now]
        = Resolved (mkResponse (Some (first :: rest)) None) ->
        handleCheckIn be now w
        = fetchAttendanceHistory be
            (toggled w true (Some (id first))
                     (InsertAttendance [mkInsert (AuthContext.id u) now])))
  /\ (forall i d,
        currentAttendanceId w = Some i -> i <> 0%Z ->
        update_attendance be (mkUpdate now) i = Resolved (mkResponse d None) ->
        handleCheckOut be now w
        = fetchAttendanceHistory be
            (toggled w false None (UpdateAttendance (mkUpdate now) i)))
  /\ (currentAttendanceId w = None -> handleCheckOut be now w = (Normal tt, w)).
Proof.
  split; [|split; [|split]].
  - intros u d Hu Hsel Hok. cbv zeta. unfold exec, eval.
    rewrite (@fetchAttendanceHistory_ok be w u d Hu Hsel). simpl.
    destruct (find_open d) as [r|] eqn:Hfind.
    + destruct (@find_open_some d r Hok Hfind) as [Hin Hopen].
      repeat split; auto; try discriminate; intros _; exists r; auto.
    + repeat split; auto; try discriminate.
      intros (r & Hin & Hopen). exfalso.
      exact (@find_open_none d r Hok Hfind Hin Hopen).
  - intros u first rest. apply handleCheckIn_ok.
  - intros i d. apply handleCheckOut_ok.
  - apply handleCheckOut_idle.
Qed.

End AttendanceFacts.

Section AttendanceWitnesses.
Import MemberDashboard Samples.

Lemma attendance_toggle_invariant_witness :
  let now := "2024-05-02T08:00:00.000Z" in
  let w := fresh_member_page in
  let w' := exec (fetchAttendanceHistory member_backend) w in
  (eval (fetchAttendanceHistory member_backend) w = Normal tt
   /\ attendanceHistory w' = visits
   /\ (isCheckedIn w' = true <-> exists r, In r visits /\ open_record r)
   /\ (isCheckedIn w' = true ->
       exists r, In r visits /\ open_record r /\ currentAttendanceId w' = Some (id r))
   /\ (isCheckedIn w' = false -> currentAttendanceId w' = None))
  /\ handleCheckIn member_backend now w
     = fetchAttendanceHistory member_backend
         (toggled w true (Some 12%Z) (InsertAttendance [mkInsert "u-1" now]))
  /\ handleCheckOut member_backend now w'
     = fetchAttendanceHistory member_backend
         (toggled w' false None (UpdateAttendance (mkUpdate now) 12%Z)).
Proof.
  cbv zeta.
  pose proof (attendance_toggle_invariant member_backend
                "2024-05-02T08:00:00.000Z" fresh_member_page)
    as (Hrefresh & Hin & _ & _).
  pose proof (attendance_toggle_invariant member_backend
                "2024-05-02T08:00:00.000Z"
                (exec (fetchAttendanceHistory member_backend) fresh_member_page))
    as (_ & _ & Hout & _).
  split; [|split].
  - apply (Hrefresh (profile "member") (Some visits)); try reflexivity.
    repeat constructor; discriminate.
  - apply (Hin (profile "member")
             (mkAttendance 12 "u-1" "2024-05-02T08:00:00.000Z" None) []);
      reflexivity.
  - apply (Hout 12%Z None); [reflexivity | discriminate | reflexivity].
Defined.

(** After the refresh the member is shown as checked in on visit 12. *)
Example refresh_finds_open_visit :
  let w' := exec (fetchAttendanceHistory member_backend) fresh_member_page in
  isCheckedIn w' = true /\ currentAttendanceId w' = Some 12%Z.
Proof. split; reflexivity. Qed.

End AttendanceWitnesses.

(* ================================================================== *)
(** * Further properties of the session store *)
(* ================================================================== *)

Section ProviderFacts.
Import AuthContext AuthProvider.

Implicit Types (w : World) (s : Shell) (api : Api).

Ltac world_run :=
  unfold fetchUserData, redirectBasedOnRole, try_catch, bind, gets, await,
    throw, send, setUserData, console_error, navigate, set_auth, modify, ret;
  simpl.

(** The world in which the profile [d] was stored after the query for
    [userId] was sent. *)
Lemma fetchUserData_found users_single userId w d :
  users_single userId = Resolved (mkResponse (Some d) None) ->
  fetchUserData users_single userId w
  = redirectBasedOnRole (role d)
      (mkWorld (mkAuthState (session (auth w)) (user (auth w)) (Some d)
                            (isLoading (auth w)))
               (location w) (navigations w) (console w)
               (requests w ++ [SelectUserById userId])).
Proof.
  intros H. unfold fetchUserData, try_catch, bind, await, send, setUserData,
    set_auth, modify, ret, throw. simpl. rewrite H. simpl.
  match goal with |- context [redirectBasedOnRole ?r ?x] =>
    destruct (redirect_cases r x) as [E | (_ & _ & E)]; rewrite E; reflexivity
  end.
Qed.

Lemma fetchUserData_nothing users_single userId w :
  users_single userId = Resolved (mkResponse None None) ->
  fetchUserData users_single userId w
  = (Normal tt,
     mkWorld (auth w) (location w) (navigations w) (console w)
             (requests w ++ [SelectUserById userId])).
Proof. intros H. world_run. rewrite H. reflexivity. Qed.

(** X1.  Whatever the backend answers, a run of [fetchUserData] completes
    normally, sends exactly one query, leaves [session], [user] and
    [isLoading] as they were, and navigates at most once. *)
Theorem fetchUserData_frame users_single userId w :
  let w' := exec (fetchUserData users_single userId) w in
  eval (fetchUserData users_single userId) w = Normal tt
  /\ requests w' = (requests w ++ [SelectUserById userId])%list
  /\ session (auth w') = session (auth w)
  /\ user (auth w') = user (auth w)
  /\ isLoading (auth w') = isLoading (auth w)
  /\ exists navs, navigations w' = (navigations w ++ navs)%list
                  /\ (length navs <= 1)%nat.
Proof.
  cbv zeta. unfold exec, eval.
  destruct (users_single userId) as [[[d|] [e|]]|e] eqn:H.
  - rewrite (fetchUserData_error _ _ w H). simpl. repeat split.
    exists []. rewrite app_nil_r. split; [reflexivity | simpl; lia].
  - rewrite (fetchUserData_found _ _ w H).
    match goal with |- context [redirectBasedOnRole ?r ?x] =>
      destruct (redirect_cases r x) as [E | (_ & _ & E)]; rewrite E; simpl
    end.
    + repeat split. exists []. rewrite app_nil_r. split; [reflexivity | simpl; lia].
    + repeat split. eexists [_]. split; [reflexivity | simpl; lia].
  - rewrite (fetchUserData_error _ _ w H). simpl. repeat split.
    exists []. rewrite app_nil_r. split; [reflexivity | simpl; lia].
  - rewrite (fetchUserData_nothing _ _ w H). simpl. repeat split.
    exists []. rewrite app_nil_r. split; [reflexivity | simpl; lia].
  - rewrite (fetchUserData_rejected _ _ w H). simpl. repeat split.
    exists []. rewrite app_nil_r. split; [reflexivity | simpl; lia].
Qed.

(** X2.  When the profile query finds the row [d], the profile is stored.
    On the sign-in page a profile with one of the three roles is taken to
    that role's home by one navigation; a profile with any other role stays
    on the sign-in page; and off the sign-in page nothing moves. *)
Theorem fetchUserData_success_lands users_single userId w d :
  users_single userId = Resolved (mkResponse (Some d) None) ->
  let w' := exec (fetchUserData users_single userId) w in
  userData (auth w') = Some d
  /\ console w' = console w
  /\ (pathname (location w) = "/auth" ->
      role d = "admin" \/ role d = "trainer" \/ role d = "member" ->
      location w' = mkLocation ("/" ++ role d) "" ""
      /\ navigations w' = (navigations w ++ [("/" ++ role d)%string])%list)
  /\ (pathname (location w) = "/auth" ->
      role d <> "admin" -> role d <> "trainer" -> role d <> "member" ->
      location w' = location w /\ navigations w' = navigations w)
  /\ (pathname (location w) <> "/auth" ->
      location w' = location w /\ navigations w' = navigations w).
Proof.
  intros H. cbv zeta. unfold exec. rewrite (fetchUserData_found _ _ w H).
  match goal with |- context [redirectBasedOnRole ?r ?x] =>
    pose proof (redirect_cases r x) as Hc;
    pose proof (@redirect_from_auth r x) as Hfrom;
    pose proof (@redirect_off_auth r x) as Hoff
  end.
  simpl in Hc, Hfrom, Hoff.
  split; [|split; [|split; [|split]]].
  - destruct Hc as [E | (_ & _ & E)]; rewrite E; reflexivity.
  - destruct Hc as [E | (_ & _ & E)]; rewrite E; reflexivity.
  - intros Hp Hr. rewrite (Hfrom Hr Hp). split; reflexivity.
  - intros Hp Ha Ht Hm. destruct Hc as [E | (_ & [?|[?|?]] & _)]; try congruence.
    rewrite E. split; reflexivity.
  - intros Hp. rewrite (Hoff Hp). split; reflexivity.
Qed.

(** X3.  Running [redirectBasedOnRole] a second time changes nothing, for
    every role and every world: whatever the first run did, the path it
    leaves is one on which the function does not navigate. *)
Theorem redirect_idempotent role w :
  redirectBasedOnRole role (exec (redirectBasedOnRole role) w)
  = (Normal tt, exec (redirectBasedOnRole role) w).
Proof.
  unfold exec.
  destruct (redirect_cases role w) as [E | (_ & Hr & E)]; rewrite E; simpl.
  - exact E.
  - apply redirect_at_home; [assumption|].
    destruct Hr as [-> | [-> | ->]]; reflexivity.
Qed.

Ltac shell_run :=
  unfold signIn, signOut, signUp, onAuthStateChange_callback, setupAuth,
    throw_if, lift, toast, call, setTimeout_fetchUserData, setSession, setUser,
    setIsLoading, try_catch, bind, gets, await, throw, navigate, setUserData,
    set_auth, modify, ret;
  simpl.

(** X4.  [signIn] makes one call and shows one toast.  It completes
    normally exactly when the backend reports no error; when the call
    rejects or resolves with an error it shows the error's message and
    throws that error again.  It never touches the session store, the
    location or the timers itself. *)
Theorem signIn_outcome api email password s :
  (signInWithPassword api email password = Resolved None ->
   signIn api email password s
   = (Normal tt,
      told s [SignInWithPassword email password]
             [mkToast "Success" "Successfully signed in" false]))
  /\ (forall e,
        signInWithPassword api email password = Rejected e
        \/ signInWithPassword api email password = Resolved (Some e) ->
        signIn api email password s
        = (Throw e,
           told s [SignInWithPassword email password]
                  [mkToast "Error signing in" (message e) true]))
  /\ world (exec (signIn api email password) s) = world s
  /\ timers (exec (signIn api email password) s) = timers s.
Proof.
  unfold exec, told. shell_run.
  destruct (signInWithPassword api email password) as [[e|]|e]; simpl;
    repeat split; try discriminate; try reflexivity;
    intros e' [H | H]; inversion H; reflexivity.
Qed.

(** X5.  [signOut] never throws.  When the backend reports no error it
    navigates to [/auth] once and shows "Signed out"; when the call rejects
    or resolves with an error it shows the error's message and does not
    navigate.  Either way it leaves [session], [user], [userData] and
    [isLoading] to the auth listener. *)
Theorem signOut_outcome api s :
  eval (signOut api) s = Normal tt
  /\ auth (world (exec (signOut api) s)) = auth (world s)
  /\ (auth_signOut api = Resolved None ->
      let s' := exec (signOut api) s in
      location (world s') = mkLocation "/auth" "" ""
      /\ navigations (world s') = (navigations (world s) ++ ["/auth"])%list
      /\ toasts s'
         = (toasts s ++ [mkToast "Signed out" "You've been signed out successfully" false])%list)
  /\ (forall e,
        auth_signOut api = Rejected e \/ auth_signOut api = Resolved (Some e) ->
        exec (signOut api) s
        = told s [AuthSignOut] [mkToast "Error signing out" (message e) true]).
Proof.
  unfold exec, eval, told. shell_run.
  destruct (auth_signOut api) as [[e|]|e]; simpl;
    repeat split; try discriminate; try reflexivity;
    intros e' [H | H]; inversion H; reflexivity.
Qed.

(** Sign-up up to and including the row in [users]. *)
Lemma signUp_account_created api now email password name role s u :
  auth_signUp api email password = Resolved (mkSignUpResult (Some u) None) ->
  insert_user api (user_id u) email name role = Resolved None ->
  signUp api now email password name role s
  = let s1 := told s [AuthSignUp email password;
                      InsertUser (user_id u) email name role]
                     [mkToast "Account created" "You've successfully signed up" false] in
    if role =? "member" then
      match insert_member api (user_id u) (split_first "T" now) with
      | Resolved None =>
          (Normal tt, told s1 [InsertMember (user_id u) (split_first "T" now)] [])
      | Resolved (Some e) | Rejected e =>
          (Throw e,
           told s1 [InsertMember (user_id u) (split_first "T" now)]
                   [mkToast "Error signing up" (message e) true])
      end
    else if role =? "trainer" then
      match insert_trainer api (user_id u) with
      | Resolved None => (Normal tt, told s1 [InsertTrainer (user_id u)] [])
      | Resolved (Some e) | Rejected e =>
          (Throw e,
           told s1 [InsertTrainer (user_id u)]
                   [mkToast "Error signing up" (message e) true])
      end
    else (Normal tt, s1).
Proof.
  intros Hs Hu. cbv zeta. unfold told. shell_run. rewrite Hs. simpl. rewrite Hu. simpl.
  destruct (role =? "member").
  - destruct (insert_member api (user_id u) (split_first "T" now)) as [[e|]|e]; simpl;
      rewrite <- ?app_assoc, ?app_nil_r; reflexivity.
  - destruct (role =? "trainer").
    + destruct (insert_trainer api (user_id u)) as [[e|]|e]; simpl;
        rewrite <- ?app_assoc, ?app_nil_r; reflexivity.
    + rewrite <- ?app_assoc. reflexivity.
Qed.

(** X6.  A sign-up on which every call succeeds completes normally with the
    one toast "Account created", after creating the auth user and the row
    in [users]; then a member gets a row in [members] whose join date is
    the date part of the current time, a trainer gets a row in [trainers],
    and any other role (an admin, say) gets no further row. *)
Theorem signUp_creates_role_record api now email password name role s u :
  auth_signUp api email password = Resolved (mkSignUpResult (Some u) None) ->
  insert_user api (user_id u) email name role = Resolved None ->
  let s' := exec (signUp api now email password name role) s in
  let base := [AuthSignUp email password; InsertUser (user_id u) email name role] in
  (role = "member" ->
   insert_member api (user_id u) (split_first "T" now) = Resolved None ->
   eval (signUp api now email password name role) s = Normal tt
   /\ calls s' = (calls s ++ base ++ [InsertMember (user_id u) (split_first "T" now)])%list
   /\ toasts s'
      = (toasts s ++ [mkToast "Account created" "You've successfully signed up" false])%list)
  /\ (role = "trainer" ->
      insert_trainer api (user_id u) = Resolved None ->
      eval (signUp api now email password name role) s = Normal tt
      /\ calls s' = (calls s ++ base ++ [InsertTrainer (user_id u)])%list
      /\ toasts s'
         = (toasts s ++ [mkToast "Account created" "You've successfully signed up" false])%list)
  /\ (role <> "member" -> role <> "trainer" ->
      eval (signUp api now email password name role) s = Normal tt
      /\ calls s' = (calls s ++ base)%list
      /\ toasts s'
         = (toasts s ++ [mkToast "Account created" "You've successfully signed up" false])%list).
Proof.
  intros Hs Hu. cbv zeta. unfold exec, eval.
  rewrite (@signUp_account_created api now email password name role s u Hs Hu).
  cbv zeta. split; [|split].
  - intros -> Hm. simpl. rewrite Hm. unfold told. simpl.
    rewrite <- !app_assoc, app_nil_r. simpl. repeat split.
  - intros -> Ht. simpl. rewrite Ht. unfold told. simpl.
    rewrite <- !app_assoc, app_nil_r. simpl. repeat split.
  - intros Hm Ht. apply String.eqb_neq in Hm, Ht. rewrite Hm, Ht.
    unfold told. simpl. repeat split.
Qed.

(** X7.  When the account and the row in [users] were created but the
    row in [members] (for a member) or [trainers] (for a trainer) is
    refused, [signUp] throws the backend's error after showing two toasts:
    first "Account created", then "Error signing up" with the error's
    message.  The row in [users] was sent before and nothing undoes it. *)
Theorem signUp_fails_after_account_created api now email password name role s u e :
  auth_signUp api email password = Resolved (mkSignUpResult (Some u) None) ->
  insert_user api (user_id u) email name role = Resolved None ->
  (role = "member"
   /\ (insert_member api (user_id u) (split_first "T" now) = Resolved (Some e)
       \/ insert_member api (user_id u) (split_first "T" now) = Rejected e))
  \/ (role = "trainer"
      /\ (insert_trainer api (user_id u) = Resolved (Some e)
          \/ insert_trainer api (user_id u) = Rejected e)) ->
  let s' := exec (signUp api now email password name role) s in
  eval (signUp api now email password name role) s = Throw e
  /\ toasts s'
     = (toasts s ++ [mkToast "Account created" "You've successfully signed up" false;
                     mkToast "Error signing up" (message e) true])%list
  /\ exists last,
       calls s' = (calls s ++ [AuthSignUp email password;
                               InsertUser (user_id u) email name role; last])%list.
Proof.
  intros Hs Hu H. cbv zeta. unfold exec, eval.
  rewrite (@signUp_account_created api now email password name role s u Hs Hu).
  cbv zeta. unfold told.
  destruct H as [[-> [H | H]] | [-> [H | H]]]; simpl; rewrite H; simpl;
    rewrite <- !app_assoc; simpl; repeat split; eexists; reflexivity.
Qed.

(** X8.  When the auth user cannot be created (the call rejects, resolves
    with an error, or resolves without a user), [signUp] throws, shows only
    the toast "Error signing up", and writes to no table. *)
Theorem signUp_without_account_writes_nothing api now email password name role s :
  (forall u, auth_signUp api email password
             <> Resolved (mkSignUpResult (Some u) None)) ->
  exists e,
    signUp api now email password name role s
    = (Throw e,
       told s [AuthSignUp email password]
              [mkToast "Error signing up" (message e) true]).
Proof.
  intros H. unfold told. shell_run.
  destruct (auth_signUp api email password) as [[[u|] [e|]]|e] eqn:Hs; simpl.
  - now exists e.
  - exfalso. exact (H u eq_refl).
  - now exists e.
  - now exists (mkError "Failed to create user").
  - now exists e.
Qed.

(** The shape of the world after any run of [fetchUserData]. *)
Lemma fetchUserData_shape users_single userId w :
  exists ud navs loc logs,
    fetchUserData users_single userId w
    = (Normal tt,
       mkWorld (mkAuthState (session (auth w)) (user (auth w)) ud
                            (isLoading (auth w)))
               loc (navigations w ++ navs) (console w ++ logs)
               (requests w ++ [SelectUserById userId])).
Proof.
  destruct (users_single userId) as [[[d|] [e|]]|e] eqn:H.
  - rewrite (fetchUserData_error _ _ w H). now eexists _, [], _, [_]; rewrite app_nil_r.
  - rewrite (fetchUserData_found _ _ w H).
    match goal with |- context [redirectBasedOnRole ?r ?x] =>
      destruct (redirect_cases r x) as [E | (_ & _ & E)]; rewrite E; simpl
    end.
    + now eexists _, [], _, []; rewrite !app_nil_r.
    + now eexists _, [_], _, []; rewrite !app_nil_r.
  - rewrite (fetchUserData_error _ _ w H). now eexists _, [], _, [_]; rewrite app_nil_r.
  - rewrite (fetchUserData_nothing _ _ w H). destruct w as [[se us ud lo] loc nav con req].
    now eexists _, [], _, []; rewrite !app_nil_r.
  - rewrite (fetchUserData_rejected _ _ w H). now eexists _, [], _, [_]; rewrite app_nil_r.
Qed.

Lemma lifted_fetch_isLoading api userId s :
  isLoading (auth (world (exec (lift (fetchUserData (users_single api) userId)) s)))
  = isLoading (auth (world s)).
Proof.
  unfold exec, lift.
  destruct (fetchUserData_shape (users_single api) userId (world s))
    as (ud & navs & loc & logs & E).
  now rewrite E.
Qed.

Lemma run_timers_fold_isLoading api (l : list string) (acc : Completion unit * Shell) :
  isLoading (auth (world (snd
    (fold_left
       (fun (acc : Completion unit * Shell) userId =>
          lift (fetchUserData (users_single api) userId) (snd acc))
       l acc))))
  = isLoading (auth (world (snd acc))).
Proof.
  revert acc. induction l as [|u l IH]; intros acc; simpl; [reflexivity|].
  rewrite IH. apply lifted_fetch_isLoading.
Qed.

Lemma run_step_isLoading api st s :
  isLoading (auth (world (exec (run_step api st) s))) = isLoading (auth (world s)).
Proof.
  destruct st as [cs | | e p | now e p n r | ]; simpl.
  - unfold exec. shell_run. now destruct cs.
  - unfold exec, run_timers. now rewrite run_timers_fold_isLoading.
  - unfold exec. shell_run.
    now destruct (signInWithPassword api e p) as [[?|]|?].
  - unfold exec. shell_run.
    destruct (auth_signUp api e p) as [[[u|] [er|]]|er]; simpl; try reflexivity.
    destruct (insert_user api (user_id u) e n r) as [[?|]|?]; simpl; try reflexivity.
    destruct (r =? "member").
    + now destruct (insert_member api (user_id u) (split_first "T" now)) as [[?|]|?].
    + destruct (r =? "trainer"); [|reflexivity].
      now destruct (insert_trainer api (user_id u)) as [[?|]|?].
  - unfold exec. shell_run. now destruct (auth_signOut api) as [[?|]|?].
Qed.

Lemma after_steps_isLoading api steps s :
  isLoading (auth (world (after_steps api steps s))) = isLoading (auth (world s)).
Proof.
  unfold after_steps. revert s. induction steps as [|st steps IH]; intros s; simpl.
  - reflexivity.
  - rewrite IH. apply run_step_isLoading.
Qed.

Section WithChildren.
Variable ReactNode : Type.
Implicit Types (props : Guard.ProtectedRouteProps ReactNode).

(** X9.  When the auth listener receives an event without a session (the
    user signed out), [session], [user] and [userData] become null at
    once and no fetch is scheduled; with loading over, the next evaluation
    of the guard on any route redirects to [/auth], carrying the location
    the user was on. *)
Theorem signed_out_event_then_guard s props :
  isLoading (auth (world s)) = false ->
  let s' := exec (onAuthStateChange_callback None) s in
  session (auth (world s')) = None
  /\ user (auth (world s')) = None
  /\ userData (auth (world s')) = None
  /\ timers s' = timers s
  /\ location (world s') = location (world s)
  /\ eval (Guard.ProtectedRoute props) (world s')
     = Normal (Guard.Navigate "/auth"
                 (Some (Guard.mkNavState (location (world s)))) true).
Proof.
  intros H. cbv zeta. unfold exec. shell_run. repeat split.
  unfold eval. erewrite ProtectedRoute_no_user; simpl; auto.
Qed.

(** X12.  Only [setupAuth] writes [isLoading]: no auth event, timer,
    sign-in, sign-up or sign-out changes it.  So when the initial
    [getSession] rejects, [setupAuth] throws before it reaches
    [setIsLoading(false)], and from then on the guard shows the loading
    indicator on every route, whatever happens next. *)
Theorem failed_start_up_keeps_loading api s e steps props :
  getSession api = Rejected e ->
  let s' := after_steps api steps (exec (setupAuth api) s) in
  eval (setupAuth api) s = Throw e
  /\ isLoading (auth (world s')) = true
  /\ eval (Guard.ProtectedRoute props) (world s') = Normal Guard.LoadingIndicator.
Proof.
  intros H. cbv zeta.
  assert (E : setupAuth api s
              = (Throw e,
                 mkShell (set_auth (fun a => mkAuthState (session a) (user a)
                                                         (userData a) true) (world s))
                         (toasts s) (calls s ++ [OnAuthStateChange; GetSession])
                         (timers s))).
  { shell_run. rewrite H. simpl. now rewrite <- app_assoc. }
  assert (L : isLoading (auth (world (after_steps api steps (exec (setupAuth api) s))))
              = true).
  { rewrite after_steps_isLoading. unfold exec. now rewrite E. }
  split; [unfold eval; now rewrite E|]. split; [exact L|].
  unfold eval. now erewrite ProtectedRoute_loading by exact L.
Qed.

End WithChildren.

(** X10.  A sign-in event stores the session and its user and defers the
    profile fetch; [userData] is not touched until the timer runs.  When
    the timer then runs, it queries the profile of that session's user,
    stores the row found, and leaves no timer pending. *)
Theorem signed_in_event_then_timers api s sess d :
  timers s = [] ->
  users_single api (user_id (session_user sess))
  = Resolved (mkResponse (Some d) None) ->
  let s1 := exec (onAuthStateChange_callback (Some sess)) s in
  let s2 := exec (run_timers api) s1 in
  (session (auth (world s1)) = Some sess
   /\ user (auth (world s1)) = Some (session_user sess)
   /\ userData (auth (world s1)) = userData (auth (world s))
   /\ requests (world s1) = requests (world s)
   /\ timers s1 = [user_id (session_user sess)])
  /\ (session (auth (world s2)) = Some sess
      /\ user (auth (world s2)) = Some (session_user sess)
      /\ userData (auth (world s2)) = Some d
      /\ requests (world s2)
         = (requests (world s) ++ [SelectUserById (user_id (session_user sess))])%list
      /\ timers s2 = []).
Proof.
  intros Ht Hu. cbv zeta.
  assert (E1 : exec (onAuthStateChange_callback (Some sess)) s
               = mkShell (set_auth (fun a => mkAuthState (Some sess)
                                       (Some (session_user sess)) (userData a)
                                       (isLoading a)) (world s))
                         (toasts s) (calls s) [user_id (session_user sess)]).
  { unfold exec. shell_run. now rewrite Ht. }
  rewrite E1. split; [simpl; repeat split|].
  unfold exec, run_timers, lift. simpl.
  rewrite (fetchUserData_found _ _ _ Hu). simpl.
  match goal with |- context [redirectBasedOnRole ?r ?x] =>
    destruct (redirect_cases r x) as [E | (_ & _ & E)]; rewrite E; simpl
  end; repeat split.
Qed.

(** X11.  When the initial [getSession] resolves, [setupAuth] completes
    normally with [isLoading] false, [session] and [user] as the backend
    reported them, and one subscription and one session check made.
    Without a session no profile query is sent and [userData] is left as
    it was; with a session exactly one profile query is sent, for that
    session's user, and [isLoading] is false whether or not it succeeds. *)
Theorem setupAuth_finishes_loading api s cs :
  getSession api = Resolved cs ->
  let s' := exec (setupAuth api) s in
  eval (setupAuth api) s = Normal tt
  /\ isLoading (auth (world s')) = false
  /\ session (auth (world s')) = cs
  /\ user (auth (world s')) = option_map session_user cs
  /\ calls s' = (calls s ++ [OnAuthStateChange; GetSession])%list
  /\ (cs = None ->
      userData (auth (world s')) = userData (auth (world s))
      /\ requests (world s') = requests (world s))
  /\ (forall sess, cs = Some sess ->
      requests (world s')
      = (requests (world s) ++ [SelectUserById (user_id (session_user sess))])%list).
Proof.
  intros H. cbv zeta. unfold exec, eval. shell_run. rewrite H. simpl.
  destruct cs as [sess|]; simpl.
  - match goal with |- context [fetchUserData ?f ?u ?x] =>
      destruct (fetchUserData_shape f u x) as (ud & navs & loc & logs & E)
    end.
    rewrite E. simpl. rewrite <- app_assoc. simpl.
    repeat split; try discriminate. now intros sess' [= ->].
  - rewrite <- app_assoc. simpl. repeat split; discriminate.
Qed.

(** X13.  [s.split(c)[0]] is the part of [s] before the first [c]: it never
    contains [c], and for a text [d ++ c ++ rest] with no [c] in [d] it is
    [d], so the join date of an ISO time [YYYY-MM-DDThh:mm:ss.sssZ] is its
    date part. *)
Theorem split_first_spec (c : ascii) (s : string) :
  String.index 0 (String c EmptyString) (split_first c s) = None
  /\ String.prefix (split_first c s) s = true
  /\ forall d rest,
       String.index 0 (String c EmptyString) d = None ->
       split_first c (d ++ String c rest) = d.
Proof.
  split; [|split].
  - induction s as [|a s IH]; simpl; [reflexivity|].
    destruct (Ascii.eqb_spec a c) as [->|Hac]; simpl; [reflexivity|].
    destruct (ascii_dec c a) as [->|_]; [congruence|].
    now rewrite IH.
  - induction s as [|a s IH]; simpl; [reflexivity|].
    destruct (Ascii.eqb_spec a c) as [->|Hac]; simpl; [reflexivity|].
    destruct (ascii_dec a a); [assumption | congruence].
  - intros d. induction d as [|a d IH]; intros rest Hd; simpl.
    + now rewrite Ascii.eqb_refl.
    + simpl in Hd. destruct (ascii_dec c a) as [->|Hca].
      * destruct d; simpl in Hd; discriminate.
      * destruct (Ascii.eqb_spec a c) as [->|_]; [congruence|].
        f_equal. apply IH.
        destruct (String.index 0 (String c "") d); [discriminate | reflexivity].
Qed.

End ProviderFacts.

(* ================================================================== *)
(** * Properties of the guard together with the route table *)
(* ================================================================== *)

Section AppFacts.
Import AuthContext Guard App.

Implicit Types (w : World).

Lemma includes_singleton r x : includes [r] x = (x =? r).
Proof. unfold includes. simpl. now rewrite orb_false_r. Qed.

(** X14.  The guard's decision table.  It shows the loading indicator
    exactly while [isLoading] is true.  It renders the guarded content
    exactly when loading is over, an identity is present, and the role
    check does not apply or passes: [allowedRoles] is empty, or no profile
    is stored, or the profile's role is in [allowedRoles]. *)
Theorem guard_decision_table {ReactNode} (props : ProtectedRouteProps ReactNode) w :
  (eval (ProtectedRoute props) w = Normal LoadingIndicator
   <-> isLoading (auth w) = true)
  /\ (eval (ProtectedRoute props) w = Normal (Fragment (children props))
      <-> isLoading (auth w) = false
          /\ user (auth w) <> None
          /\ (allowedRoles props = []
              \/ userData (auth w) = None
              \/ exists ud, userData (auth w) = Some ud
                            /\ includes (allowedRoles props) (role ud) = true)).
Proof.
  unfold eval.
  destruct (isLoading (auth w)) eqn:H1.
  { erewrite ProtectedRoute_loading by eassumption. simpl. split.
    - split; reflexivity.
    - split; [intros H; discriminate H | intros [H _]; discriminate H]. }
  destruct (user (auth w)) as [u|] eqn:H2.
  2:{ erewrite ProtectedRoute_no_user by eassumption. simpl. split.
      - split; intros H; discriminate H.
      - split; [intros H; discriminate H | intros (_ & H & _); congruence]. }
  destruct (userData (auth w)) as [ud|] eqn:H3.
  2:{ erewrite ProtectedRoute_granted_no_profile by eassumption. simpl. split.
      - split; intros H; discriminate H.
      - split; [|reflexivity].
        intros _. split; [reflexivity|]. split; [discriminate|]. right; left; reflexivity. }
  destruct ((0 <? length (allowedRoles props))%nat
            && negb (includes (allowedRoles props) (role ud))) eqn:H4.
  - erewrite ProtectedRoute_wrong_role by eassumption. simpl.
    apply andb_true_iff in H4. destruct H4 as [Hlen Hin].
    apply negb_true_iff in Hin. split.
    + split; intros H; discriminate H.
    + split; [intros H; discriminate H|].
      intros (_ & _ & [He | [Hn | (ud' & Hud & Hi)]]).
      * rewrite He in Hlen. discriminate Hlen.
      * discriminate Hn.
      * injection Hud as <-. congruence.
  - erewrite ProtectedRoute_granted by eassumption. simpl. split.
    + split; intros H; discriminate H.
    + split; [|reflexivity].
      intros _. split; [reflexivity|]. split; [discriminate|].
      apply andb_false_iff in H4. destruct H4 as [Hlen | Hin].
      * left. destruct (allowedRoles props); [reflexivity | discriminate Hlen].
      * right. right. exists ud. split; [reflexivity|].
        now apply negb_false_iff in Hin.
Qed.

(** The element of a guarded route for a session of the role it allows. *)
Lemma home_route_granted w r u ud (pg : Page) :
  isLoading (auth w) = false ->
  user (auth w) = Some u ->
  userData (auth w) = Some ud ->
  role ud = r ->
  eval (ProtectedRoute (mkProps pg [r])) w = Normal (Fragment pg).
Proof.
  intros H1 H2 H3 <-. unfold eval.
  erewrite ProtectedRoute_granted; try eassumption; [reflexivity|].
  cbn [allowedRoles length Nat.ltb Nat.leb andb].
  rewrite includes_singleton, String.eqb_refl. reflexivity.
Qed.

(** X15.  Every redirect the guard issues lands: its target is a
    registered route, and the element of that route, evaluated for the
    same session at the new location, renders its page.  So a session is
    redirected at most once, and the guard cannot loop. *)
Theorem guard_redirect_lands {ReactNode} (props : ProtectedRouteProps ReactNode)
    w to st rep :
  eval (ProtectedRoute props) w = Normal (Navigate to st rep) ->
  exists r,
    route_at to = Some r
    /\ eval (route_element r) (follow to w) = Normal (Fragment (page r)).
Proof.
  unfold eval.
  destruct (isLoading (auth w)) eqn:H1.
  { erewrite ProtectedRoute_loading by eassumption. discriminate. }
  destruct (user (auth w)) as [u|] eqn:H2.
  2:{ erewrite ProtectedRoute_no_user by eassumption. simpl. intros [= <- _ _].
      eexists. split; reflexivity. }
  destruct (userData (auth w)) as [ud|] eqn:H3.
  2:{ erewrite ProtectedRoute_granted_no_profile by eassumption. discriminate. }
  destruct ((0 <? length (allowedRoles props))%nat
            && negb (includes (allowedRoles props) (role ud))) eqn:H4.
  2:{ erewrite ProtectedRoute_granted by eassumption. discriminate. }
  erewrite ProtectedRoute_wrong_role by eassumption. simpl.
  destruct (String.eqb_spec (role ud) "admin") as [Ha|Ha].
  { intros [= <- _ _]. eexists. split; [reflexivity|].
    apply (@home_route_granted (follow "/admin" w) "admin" u ud); auto. }
  destruct (String.eqb_spec (role ud) "trainer") as [Ht|Ht].
  { intros [= <- _ _]. eexists. split; [reflexivity|].
    apply (@home_route_granted (follow "/trainer" w) "trainer" u ud); auto. }
  destruct (String.eqb_spec (role ud) "member") as [Hm|Hm].
  { intros [= <- _ _]. eexists. split; [reflexivity|].
    apply (@home_route_granted (follow "/member" w) "member" u ud); auto. }
  intros [= <- _ _]. eexists. split; reflexivity.
Qed.

(** X16.  The landing page's effect navigates exactly when loading is over
    and a profile with one of the three roles is stored, and then once, to
    that role's home; while loading, without a profile, or with any other
    role it does nothing.  When an identity is present, the route it
    navigates to renders its page for that session. *)
Theorem Index_effect_redirects w :
  (isLoading (auth w) = true \/ userData (auth w) = None ->
   Index_effect w = (Normal tt, w))
  /\ (forall ud,
        userData (auth w) = Some ud ->
        role ud <> "admin" -> role ud <> "trainer" -> role ud <> "member" ->
        Index_effect w = (Normal tt, w))
  /\ (forall ud,
        isLoading (auth w) = false ->
        userData (auth w) = Some ud ->
        role ud = "admin" \/ role ud = "trainer" \/ role ud = "member" ->
        Index_effect w = navigate ("/" ++ role ud) w
        /\ exists r,
             route_at ("/" ++ role ud) = Some r
             /\ (user (auth w) <> None ->
                 eval (route_element r) (exec Index_effect w)
                 = Normal (Fragment (page r)))).
Proof.
  unfold Index_effect, bind, gets, ret. simpl.
  split; [|split].
  - intros [H | H]; rewrite H; simpl; [reflexivity|].
    now destruct (isLoading (auth w)).
  - intros ud Hu Ha Ht Hm. rewrite Hu.
    apply String.eqb_neq in Ha, Ht, Hm. rewrite Ha, Ht, Hm.
    now destruct (isLoading (auth w)).
  - intros ud Hl Hu Hr. rewrite Hl, Hu. simpl.
    destruct (user (auth w)) as [u|] eqn:Hus.
    + destruct Hr as [Hr | [Hr | Hr]]; rewrite Hr; simpl;
        (split; [reflexivity|]; eexists; split; [reflexivity|]; intros _;
         unfold exec, Index_effect, bind, gets, ret; simpl;
         rewrite Hl, Hu, Hr; simpl;
         eapply home_route_granted; simpl; eauto).
    + destruct Hr as [Hr | [Hr | Hr]]; rewrite Hr; simpl;
        (split; [reflexivity|]; eexists; split; [reflexivity|]; congruence).
Qed.

End AppFacts.

Section LayoutFacts.
Import AuthContext AuthProvider App.

Implicit Types (s : Shell) (api : Api).

(** X17.  The layout's sign-out button always ends on [/auth] and never
    throws.  When the backend signs the user out there are two navigations
    to [/auth], one by [signOut] and one by the button; when the sign-out
    fails there is one, next to the error toast, so the user is taken to
    the sign-in page although the session store still holds the session. *)
Theorem onSignOut_always_lands_on_auth api s :
  let s' := exec (onSignOut api) s in
  eval (onSignOut api) s = Normal tt
  /\ location (world s') = mkLocation "/auth" "" ""
  /\ auth (world s') = auth (world s)
  /\ (auth_signOut api = Resolved None ->
      navigations (world s') = (navigations (world s) ++ ["/auth"; "/auth"])%list)
  /\ (forall e,
        auth_signOut api = Rejected e \/ auth_signOut api = Resolved (Some e) ->
        navigations (world s') = (navigations (world s) ++ ["/auth"])%list
        /\ toasts s' = (toasts s ++ [mkToast "Error signing out" (message e) true])%list).
Proof.
  cbv zeta. unfold exec, eval, onSignOut, signOut, throw_if, lift, toast, call,
    try_catch, bind, await, throw, navigate, modify, ret. simpl.
  destruct (auth_signOut api) as [[e|]|e]; simpl;
    (split; [reflexivity|]); (split; [reflexivity|]); (split; [reflexivity|]);
    split.
  - intros Hok. discriminate Hok.
  - intros e' [Hf | Hf]; inversion Hf; subst; split; reflexivity.
  - intros _. now rewrite <- app_assoc.
  - intros e' [Hf | Hf]; discriminate Hf.
  - intros Hok. discriminate Hok.
  - intros e' [Hf | Hf]; inversion Hf; subst; split; reflexivity.
Qed.

Lemma filter_eq_at_most_one {A} (key : A -> string) (p : string) (l : list A) :
  NoDup (map key l) ->
  (length (filter (fun x => (p =? key x)%string) l) <= 1)%nat.
Proof.
  induction l as [|x l IH]; simpl; intros Hnd; [lia|].
  inversion Hnd as [|? ? Hni Hnd']; subst.
  destruct (String.eqb_spec p (key x)) as [->|Hne]; [|auto].
  simpl. assert (E : filter (fun y => key x =? key y) l = []).
  { clear IH Hnd Hnd'. induction l as [|y l IHl]; simpl; [reflexivity|].
    destruct (String.eqb_spec (key x) (key y)) as [E|_].
    - exfalso. apply Hni. left. now symmetry.
    - apply IHl. intros H. apply Hni. now right. }
  rewrite E. simpl. lia.
Qed.

Lemma sidebar_hrefs_distinct ud : NoDup (map href (sidebar ud)).
Proof.
  destruct ud as [d|]; simpl; [|constructor].
  destruct (role d =? "admin");
    [repeat constructor; simpl; intuition discriminate|].
  destruct (role d =? "trainer");
    [repeat constructor; simpl; intuition discriminate|].
  destruct (role d =? "member");
    [repeat constructor; simpl; intuition discriminate | constructor].
Qed.

(** X18.  The sidebar: on any location at most one entry is active; every
    entry lies under the home of the profile's role; and an entry whose
    path is a registered route leads to a route guarded for exactly that
    role, so following a sidebar link never causes a wrong-role redirect.
    Without a profile, or with a role other than the three, the sidebar is
    empty. *)
Theorem sidebar_consistent ud loc :
  (length (filter (isActive loc) (sidebar ud)) <= 1)%nat
  /\ (forall d e, ud = Some d -> In e (sidebar ud) ->
        startsWith (href e) ("/" ++ role d) = true
        /\ forall r, route_at (href e) = Some r -> guarded_for r = Some [role d])
  /\ (ud = None -> sidebar ud = [])
  /\ (forall d, ud = Some d ->
        role d <> "admin" -> role d <> "trainer" -> role d <> "member" ->
        sidebar ud = []).
Proof.
  split; [|split; [|split]].
  - apply (filter_eq_at_most_one href (pathname loc)). apply sidebar_hrefs_distinct.
  - intros d e -> Hin. simpl in Hin.
    destruct (String.eqb_spec (role d) "admin") as [Hr|_].
    { rewrite Hr. simpl in Hin.
      repeat (destruct Hin as [<- | Hin]; [split; [reflexivity|]; simpl;
        intros r Hrt; try discriminate Hrt; injection Hrt as <-; reflexivity|]).
      destruct Hin. }
    destruct (String.eqb_spec (role d) "trainer") as [Hr|_].
    { rewrite Hr. simpl in Hin.
      repeat (destruct Hin as [<- | Hin]; [split; [reflexivity|]; simpl;
        intros r Hrt; try discriminate Hrt; injection Hrt as <-; reflexivity|]).
      destruct Hin. }
    destruct (String.eqb_spec (role d) "member") as [Hr|_].
    { rewrite Hr. simpl in Hin.
      repeat (destruct Hin as [<- | Hin]; [split; [reflexivity|]; simpl;
        intros r Hrt; try discriminate Hrt; injection Hrt as <-; reflexivity|]).
      destruct Hin. }
    destruct Hin.
  - now intros ->.
  - intros d -> Ha Ht Hm. simpl.
    apply String.eqb_neq in Ha, Ht, Hm. now rewrite Ha, Ht, Hm.
Qed.

End LayoutFacts.

(* ================================================================== *)
(** * Further properties of the admin dashboard's aggregates *)
(* ================================================================== *)

Section AggregateFacts.
Import AdminDashboard AdminAggregates.

Implicit Types (o : Obj) (rows : list MemberRow) (w : World) (be : Backend).

Local Open Scope Z_scope.

(** Writing an own property changes the total by the new count less the
    old. *)
Lemma total_count_own_set k (v : Val) o :
  total_count (own_set k v o)
  = total_count o
    - match own_get k o with Some v' => count_of v' | None => 0 end
    + count_of v.
Proof.
  unfold total_count.
  induction o as [|[k' v'] o IH]; simpl; [lia|].
  destruct (k' =? k)%string; simpl; lia.
Qed.

(** A row adds one to the total when its trainer id is regular, and
    nothing otherwise. *)
Lemma total_count_step o m :
  well_counted o ->
  total_count (count_step o m)
  = total_count o + (if has_regular_trainer m then 1 else 0).
Proof.
  intros Hw. unfold has_regular_trainer.
  destruct (count_step_cases o m) as [[Hm ->] | (t & Hm & Ht & ->)].
  - destruct (trainer_id m) as [t|]; [|lia]. simpl in Hm.
    unfold regular. rewrite Hm. simpl. lia.
  - rewrite Hm. destruct (string_dec t "__proto__") as [-> | Hp].
    + rewrite obj_set_proto by now apply well_counted_no_proto.
      simpl. lia.
    + rewrite obj_set_storable by assumption. rewrite total_count_own_set.
      pose proof (@entry_ok_or_zero_plus_one t o Hw Ht Hp) as Hok.
      destruct Hw as [_ Hall]. rewrite Forall_forall in Hall.
      unfold obj_get in *. destruct (own_get t o) as [v|] eqn:E.
      * apply In_own_get in E. apply Hall in E. unfold entry_ok in E. simpl in E.
        destruct v as [n|k c]; simpl.
        -- destruct E as [Hr Hn]. rewrite Hr. unfold truthy_number.
           destruct (Z.eqb_spec n 0); simpl; lia.
        -- destruct E as (-> & Hi & _). unfold regular. rewrite Hi, andb_false_r. lia.
      * unfold regular. rewrite Ht. destruct (inherited t); simpl; lia.
Qed.

Lemma total_count_fold rows o :
  well_counted o ->
  total_count (fold_left count_step rows o) = total_count o + assigned_rows rows.
Proof.
  revert o. induction rows as [|m rows IH]; intros o Hw.
  - unfold assigned_rows. simpl. lia.
  - simpl fold_left. rewrite IH by now apply well_counted_step.
    rewrite total_count_step by assumption.
    unfold assigned_rows. simpl filter.
    destruct (has_regular_trainer m); simpl length; lia.
Qed.

(** X19.  The first loop loses and invents nothing.  The numbers stored in
    [trainerCounts] add up to the number of member rows whose trainer id is
    regular (not empty and not a name of [Object.prototype]); no key is
    stored twice; a key is stored exactly when some row names it and it is
    neither empty nor [__proto__]; and what is stored under a key stands
    for the rows that name it: a number equal to their count when the key
    is not a name of [Object.prototype], and otherwise the text of the
    inherited property of that name followed by one "1" per row. *)
Theorem countMembers_conserves_rows rows :
  total_count (countMembers rows) = assigned_rows rows
  /\ NoDup (keys (countMembers rows))
  /\ (forall t,
        In t (keys (countMembers rows))
        <-> t <> ""%string /\ t <> "__proto__"%string
            /\ exists m, In m rows /\ trainer_id m = Some t)
  /\ (forall t v,
        In (t, v) (countMembers rows) ->
        weight v = assigned_members t rows
        /\ match v with
           | VNum _ => inherited t = false
           | VText k _ => k = t /\ inherited t = true
           end).
Proof.
  assert (W0 : well_counted []) by (split; constructor).
  split; [|split; [|split]].
  - unfold countMembers. rewrite total_count_fold by assumption. reflexivity.
  - apply well_counted_countMembers.
  - intros t. split.
    + intros Hin. unfold keys in Hin. apply in_map_iff in Hin.
      destruct Hin as ([t' v] & <- & Hin). simpl.
      destruct (@countMembers_entry _ _ _ Hin) as [Hok Hwt].
      pose proof (@entry_ok_storable _ _ Hok) as Hs. apply storable_spec in Hs.
      destruct Hs as [Hne Hp]. split; [assumption|]. split; [assumption|].
      apply assigned_members_named. rewrite <- Hwt.
      unfold entry_ok in Hok. simpl in Hok. destruct v as [n|k c]; simpl; lia.
    + intros (Hne & Hp & m & Hm & Ht).
      pose proof (@weight_fold t rows [] W0) as E. fold (countMembers rows) in E.
      assert (Hs : storable t = true) by (apply storable_spec; now split).
      rewrite Hs in E. unfold weight_at in E. simpl in E.
      pose proof (@assigned_members_pos rows m t Hm Ht) as Hpos.
      destruct (own_get t (countMembers rows)) as [v|] eqn:Hg; [|lia].
      apply In_own_get in Hg. unfold keys.
      change t with (fst (t, v)). now apply in_map.
  - intros t v Hin. destruct (@countMembers_entry _ _ _ Hin) as [Hok Hwt].
    split; [assumption|]. unfold entry_ok in Hok. simpl in Hok.
    destruct v as [n|k c].
    + destruct Hok as [Hr _]. now apply regular_not_inherited.
    + destruct Hok as (-> & Hi & _). now split.
Qed.

(** The count the second loop ends with is the largest it has seen. *)
Lemma top_fold_max (entries : list (string * Val)) (acc : option string * Z) :
  0 <= snd acc ->
  snd (fold_left top_step entries acc)
  = Z.max (snd acc)
          (fold_right (fun e m => Z.max (count_of (snd e)) m) (snd acc) entries).
Proof.
  assert (G : forall a b : Z, a <= b ->
            forall l : list (string * Val),
              Z.max b (fold_right (fun e m => Z.max (count_of (snd e)) m) a l)
              = Z.max b (fold_right (fun e m => Z.max (count_of (snd e)) m) b l)).
  { intros a b Hab l. induction l as [|e l IHl]; simpl; lia. }
  revert acc. induction entries as [|[t [c|k ones]] es IH]; intros acc Hacc; simpl.
  - lia.
  - destruct (Z.ltb_spec (snd acc) c) as [Hlt | Hge].
    + rewrite IH by (simpl; lia). simpl.
      rewrite <- (G (snd acc) c) by lia. lia.
    + rewrite IH by assumption. lia.
  - rewrite IH by assumption. lia.
Qed.

Lemma findTop_max_count (entries : list (string * Val)) :
  snd (findTop entries) = max_count entries.
Proof.
  unfold findTop, max_count. rewrite top_fold_max by (simpl; lia). simpl.
  induction entries as [|e es IH]; simpl; lia.
Qed.

Lemma max_count_perm (e1 e2 : list (string * Val)) :
  Permutation e1 e2 -> max_count e1 = max_count e2.
Proof.
  unfold max_count. induction 1; simpl; lia.
Qed.

(** X20.  The member count reported for the top trainer does not depend on
    the order in which [Object.entries] lists the trainers: it is the
    largest count.  Only which of several tied trainers is named depends on
    the order.  No trainer is selected exactly when no count is positive.
    (An entry that holds a text has no count.) *)
Theorem findTop_count_order_independent (e1 e2 : list (string * Val)) :
  (Permutation e1 e2 -> snd (findTop e1) = snd (findTop e2))
  /\ snd (findTop e1) = max_count e1
  /\ (fst (findTop e1) = None <-> Forall (no_more_than 0) e1).
Proof.
  split; [|split].
  - intros Hp. rewrite !findTop_max_count. now apply max_count_perm.
  - apply findTop_max_count.
  - unfold findTop.
    destruct (top_fold_spec e1 (None, 0)) as (_ & Hall & Hcase). cbv zeta in *.
    split.
    + intros Hn.
      destruct Hcase as [E | (b & t & a & _ & Hf & _)]; [|congruence].
      rewrite E in Hall. exact Hall.
    + intros Hle.
      destruct Hcase as [E | (b & t & a & He & _ & Hs & _)]; [now rewrite E|].
      exfalso. simpl in Hs. rewrite Forall_forall in Hle.
      assert (Hin : In (t, VNum (snd (fold_left top_step e1 (None, 0)))) e1)
        by (rewrite He at 2; apply in_elt).
      apply Hle in Hin. unfold no_more_than in Hin. simpl in Hin. lia.
Qed.

(** X21.  Errors never clear the top trainer.  When the members query
    resolves with an error, one line is logged, no second query is sent and
    [topTrainer] keeps its value; the same holds when the query for the
    selected trainer's details resolves with an error.  And whatever the
    backend answers, [topTrainer] afterwards is either what it was or a
    trainer with a positive member count. *)
Theorem fetchTopTrainer_errors_keep_state be w :
  (forall d e,
     members_with_trainer be = Resolved (mkResponse d (Some e)) ->
     fetchTopTrainer be w
     = (Normal tt,
        mkWorld (topTrainer w)
                (console w ++ [mkLog ErrorLevel "Error fetching trainer data:" [LError e]])
                (requests w ++ [SelectAssignedMembers])))
  /\ (forall rows tid n d e,
        members_with_trainer be = Resolved (mkResponse (Some rows) None) ->
        findTop (Object_entries (countMembers rows)) = (Some tid, n) ->
        tid <> ""%string ->
        trainer_by_id be tid = Resolved (mkResponse d (Some e)) ->
        fetchTopTrainer be w
        = (Normal tt,
           mkWorld (topTrainer w)
                   (console w ++ [mkLog ErrorLevel "Error fetching top trainer:" [LError e]])
                   (requests w ++ [SelectAssignedMembers; SelectTrainerById tid])))
  /\ (topTrainer (exec (fetchTopTrainer be) w) = topTrainer w
      \/ exists t, topTrainer (exec (fetchTopTrainer be) w) = Some t
                   /\ 0 < memberCount t).
Proof.
  split; [|split].
  - intros d e H. unfold fetchTopTrainer, bind, send, console_error, modify, await, ret.
    simpl. rewrite H. reflexivity.
  - intros rows tid n d e Hr Hf Ht Htr.
    apply String.eqb_neq in Ht.
    unfold fetchTopTrainer, bind, send, console_error, modify, await, ret. simpl.
    rewrite Hr. simpl. rewrite Hf. simpl. unfold truthy_string. rewrite Ht. simpl.
    rewrite Htr. simpl. now rewrite <- app_assoc.
  - unfold exec, fetchTopTrainer, bind, send, console_error, setTopTrainer, modify,
      await, throw, ret. simpl.
    destruct (members_with_trainer be) as [[[rows|] [e|]]|e]; simpl; auto.
    destruct (findTop (Object_entries (countMembers rows))) as [top n] eqn:Hf.
    destruct top as [tid|]; simpl; auto.
    destruct (truthy_string tid); simpl; auto.
    destruct (trainer_by_id be tid) as [[[[i [nm|]]|] [e|]]|e]; simpl; auto.
    right. eexists. split; [reflexivity|]. simpl.
    unfold findTop in Hf.
    destruct (top_fold_spec (Object_entries (countMembers rows)) (None, 0))
      as (_ & _ & Hcase). cbv zeta in Hcase. rewrite Hf in Hcase.
    destruct Hcase as [E | (_ & _ & _ & _ & _ & Hs & _)]; [discriminate E|].
    exact Hs.
Qed.

(** X22.  One payment row whose amount is null turns the whole revenue
    into [NaN], whatever the other rows hold: [parseFloat(null)] is [NaN]
    and every later addition keeps it. *)
Theorem totalRevenue_null_amount_is_nan be w (paid : list PaymentRow) p :
  payments_amounts be = Resolved (mkResponse (Some paid) None) ->
  In p paid ->
  amount p = None ->
  eval (totalRevenue_queryFn be) w = Normal nan
  /\ totalRevenue (useQuery_data (eval (totalRevenue_queryFn be) w)) = nan.
Proof.
  intros Hr Hin Hp.
  assert (E : eval (totalRevenue_queryFn be) w = Normal nan).
  { unfold eval, totalRevenue_queryFn, bind, send, modify, await, ret. simpl.
    rewrite Hr. simpl. f_equal.
    apply in_split in Hin. destruct Hin as (l1 & l2 & ->).
    unfold reduce. rewrite fold_left_app. simpl. rewrite Hp. simpl.
    rewrite add_nan_r. apply reduce_from_nan. }
  split; [exact E | now rewrite E].
Qed.

End AggregateFacts.

(* ================================================================== *)
(** * Further properties of the attendance toggle *)
(* ================================================================== *)

Section ToggleFacts.
Import MemberDashboard.

Implicit Types (w : World) (be : Backend) (now : string).

Ltac toggle_run :=
  unfold fetchAttendanceHistory, handleCheckIn, handleCheckOut, toggled,
    bind, gets, await, send, setAttendanceHistory, setIsCheckedIn,
    setCurrentAttendanceId, console_error, modify, ret;
  simpl.

(** X23.  A backend error never moves the toggle.  When the refresh, the
    insert of a check-in or the update of a check-out resolves with an
    error, the error is logged once, [attendanceHistory], [isCheckedIn]
    and [currentAttendanceId] keep their values, and no refresh follows.
    A check-in whose insert returns no row changes nothing either; and
    without a profile neither the refresh nor the check-in sends
    anything. *)
Theorem toggle_failures_keep_state be now w :
  (userData w = None ->
   fetchAttendanceHistory be w = (Normal tt, w)
   /\ handleCheckIn be now w = (Normal tt, w))
  /\ (forall u d e,
        userData w = Some u ->
        select_attendance be (AuthContext.id u) = Resolved (mkResponse d (Some e)) ->
        fetchAttendanceHistory be w
        = (Normal tt,
           mkWorld (userData w) (attendanceHistory w) (isCheckedIn w)
                   (currentAttendanceId w)
                   (console w ++ [mkLog ErrorLevel "Error fetching attendance history:"
                                    [LError e]])
                   (requests w ++ [SelectAttendance (AuthContext.id u)])))
  /\ (forall u d e,
        userData w = Some u ->
        insert_attendance be [mkInsert (AuthContext.id u) now]
        = Resolved (mkResponse d (Some e)) ->
        handleCheckIn be now w
        = (Normal tt,
           mkWorld (userData w) (attendanceHistory w) (isCheckedIn w)
                   (currentAttendanceId w)
                   (console w ++ [mkLog ErrorLevel "Error checking in:" [LError e]])
                   (requests w ++ [InsertAttendance [mkInsert (AuthContext.id u) now]])))
  /\ (forall u d,
        userData w = Some u ->
        insert_attendance be [mkInsert (AuthContext.id u) now]
        = Resolved (mkResponse d None) ->
        d = None \/ d = Some [] ->
        handleCheckIn be now w
        = (Normal tt,
           mkWorld (userData w) (attendanceHistory w) (isCheckedIn w)
                   (currentAttendanceId w) (console w)
                   (requests w ++ [InsertAttendance [mkInsert (AuthContext.id u) now]])))
  /\ (forall i d e,
        currentAttendanceId w = Some i -> i <> 0%Z ->
        update_attendance be (mkUpdate now) i = Resolved (mkResponse d (Some e)) ->
        handleCheckOut be now w
        = (Normal tt,
           mkWorld (userData w) (attendanceHistory w) (isCheckedIn w)
                   (currentAttendanceId w)
                   (console w ++ [mkLog ErrorLevel "Error checking out:" [LError e]])
                   (requests w ++ [UpdateAttendance (mkUpdate now) i]))).
Proof.
  split; [|split; [|split; [|split]]].
  - intros Hu. toggle_run. rewrite Hu. split; reflexivity.
  - intros u d e Hu Hs. toggle_run. rewrite Hu. simpl. rewrite Hs. simpl.
    now rewrite Hu.
  - intros u d e Hu Hs. toggle_run. rewrite Hu. simpl. rewrite Hs. simpl.
    now rewrite Hu.
  - intros u d Hu Hs Hd. toggle_run. rewrite Hu. simpl. rewrite Hs. simpl.
    destruct Hd as [-> | ->]; simpl; now rewrite Hu.
  - intros i d e Hc Hi Hs. toggle_run. rewrite Hc. simpl.
    unfold truthy_number. apply Z.eqb_neq in Hi. rewrite Hi. simpl.
    rewrite Hs. simpl. now rewrite Hc.
Qed.

(** A successful refresh, as an equation on the whole world. *)
Lemma refresh_ok be w u d :
  userData w = Some u ->
  select_attendance be (AuthContext.id u) = Resolved (mkResponse d None) ->
  fetchAttendanceHistory be w
  = (Normal tt,
     mkWorld (Some u) (or_empty d)
             (match find_open d with Some _ => true | None => false end)
             (match find_open d with Some r => Some (id r) | None => None end)
             (console w)
             (requests w ++ [SelectAttendance (AuthContext.id u)])).
Proof.
  intros Hu Hsel. toggle_run. rewrite Hu. simpl. rewrite Hsel. simpl.
  destruct (find_open d); simpl; now rewrite ?Hu.
Qed.

(** X24.  Check-in then check-out is a round trip.  When the check-in's
    insert returns the new record and the refresh that follows lists it as
    the first open record, the member is shown as checked in on that
    record; a check-out then updates exactly that record, and when the
    next refresh shows no open record the member is shown as checked out
    again.  Four requests are sent: insert, select, update, select. *)
Theorem check_in_then_out_round_trip be1 be2 now1 now2 w u rec rest d1 d2 :
  userData w = Some u ->
  insert_attendance be1 [mkInsert (AuthContext.id u) now1]
  = Resolved (mkResponse (Some (rec :: rest)) None) ->
  select_attendance be1 (AuthContext.id u) = Resolved (mkResponse (Some d1) None) ->
  find_open (Some d1) = Some rec ->
  id rec <> 0%Z ->
  update_attendance be2 (mkUpdate now2) (id rec) = Resolved (mkResponse None None) ->
  select_attendance be2 (AuthContext.id u) = Resolved (mkResponse (Some d2) None) ->
  find_open (Some d2) = None ->
  let w1 := exec (handleCheckIn be1 now1) w in
  let w2 := exec (handleCheckOut be2 now2) w1 in
  (isCheckedIn w1 = true /\ currentAttendanceId w1 = Some (id rec)
   /\ attendanceHistory w1 = d1)
  /\ (isCheckedIn w2 = false /\ currentAttendanceId w2 = None
      /\ attendanceHistory w2 = d2)
  /\ requests w2
     = (requests w ++ [InsertAttendance [mkInsert (AuthContext.id u) now1];
                       SelectAttendance (AuthContext.id u);
                       UpdateAttendance (mkUpdate now2) (id rec);
                       SelectAttendance (AuthContext.id u)])%list.
Proof.
  intros Hu Hins Hsel1 Hopen1 Hid Hupd Hsel2 Hopen2. cbv zeta.
  assert (E1 : exec (handleCheckIn be1 now1) w
               = mkWorld (Some u) d1 true (Some (id rec)) (console w)
                   (requests w ++ [InsertAttendance [mkInsert (AuthContext.id u) now1];
                                   SelectAttendance (AuthContext.id u)])).
  { unfold exec. rewrite (@handleCheckIn_ok be1 now1 w u rec rest Hu Hins).
    rewrite (@refresh_ok be1 _ u (Some d1)) by (simpl; first [reflexivity | assumption]).
    rewrite Hopen1. unfold toggled. simpl. now rewrite <- app_assoc. }
  rewrite E1. split; [repeat split|].
  assert (E2 : exec (handleCheckOut be2 now2)
                 (mkWorld (Some u) d1 true (Some (id rec)) (console w)
                    (requests w ++ [InsertAttendance [mkInsert (AuthContext.id u) now1];
                                    SelectAttendance (AuthContext.id u)]))
               = mkWorld (Some u) d2 false None (console w)
                   (requests w ++ [InsertAttendance [mkInsert (AuthContext.id u) now1];
                                   SelectAttendance (AuthContext.id u);
                                   UpdateAttendance (mkUpdate now2) (id rec);
                                   SelectAttendance (AuthContext.id u)])).
  { unfold exec.
    erewrite handleCheckOut_ok by (first [reflexivity | eassumption]).
    rewrite (@refresh_ok be2 _ u (Some d2)) by (simpl; first [reflexivity | assumption]).
    rewrite Hopen2. unfold toggled. simpl. now rewrite <- !app_assoc. }
  rewrite E2. repeat split.
Qed.

(** X25.  A check-out closes one visit only.  When the refresh that
    follows a successful check-out still lists an open record (the member
    had another visit open), the member is shown as checked in again, now
    on that record, so a second check-out is needed. *)
Theorem check_out_with_another_open_visit be now w u i d other :
  userData w = Some u ->
  currentAttendanceId w = Some i -> i <> 0%Z ->
  update_attendance be (mkUpdate now) i = Resolved (mkResponse None None) ->
  select_attendance be (AuthContext.id u) = Resolved (mkResponse (Some d) None) ->
  find_open (Some d) = Some other ->
  let w' := exec (handleCheckOut be now) w in
  isCheckedIn w' = true
  /\ currentAttendanceId w' = Some (id other)
  /\ requests w'
     = (requests w ++ [UpdateAttendance (mkUpdate now) i;
                       SelectAttendance (AuthContext.id u)])%list.
Proof.
  intros Hu Hc Hi Hupd Hsel Hopen. cbv zeta. unfold exec.
  rewrite (@handleCheckOut_ok be now w i None Hc Hi Hupd).
  rewrite (@refresh_ok be _ u (Some d)) by (simpl; first [reflexivity | assumption]).
  rewrite Hopen. unfold toggled. simpl. now rewrite <- app_assoc.
Qed.

End ToggleFacts.

(* ================================================================== *)
(** * Properties of the member's workout plan *)
(* ================================================================== *)

Section PlanFacts.
Import MemberPlan.

Implicit Types (w : World) (be : Backend).

Ltac plan_run :=
  unfold fetchWorkoutPlan, fetchTrainerName, setWorkoutPlan, console_error, send,
    bind, gets, await, throw, modify, ret;
  simpl.

(** X26.  Fetching the workout plan: an error never changes the stored
    plan and never throws; the error with code [PGRST116] (no rows) is
    silent, every other error is logged once.  A query that resolves
    without error stores what it returned, also when that is nothing. *)
Theorem fetchWorkoutPlan_error_handling be w u :
  userData w = Some u ->
  (forall d e,
     workout_plan_of be (AuthContext.id u) = Resolved (mkSingle d (Some e)) ->
     let w' := exec (fetchWorkoutPlan be) w in
     eval (fetchWorkoutPlan be) w = Normal tt
     /\ workoutPlan w' = workoutPlan w
     /\ (code e = "PGRST116" -> console w' = console w)
     /\ (code e <> "PGRST116" -> length (console w') = S (length (console w))))
  /\ (forall d,
        workout_plan_of be (AuthContext.id u) = Resolved (mkSingle d None) ->
        let w' := exec (fetchWorkoutPlan be) w in
        eval (fetchWorkoutPlan be) w = Normal tt
        /\ workoutPlan w' = d
        /\ console w' = console w).
Proof.
  intros Hu. split.
  - intros d e H. cbv zeta. unfold exec, eval. plan_run. rewrite Hu. simpl.
    rewrite H. simpl.
    destruct (String.eqb_spec (code e) "PGRST116") as [Hc | Hc]; simpl.
    + repeat split; auto. congruence.
    + repeat split; auto; try congruence.
      intros _. rewrite length_app. simpl. lia.
  - intros d H. cbv zeta. unfold exec, eval. plan_run. rewrite Hu. simpl.
    rewrite H. simpl. repeat split.
Qed.

(** X27.  Fetching the trainer's name touches nothing but the name.
    Without a plan, or with a plan that names no trainer, no query is
    sent.  When the name arrives, the stored plan is the same plan with
    that name, and the card reads "Assigned by" that name; when the query
    resolves with an error the plan is unchanged, so a plan that came
    without a name reads "Assigned by your trainer". *)
Theorem fetchTrainerName_only_names be w :
  (workoutPlan w = None -> fetchTrainerName be w = (Normal tt, w))
  /\ (forall p, workoutPlan w = Some p -> trainer_id p = "" ->
        fetchTrainerName be w = (Normal tt, w))
  /\ (forall p n,
        workoutPlan w = Some p -> trainer_id p <> "" ->
        user_name_of be (trainer_id p) = Resolved (mkSingle (Some n) None) ->
        let w' := exec (fetchTrainerName be) w in
        exists p',
          workoutPlan w' = Some p'
          /\ trainer_name p' = Some n
          /\ id p' = id p /\ member_id p' = member_id p
          /\ trainer_id p' = trainer_id p /\ created_at p' = created_at p
          /\ plan_details p' = plan_details p
          /\ (n <> "" -> plan_description (workoutPlan w') = "Assigned by " ++ n))
  /\ (forall p d e,
        workoutPlan w = Some p -> trainer_id p <> "" ->
        user_name_of be (trainer_id p) = Resolved (mkSingle d (Some e)) ->
        let w' := exec (fetchTrainerName be) w in
        eval (fetchTrainerName be) w = Normal tt
        /\ workoutPlan w' = Some p
        /\ (trainer_name p = None ->
            plan_description (workoutPlan w') = "Assigned by your trainer")).
Proof.
  split; [|split; [|split]].
  - intros H. plan_run. now rewrite H.
  - intros p H Ht. plan_run. rewrite H, Ht. reflexivity.
  - intros p n H Ht Hn. cbv zeta. unfold exec. plan_run. rewrite H.
    apply String.eqb_neq in Ht. unfold truthy_string. rewrite Ht. simpl.
    rewrite Hn. simpl. rewrite H. simpl.
    exists (with_trainer_name n p). repeat split.
    intros Hne. apply String.eqb_neq in Hne. unfold truthy_string. now rewrite Hne.
  - intros p d e H Ht He. cbv zeta. unfold exec, eval. plan_run. rewrite H.
    apply String.eqb_neq in Ht. unfold truthy_string. rewrite Ht. simpl.
    rewrite He. simpl. rewrite H. repeat split.
    intros Hnone. simpl. now rewrite Hnone.
Qed.

End PlanFacts.

(* ================================================================== *)
(** * Properties of the trainer's attendance list *)
(* ================================================================== *)

Section TrainerFacts.
Import TrainerDashboard.

Implicit Types (w : World) (be : Backend).

Ltac trainer_run :=
  unfold todaysAttendance_queryFn, console_error, send, bind, await, modify, ret;
  simpl.

Lemma or_else_some s fallback : s <> "" -> or_else (Some s) fallback = s.
Proof.
  intros H. apply String.eqb_neq in H. unfold or_else. simpl.
  unfold truthy_string. now rewrite H.
Qed.

(** X28.  Today's attendance lists every member of the trainer, once and
    in the order of the members query, whether or not the member has a
    record today.  A member with no record for today is "not_marked"; a
    member with records gets the status of the first one.  When either
    query resolves with an error, or the trainer has no members, the list
    is empty and (in the latter case) no attendance query is sent. *)
Theorem todaysAttendance_lists_every_member be now w tid members att :
  tid <> "" ->
  members_of be tid = Resolved (mkResponse (Some members) None) ->
  attendance_on be (AuthProvider.split_first "T" now) (map id members)
  = Resolved (mkResponse att None) ->
  exists result,
    eval (todaysAttendance_queryFn be now (Some tid)) w = Normal result
    /\ map marked_id result = map id members
    /\ (forall m,
          In m members ->
          (forall a, In a (match att with Some l => l | None => [] end) ->
                     member_id a <> Some (id m)) ->
          In (mkMarked (id m) (or_else (users_name m) "Unknown") "not_marked") result)
    /\ (forall m a s,
          In m members ->
          find (same_member m) (match att with Some l => l | None => [] end) = Some a ->
          status a = Some s -> s <> "" ->
          In (mkMarked (id m) (or_else (users_name m) "Unknown") s) result).
Proof.
  intros Ht Hm Ha. exists (map (combine att) members).
  split; [|split; [|split]].
  - unfold eval. trainer_run.
    apply String.eqb_neq in Ht. unfold truthy_string. rewrite Ht. simpl.
    rewrite Hm. simpl. destruct members as [|m0 ms]; [reflexivity|].
    simpl in Ha. simpl. rewrite Ha. reflexivity.
  - rewrite map_map. reflexivity.
  - intros m Hin Hnone.
    replace (mkMarked (id m) (or_else (users_name m) "Unknown") "not_marked")
      with (combine att m); [now apply in_map|].
    unfold combine. destruct att as [l|]; [|reflexivity].
    destruct (find (same_member m) l) as [a|] eqn:Hf; [|reflexivity].
    exfalso. apply find_some in Hf. destruct Hf as [Hina Hsame].
    apply (Hnone a Hina). unfold same_member in Hsame.
    destruct (member_id a) as [x|]; [|discriminate].
    apply String.eqb_eq in Hsame. now subst.
  - intros m a s Hin Hf Hs Hne.
    replace (mkMarked (id m) (or_else (users_name m) "Unknown") s)
      with (combine att m); [now apply in_map|].
    unfold combine. destruct att as [l|]; [|discriminate Hf].
    rewrite Hf, Hs. now rewrite (or_else_some "not_marked" Hne).
Qed.

(** X29.  The attendance list is empty, and nothing is thrown, when there
    is no trainer id (then nothing is sent), when the members query
    resolves with an error or with no members (then no attendance query is
    sent), and when the attendance query resolves with an error. *)
Theorem todaysAttendance_empty_cases be now w :
  todaysAttendance_queryFn be now None w = (Normal [], w)
  /\ todaysAttendance_queryFn be now (Some "") w = (Normal [], w)
  /\ (forall tid d e,
        tid <> "" ->
        members_of be tid = Resolved (mkResponse d (Some e)) ->
        todaysAttendance_queryFn be now (Some tid) w
        = (Normal [],
           mkWorld (console w ++ [mkLog ErrorLevel "Error fetching members:" [LError e]])
                   (requests w ++ [SelectMembersOf tid])))
  /\ (forall tid d,
        tid <> "" ->
        members_of be tid = Resolved (mkResponse d None) ->
        d = None \/ d = Some [] ->
        todaysAttendance_queryFn be now (Some tid) w
        = (Normal [], mkWorld (console w) (requests w ++ [SelectMembersOf tid])))
  /\ (forall tid m ms d e,
        tid <> "" ->
        members_of be tid = Resolved (mkResponse (Some (m :: ms)) None) ->
        attendance_on be (AuthProvider.split_first "T" now) (map id (m :: ms))
        = Resolved (mkResponse d (Some e)) ->
        eval (todaysAttendance_queryFn be now (Some tid)) w = Normal []).
Proof.
  split; [reflexivity|]. split; [reflexivity|].
  split; [|split].
  - intros tid d e Ht H. trainer_run.
    apply String.eqb_neq in Ht. unfold truthy_string. rewrite Ht. simpl.
    rewrite H. reflexivity.
  - intros tid d Ht H Hd. trainer_run.
    apply String.eqb_neq in Ht. unfold truthy_string. rewrite Ht. simpl.
    rewrite H. simpl. destruct Hd as [-> | ->]; reflexivity.
  - intros tid m ms d e Ht H Ha. unfold eval. trainer_run.
    apply String.eqb_neq in Ht. unfold truthy_string. rewrite Ht. simpl.
    rewrite H. simpl. simpl in Ha. rewrite Ha. reflexivity.
Qed.

End TrainerFacts.

(* ================================================================== *)
(** * The further properties at sample inputs *)
(* ================================================================== *)

Section MoreWitnesses.
Import AuthContext Guard Samples MoreSamples.

Lemma fetchUserData_success_lands_witness :
  let found := fun _ : string =>
    Resolved (mkResponse (Some (profile "member")) None) in
  let w' := exec (fetchUserData found "u-1") (at_path "/auth" pending) in
  userData (auth w') = Some (profile "member")
  /\ location w' = mkLocation "/member" "" ""
  /\ navigations w' = ["/member"].
Proof.
  cbv zeta.
  destruct (@fetchUserData_success_lands
              (fun _ : string => Resolved (mkResponse (Some (profile "member")) None))
              "u-1" (at_path "/auth" pending) (profile "member") eq_refl)
    as (Hud & _ & Hland & _).
  split; [exact Hud|]. apply Hland; [reflexivity|]. right; right; reflexivity.
Defined.

Lemma signUp_creates_role_record_witness :
  let s' := exec (AuthProvider.signUp api_ok noon "a@b.c" "secret" "Alice" "member")
                 (shell_at "/auth" anonymous) in
  eval (AuthProvider.signUp api_ok noon "a@b.c" "secret" "Alice" "member")
       (shell_at "/auth" anonymous) = Normal tt
  /\ AuthProvider.calls s'
     = [AuthProvider.AuthSignUp "a@b.c" "secret";
        AuthProvider.InsertUser "u-1" "a@b.c" "Alice" "member";
        AuthProvider.InsertMember "u-1" "2024-05-02"]
  /\ AuthProvider.toasts s'
     = [AuthProvider.mkToast "Account created" "You've successfully signed up" false].
Proof.
  cbv zeta.
  destruct (@signUp_creates_role_record api_ok noon "a@b.c" "secret" "Alice" "member"
              (shell_at "/auth" anonymous) alice eq_refl eq_refl) as (Hm & _).
  apply Hm; reflexivity.
Defined.

Lemma signUp_fails_after_account_created_witness :
  let s' := exec (AuthProvider.signUp api_no_members noon "a@b.c" "secret" "Alice" "member")
                 (shell_at "/auth" anonymous) in
  eval (AuthProvider.signUp api_no_members noon "a@b.c" "secret" "Alice" "member")
       (shell_at "/auth" anonymous) = Throw (mkError "row-level security")
  /\ AuthProvider.toasts s'
     = [AuthProvider.mkToast "Account created" "You've successfully signed up" false;
        AuthProvider.mkToast "Error signing up" "row-level security" true]
  /\ exists last,
       AuthProvider.calls s'
       = [AuthProvider.AuthSignUp "a@b.c" "secret";
          AuthProvider.InsertUser "u-1" "a@b.c" "Alice" "member"; last].
Proof.
  cbv zeta.
  apply (@signUp_fails_after_account_created api_no_members noon "a@b.c" "secret"
           "Alice" "member" (shell_at "/auth" anonymous) alice
           (mkError "row-level security") eq_refl eq_refl).
  left. split; [reflexivity|]. left. reflexivity.
Defined.

Lemma signUp_without_account_writes_nothing_witness :
  exists e,
    AuthProvider.signUp api_down noon "a@b.c" "secret" "Alice" "member"
      (shell_at "/auth" anonymous)
    = (Throw e,
       AuthProvider.told (shell_at "/auth" anonymous)
         [AuthProvider.AuthSignUp "a@b.c" "secret"]
         [AuthProvider.mkToast "Error signing up" (message e) true]).
Proof.
  apply (@signUp_without_account_writes_nothing api_down noon "a@b.c" "secret"
           "Alice" "member" (shell_at "/auth" anonymous)).
  intros u H. discriminate H.
Defined.

Lemma signed_out_event_then_guard_witness :
  let s := shell_at "/admin/users" (ready "admin") in
  let s' := exec (AuthProvider.onAuthStateChange_callback None) s in
  session (auth (AuthProvider.world s')) = None
  /\ user (auth (AuthProvider.world s')) = None
  /\ userData (auth (AuthProvider.world s')) = None
  /\ AuthProvider.timers s' = []
  /\ location (AuthProvider.world s') = mkLocation "/admin/users" "" ""
  /\ eval (ProtectedRoute admin_page) (AuthProvider.world s')
     = Normal (Navigate "/auth"
                 (Some (mkNavState (mkLocation "/admin/users" "" ""))) true).
Proof.
  cbv zeta.
  apply (@signed_out_event_then_guard string
           (shell_at "/admin/users" (ready "admin")) admin_page).
  reflexivity.
Defined.

Lemma signed_in_event_then_timers_witness :
  let s1 := exec (AuthProvider.onAuthStateChange_callback (Some alice_session))
                 (shell_at "/auth" anonymous) in
  let s2 := exec (AuthProvider.run_timers api_ok) s1 in
  (userData (auth (AuthProvider.world s1)) = None
   /\ AuthProvider.timers s1 = ["u-1"])
  /\ (userData (auth (AuthProvider.world s2)) = Some (profile "member")
      /\ requests (AuthProvider.world s2) = [SelectUserById "u-1"]
      /\ AuthProvider.timers s2 = []).
Proof.
  cbv zeta.
  destruct (@signed_in_event_then_timers api_ok (shell_at "/auth" anonymous)
              alice_session (profile "member") eq_refl eq_refl)
    as ((_ & _ & H1 & _ & H2) & (_ & _ & H3 & H4 & H5)).
  repeat split; assumption.
Defined.

Lemma setupAuth_finishes_loading_witness :
  let s := shell_at "/member" (mkAuthState None None None true) in
  let s' := exec (AuthProvider.setupAuth api_ok) s in
  eval (AuthProvider.setupAuth api_ok) s = Normal tt
  /\ isLoading (auth (AuthProvider.world s')) = false
  /\ session (auth (AuthProvider.world s')) = Some alice_session
  /\ user (auth (AuthProvider.world s')) = Some alice
  /\ AuthProvider.calls s' = [AuthProvider.OnAuthStateChange; AuthProvider.GetSession].
Proof.
  cbv zeta.
  destruct (@setupAuth_finishes_loading api_ok
              (shell_at "/member" (mkAuthState None None None true))
              (Some alice_session) eq_refl)
    as (H1 & H2 & H3 & H4 & H5 & _).
  repeat split; assumption.
Defined.

Lemma failed_start_up_keeps_loading_witness :
  let s := shell_at "/member" (mkAuthState None None None true) in
  let steps := [AuthProvider.AuthEvent (Some alice_session); AuthProvider.Timers;
                AuthProvider.DoSignOut] in
  let s' := AuthProvider.after_steps api_down steps
              (exec (AuthProvider.setupAuth api_down) s) in
  eval (AuthProvider.setupAuth api_down) s = Throw (mkError "Failed to fetch")
  /\ isLoading (auth (AuthProvider.world s')) = true
  /\ eval (ProtectedRoute member_page) (AuthProvider.world s') = Normal LoadingIndicator.
Proof.
  cbv zeta.
  apply (@failed_start_up_keeps_loading string api_down
           (shell_at "/member" (mkAuthState None None None true))
           (mkError "Failed to fetch")).
  reflexivity.
Defined.

(** The join date of a sign-up at noon on 2 May 2024. *)
Example split_first_iso_date :
  AuthProvider.split_first "T" noon = "2024-05-02".
Proof. reflexivity. Qed.

Lemma guard_redirect_lands_witness :
  exists r,
    App.route_at "/admin" = Some r
    /\ eval (App.route_element r) (App.follow "/admin" (at_path "/trainer" (ready "admin")))
       = Normal (Fragment (App.page r)).
Proof.
  apply (@guard_redirect_lands string trainer_page
           (at_path "/trainer" (ready "admin")) "/admin" None true).
  reflexivity.
Defined.

Lemma totalRevenue_null_amount_is_nan_witness :
  eval (AdminDashboard.totalRevenue_queryFn admin_backend_null) fresh_admin_page
  = Normal nan
  /\ AdminDashboard.totalRevenue
       (AdminDashboard.useQuery_data
          (eval (AdminDashboard.totalRevenue_queryFn admin_backend_null)
                fresh_admin_page))
     = nan.
Proof.
  apply (@totalRevenue_null_amount_is_nan admin_backend_null fresh_admin_page
           payments_with_null (AdminDashboard.mkPayment None)).
  - reflexivity.
  - right. left. reflexivity.
  - reflexivity.
Defined.

Lemma check_in_then_out_round_trip_witness :
  let w1 := exec (MemberDashboard.handleCheckIn backend_during noon) fresh_member_page in
  let w2 := exec (MemberDashboard.handleCheckOut backend_after "2024-05-02T13:00:00.000Z") w1 in
  (MemberDashboard.isCheckedIn w1 = true
   /\ MemberDashboard.currentAttendanceId w1 = Some 12%Z
   /\ MemberDashboard.attendanceHistory w1 = [visit12_open])
  /\ (MemberDashboard.isCheckedIn w2 = false
      /\ MemberDashboard.currentAttendanceId w2 = None
      /\ MemberDashboard.attendanceHistory w2 = [visit12_closed])
  /\ MemberDashboard.requests w2
     = [MemberDashboard.InsertAttendance [MemberDashboard.mkInsert "u-1" noon];
        MemberDashboard.SelectAttendance "u-1";
        MemberDashboard.UpdateAttendance
          (MemberDashboard.mkUpdate "2024-05-02T13:00:00.000Z") 12%Z;
        MemberDashboard.SelectAttendance "u-1"].
Proof.
  cbv zeta.
  apply (@check_in_then_out_round_trip backend_during backend_after noon
           "2024-05-02T13:00:00.000Z" fresh_member_page (profile "member")
           visit12_open [] [visit12_open] [visit12_closed]);
    try reflexivity.
  discriminate.
Defined.

Lemma check_out_with_another_open_visit_witness :
  let w' := exec (MemberDashboard.handleCheckOut backend_after_two
                    "2024-05-02T13:00:00.000Z") checked_in_page in
  MemberDashboard.isCheckedIn w' = true
  /\ MemberDashboard.currentAttendanceId w' = Some 9%Z
  /\ MemberDashboard.requests w'
     = [MemberDashboard.UpdateAttendance
          (MemberDashboard.mkUpdate "2024-05-02T13:00:00.000Z") 12%Z;
        MemberDashboard.SelectAttendance "u-1"].
Proof.
  cbv zeta.
  apply (@check_out_with_another_open_visit backend_after_two
           "2024-05-02T13:00:00.000Z" checked_in_page (profile "member") 12%Z
           [visit12_closed; visit9_open] visit9_open);
    try reflexivity.
  discriminate.
Defined.

Lemma fetchWorkoutPlan_error_handling_witness :
  (let w' := exec (MemberPlan.fetchWorkoutPlan (plan_backend "PGRST116")) fresh_plan_page in
   MemberPlan.workoutPlan w' = None /\ MemberPlan.console w' = [])
  /\ (let w' := exec (MemberPlan.fetchWorkoutPlan (plan_backend "42501")) fresh_plan_page in
      MemberPlan.workoutPlan w' = None /\ length (MemberPlan.console w') = 1%nat).
Proof.
  cbv zeta.
  destruct (@fetchWorkoutPlan_error_handling (plan_backend "PGRST116") fresh_plan_page
              (profile "member") eq_refl) as (Hsilent & _).
  destruct (@fetchWorkoutPlan_error_handling (plan_backend "42501") fresh_plan_page
              (profile "member") eq_refl) as (Hloud & _).
  split.
  - destruct (Hsilent None (MemberPlan.mkPgError "PGRST116" "query failed") eq_refl)
      as (_ & Hp & Hq & _).
    split; [exact Hp | apply Hq; reflexivity].
  - destruct (Hloud None (MemberPlan.mkPgError "42501" "query failed") eq_refl)
      as (_ & Hp & _ & Hq).
    split; [exact Hp | apply Hq; discriminate].
Defined.

Lemma todaysAttendance_lists_every_member_witness :
  exists result,
    eval (TrainerDashboard.todaysAttendance_queryFn trainer_backend noon (Some "t-a"))
         fresh_trainer_page = Normal result
    /\ map TrainerDashboard.marked_id result = ["m-1"; "m-2"].
Proof.
  destruct (@todaysAttendance_lists_every_member trainer_backend noon
              fresh_trainer_page "t-a" trainees
              (Some [TrainerDashboard.mkAttendance "a-1" (Some "m-1") (Some "present")]))
    as (result & He & Hids & _); try reflexivity; [discriminate|].
  exists result. split; assumption.
Defined.

(** The list for the sample trainer: Bo is present, the member without a
    name and without a record is listed as unknown and not marked. *)
Example todaysAttendance_sample :
  eval (TrainerDashboard.todaysAttendance_queryFn trainer_backend noon (Some "t-a"))
       fresh_trainer_page
  = Normal [TrainerDashboard.mkMarked "m-1" "Bo" "present";
            TrainerDashboard.mkMarked "m-2" "Unknown" "not_marked"].
Proof. reflexivity. Qed.

End MoreWitnesses.

Section StartUpFacts.
Import AuthContext AuthProvider Guard.

Variable ReactNode : Type.

(** X30.  Start-up with a session whose profile cannot be fetched ends
    with loading over, the user present and no profile; from then on the
    guard renders the guarded content of every route, whatever roles the
    route allows, because its role check needs a profile. *)
Theorem start_up_without_profile_opens_every_route
    (api : Api) (s : Shell) sess e (props : ProtectedRouteProps ReactNode) :
  getSession api = Resolved (Some sess) ->
  (users_single api (user_id (session_user sess)) = Rejected e
   \/ exists d, users_single api (user_id (session_user sess))
                = Resolved (mkResponse d (Some e))) ->
  let s' := exec (setupAuth api) s in
  isLoading (auth (world s')) = false
  /\ user (auth (world s')) = Some (session_user sess)
  /\ userData (auth (world s')) = None
  /\ eval (ProtectedRoute props) (world s') = Normal (Fragment (children props)).
Proof.
  intros Hs Hf. cbv zeta.
  assert (E : exists w',
             exec (setupAuth api) s
             = mkShell w' (toasts s) (calls s ++ [OnAuthStateChange; GetSession])
                       (timers s)
             /\ isLoading (auth w') = false
             /\ user (auth w') = Some (session_user sess)
             /\ userData (auth w') = None).
  { unfold exec, setupAuth, lift, call, setSession, setUser, setIsLoading, set_auth,
      bind, await, modify, ret. simpl. rewrite Hs. simpl.
    destruct Hf as [Hf | [d Hf]];
      [erewrite fetchUserData_rejected by exact Hf
      | erewrite fetchUserData_error by exact Hf];
      simpl; rewrite <- app_assoc; eexists; repeat split. }
  destruct E as (w' & -> & Hl & Hu & Hd). simpl.
  repeat split; auto.
  unfold eval. erewrite ProtectedRoute_granted_no_profile by eassumption.
  reflexivity.
Qed.

End StartUpFacts.

Section StartUpWitness.
Import AuthContext Guard Samples MoreSamples.

Lemma start_up_without_profile_opens_every_route_witness :
  let s' := exec (AuthProvider.setupAuth api_no_profile)
                 (shell_at "/admin/users" (mkAuthState None None None true)) in
  isLoading (auth (AuthProvider.world s')) = false
  /\ user (auth (AuthProvider.world s')) = Some alice
  /\ userData (auth (AuthProvider.world s')) = None
  /\ eval (ProtectedRoute admin_page) (AuthProvider.world s')
     = Normal (Fragment "AdminUsers").
Proof.
  cbv zeta.
  apply (@start_up_without_profile_opens_every_route string api_no_profile
           (shell_at "/admin/users" (mkAuthState None None None true))
           alice_session (mkError "JWT expired") admin_page).
  - reflexivity.
  - right. exists None. reflexivity.
Defined.

End StartUpWitness.
